(** * Nekazari Odoo connector: tenant-aware entity synchronisation

    A shallow embedding of the backend of the Nekazari Odoo module
    (backend/app/services/ngsi_sync.py, services/database.py,
    routers/tenant.py, routers/sync.py, routers/webhook.py) together with
    the properties of its synchronisation engine.

    Modelling conventions.
    - JSON payloads are values of [pyval]; a Python [dict] is an association
      list in insertion order, looked up by its first binding of a key.
    - The three PostgreSQL tables are lists of rows; the [ON CONFLICT]
      clauses of the SQL statements are written out.
    - Coroutines become functions [world -> world * result A]: the state is
      threaded explicitly and a raised exception is the [Raise] outcome,
      carrying [str(e)].
    - The Odoo server and the context broker are outside the repository:
      the server's XML-RPC endpoints are the interface [OdooServer], on
      which the gateway [OdooClient] is written out, and the broker is a
      record of response oracles, [ContextBroker].
    - [datetime.utcnow()] and SQL [NOW()] read a logical clock kept in the
      world. Log statements have no counterpart. *)

From Stdlib Require Import String Ascii List ZArith Bool Lia.
Import ListNotations.
Open Scope string_scope.
Open Scope Z_scope.

(** ** Python values and the string operations the code relies on *)

Module Py.

(** A decoded JSON value. A float is kept as its [repr]; the code never
    computes with one. *)
#[warnings="-register-all"]
Inductive pyval : Type :=
| PNone
| PBool (b : bool)
| PInt (z : Z)
| PFloat (repr : string)
| PStr (s : string)
| PList (l : list pyval)
| PDict (d : list (string * pyval)).

Definition pydict := list (string * pyval).

(** Truth value of an object, as tested by [if], [not], [and], [or]. *)
Definition truthy (v : pyval) : bool :=
  match v with
  | PNone => false
  | PBool b => b
  | PInt z => negb (z =? 0)
  | PFloat r => negb (String.eqb r "0.0" || String.eqb r "-0.0")
  | PStr s => negb (String.eqb s "")
  | PList l => match l with [] => false | _ => true end
  | PDict d => match d with [] => false | _ => true end
  end.

(** [a or b] *)
Definition py_or (a b : pyval) : pyval := if truthy a then a else b.

Fixpoint dict_lookup {A : Type} (d : list (string * A)) (k : string) : option A :=
  match d with
  | [] => None
  | (k', v) :: d' => if String.eqb k' k then Some v else dict_lookup d' k
  end.

(** [k in d] *)
Definition dict_has {A : Type} (d : list (string * A)) (k : string) : bool :=
  match dict_lookup d k with Some _ => true | None => false end.

(** [d.get(k, default)] *)
Definition dict_get_default (d : pydict) (k : string) (default : pyval) : pyval :=
  match dict_lookup d k with Some v => v | None => default end.

(** [d.get(k)] *)
Definition dict_get (d : pydict) (k : string) : pyval := dict_get_default d k PNone.

(** [d[k] = v]: an existing key keeps its position. *)
Fixpoint dict_set {A : Type} (d : list (string * A)) (k : string) (v : A)
  : list (string * A) :=
  match d with
  | [] => [(k, v)]
  | (k', v') :: d' =>
      if String.eqb k' k then (k', v) :: d' else (k', v') :: dict_set d' k v
  end.

(** [d.update(other)] *)
Definition dict_update {A : Type} (d other : list (string * A)) : list (string * A) :=
  fold_left (fun acc kv => dict_set acc (fst kv) (snd kv)) other d.

(** [s.split(sep)] for a one-character separator: every occurrence splits,
    empty pieces are kept, and the result is never empty. *)
Fixpoint split (sep : ascii) (s : string) : list string :=
  match s with
  | EmptyString => [EmptyString]
  | String c rest =>
      if Ascii.eqb c sep then EmptyString :: split sep rest
      else match split sep rest with
           | [] => [String c EmptyString]
           | piece :: pieces => String c piece :: pieces
           end
  end.

(** [sep.join(pieces)] *)
Fixpoint join (sep : string) (pieces : list string) : string :=
  match pieces with
  | [] => EmptyString
  | [p] => p
  | p :: rest => p ++ sep ++ join sep rest
  end.

Definition lower_ascii (c : ascii) : ascii :=
  let n := nat_of_ascii c in
  if ((65 <=? n)%nat && (n <=? 90)%nat)%bool then ascii_of_nat (n + 32) else c.

(** [s.lower()] on ASCII text (the declared types are ASCII). *)
Fixpoint lower (s : string) : string :=
  match s with
  | EmptyString => EmptyString
  | String c rest => String (lower_ascii c) (lower rest)
  end.

(** Clamp a slice bound as [l[start:stop]] does. *)
Definition slice_bound (len i : Z) : nat :=
  Z.to_nat (if i <? 0 then Z.max 0 (len + i) else Z.min i len).

(** [l[start:stop]] *)
Definition py_slice {A : Type} (l : list A) (start stop : Z) : list A :=
  let len := Z.of_nat (length l) in
  let a := slice_bound len start in
  let b := slice_bound len stop in
  firstn (b - a) (skipn a l).

(** [l[i]], [None] standing for [IndexError]. *)
Definition py_index {A : Type} (l : list A) (i : Z) : option A :=
  let len := Z.of_nat (length l) in
  let j := if i <? 0 then len + i else i in
  if (j <? 0) || (len <=? j) then None else nth_error l (Z.to_nat j).

End Py.
Import Py.

(** Python's built-in [str] on a JSON value. Its rendering of numbers,
    lists and dicts plays no part in the properties below, so it is taken
    as given. *)
Class PyStr : Type := py_str : pyval -> string.

(** ** Outcomes of a call *)

Inductive result (A : Type) : Type :=
| Ok (a : A)
| Raise (msg : string).
Arguments Ok {A} a.
Arguments Raise {A} msg.

(** A coroutine over the state [S]. *)
Definition M (S A : Type) : Type := S -> S * result A.

Definition ret {S A : Type} (a : A) : M S A := fun s => (s, Ok a).
Definition raise {S A : Type} (msg : string) : M S A := fun s => (s, Raise msg).
Definition bind {S A B : Type} (c : M S A) (k : A -> M S B) : M S B :=
  fun s => match c s with
           | (s', Ok a) => k a s'
           | (s', Raise msg) => (s', Raise msg)
           end.
(** [try: c  except Exception as e: handler(str(e))] *)
Definition try_except {S A : Type} (c : M S A) (handler : string -> M S A) : M S A :=
  fun s => match c s with
           | (s', Ok a) => (s', Ok a)
           | (s', Raise msg) => handler msg s'
           end.
Definition lift {S A : Type} (r : result A) : M S A := fun s => (s, r).

Declare Scope coro_scope.
Delimit Scope coro_scope with coro.
Notation "x <- c ;; k" := (bind c (fun x => k))
  (at level 61, c at next level, right associativity) : coro_scope.
Notation "c >> k" := (bind c (fun _ => k))
  (at level 61, right associativity) : coro_scope.

(** ** The platform database (services/database.py) *)

Module Database.

(** A reading of the logical clock. *)
Definition timestamp := nat.

(** A row of [odoo_tenant_info]. *)
Record tenant_row : Type := {
  t_tenant_id : string;
  t_name : option string;
  t_database : option string;
  t_status : option string;
  t_energy_modules_enabled : bool;
  t_installed_modules : list string;
  t_admin_email : option string;
  t_created_at : option timestamp;
  t_updated_at : timestamp;
  t_error : option string
}.

(** A row of [odoo_entity_mappings]. The serial [id] and [created_at]
    columns, which no statement reads or sets, are left out. *)
Record mapping_row : Type := {
  m_tenant_id : string;
  m_ngsi_id : string;
  m_ngsi_type : string;
  m_odoo_id : Z;
  m_odoo_model : string;
  m_odoo_name : option string;
  m_last_sync : option timestamp
}.

(** A row of [odoo_sync_status]. *)
Record status_row : Type := {
  s_tenant_id : string;
  s_status : option string;
  s_last_sync : option timestamp;
  s_entities_synced : Z;
  s_errors : list string;
  s_updated_at : timestamp
}.

(** The state the coroutines run in: the three tables, the clock, and the
    state [E] of the Odoo server behind the gateway. *)
Record world (E : Type) : Type := {
  tenant_info : list tenant_row;
  entity_mappings : list mapping_row;
  sync_status : list status_row;
  clock : timestamp;
  odoo : E
}.
Arguments tenant_info {E} w.
Arguments entity_mappings {E} w.
Arguments sync_status {E} w.
Arguments clock {E} w.
Arguments odoo {E} w.

Section Tables.
Context {E : Type}.

Definition set_tenant_info (rows : list tenant_row) (w : world E) : world E :=
  {| tenant_info := rows; entity_mappings := entity_mappings w;
     sync_status := sync_status w; clock := clock w; odoo := odoo w |}.
Definition set_entity_mappings (rows : list mapping_row) (w : world E) : world E :=
  {| tenant_info := tenant_info w; entity_mappings := rows;
     sync_status := sync_status w; clock := clock w; odoo := odoo w |}.
Definition set_sync_status (rows : list status_row) (w : world E) : world E :=
  {| tenant_info := tenant_info w; entity_mappings := entity_mappings w;
     sync_status := rows; clock := clock w; odoo := odoo w |}.
Definition set_odoo (e : E) (w : world E) : world E :=
  {| tenant_info := tenant_info w; entity_mappings := entity_mappings w;
     sync_status := sync_status w; clock := clock w; odoo := e |}.

(** Read the clock; every reading advances it. *)
Definition utcnow : M (world E) timestamp :=
  fun w => ({| tenant_info := tenant_info w; entity_mappings := entity_mappings w;
               sync_status := sync_status w; clock := S (clock w); odoo := odoo w |},
            Ok (clock w)).

(** *** Tenant info *)

(** [SELECT * FROM odoo_tenant_info WHERE tenant_id = $1], first row. *)
Definition get_tenant_odoo_info (tenant_id : string) : M (world E) (option tenant_row) :=
  fun w => (w, Ok (find (fun r => String.eqb (t_tenant_id r) tenant_id) (tenant_info w))).

(** What a caller hands over where a time is expected: nothing, a
    [datetime], or the text [datetime.isoformat()] gives for one. *)
Inductive time_argument : Type :=
| NoTime
| Datetime (t : timestamp)
| IsoFormat (t : timestamp).

(** A query argument bound to a [TIMESTAMP WITH TIME ZONE] parameter: the
    driver encodes a [datetime] or null and refuses a string. The message
    stands for the driver's, which names the parameter by its position and
    quotes the value. *)
Definition timestamptz_nullable (column : string) (v : time_argument)
  : result (option timestamp) :=
  match v with
  | NoTime => Ok None
  | Datetime t => Ok (Some t)
  | IsoFormat _ =>
      Raise ("invalid input for query argument " ++ column ++ ": expected datetime")
  end.

(** The [info] dict handed to [save_tenant_odoo_info]: a key is either
    absent or bound. [started_at] and [failed_at] are keys the callers set. *)
Record tenant_info_dict : Type := {
  i_name : option string;
  i_database : option string;
  i_status : option string;
  i_energy_modules_enabled : option bool;
  i_installed_modules : option (list string);
  i_admin_email : option string;
  i_created_at : time_argument;
  i_error : option string;
  i_started_at : time_argument;
  i_failed_at : time_argument
}.

(** SQL [COALESCE(a, b)] *)
Definition coalesce {A : Type} (a b : option A) : option A :=
  match a with Some _ => a | None => b end.

(** The row the [INSERT] of [save_tenant_odoo_info] proposes: the eight
    listed columns, [created_at] as the driver encoded it, and [NOW()];
    [error] is not among them. *)
Definition tenant_insert_row (tenant_id : string) (info : tenant_info_dict)
    (created_at : option timestamp) (now : timestamp) : tenant_row :=
  {| t_tenant_id := tenant_id;
     t_name := i_name info;
     t_database := i_database info;
     t_status := i_status info;
     t_energy_modules_enabled :=
       match i_energy_modules_enabled info with Some b => b | None => false end;
     t_installed_modules :=
       match i_installed_modules info with Some l => l | None => [] end;
     t_admin_email := i_admin_email info;
     t_created_at := created_at;
     t_updated_at := now;
     t_error := None |}.

(** [ON CONFLICT (tenant_id) DO UPDATE SET ...] of [save_tenant_odoo_info]. *)
Definition tenant_conflict_update (old excluded : tenant_row) : tenant_row :=
  {| t_tenant_id := t_tenant_id old;
     t_name := coalesce (t_name excluded) (t_name old);
     t_database := coalesce (t_database excluded) (t_database old);
     t_status := coalesce (t_status excluded) (t_status old);
     t_energy_modules_enabled := t_energy_modules_enabled excluded;
     t_installed_modules := t_installed_modules excluded;
     t_admin_email := coalesce (t_admin_email excluded) (t_admin_email old);
     t_created_at := t_created_at old;
     t_updated_at := t_updated_at excluded;
     t_error := t_error old |}.

(** [INSERT ... ON CONFLICT (key) DO UPDATE] on a table kept as a list:
    a row with the key is updated in place, otherwise the new row is
    appended. *)
Definition upsert {R : Type} (same_key : R -> bool) (on_conflict : R -> R)
    (new_row : R) (rows : list R) : list R :=
  if existsb same_key rows
  then map (fun r => if same_key r then on_conflict r else r) rows
  else rows ++ [new_row].

(** [save_tenant_odoo_info(tenant_id, info)]. Of the arguments of the
    upsert only [created_at] can have a type the driver refuses; the
    statement is not sent then. *)
Definition save_tenant_odoo_info (tenant_id : string) (info : option tenant_info_dict)
  : M (world E) unit :=
  fun w =>
    match info with
    | None =>
        (set_tenant_info
           (filter (fun r => negb (String.eqb (t_tenant_id r) tenant_id)) (tenant_info w)) w,
         Ok tt)
    | Some info =>
        match timestamptz_nullable "created_at" (i_created_at info) with
        | Raise msg => (w, Raise msg)
        | Ok created_at =>
            let new_row := tenant_insert_row tenant_id info created_at (clock w) in
            (set_tenant_info
               (upsert (fun r => String.eqb (t_tenant_id r) tenant_id)
                       (fun old => tenant_conflict_update old new_row)
                       new_row (tenant_info w)) w,
             Ok tt)
        end
    end.

(** *** Entity mappings *)

(** [WHERE tenant_id = $1 AND ngsi_type = $2], or [WHERE tenant_id = $1]
    when the type filter is absent or empty. *)
Definition get_entity_mappings (tenant_id : string) (ngsi_type : option string)
  : M (world E) (list mapping_row) :=
  fun w =>
    let by_type :=
      match ngsi_type with
      | Some ty => negb (String.eqb ty "")
      | None => false
      end in
    let rows :=
      if by_type
      then filter (fun r => String.eqb (m_tenant_id r) tenant_id
                            && match ngsi_type with
                               | Some ty => String.eqb (m_ngsi_type r) ty
                               | None => false
                               end)
                  (entity_mappings w)
      else filter (fun r => String.eqb (m_tenant_id r) tenant_id) (entity_mappings w) in
    (w, Ok rows).

(** [WHERE tenant_id = $1 AND ngsi_id = $2], first row. *)
Definition get_entity_mapping_by_ngsi_id (tenant_id ngsi_id : string)
  : M (world E) (option mapping_row) :=
  fun w =>
    (w, Ok (find (fun r => String.eqb (m_tenant_id r) tenant_id
                           && String.eqb (m_ngsi_id r) ngsi_id)
                 (entity_mappings w))).

(** The [mapping] dict handed to [create_entity_mapping]. The id, type and
    name come from the untyped entity and the record id from the server's
    reply, so they are still JSON values. *)
Record mapping_dict : Type := {
  d_ngsi_id : pyval;
  d_ngsi_type : pyval;
  d_odoo_id : pyval;
  d_odoo_model : string;
  d_odoo_name : pyval;
  d_last_sync : time_argument
}.

(** A query argument bound to a [VARCHAR] parameter: the driver encodes a
    string or null and refuses anything else. *)
Definition varchar_nullable (column : string) (v : pyval) : result (option string) :=
  match v with
  | PStr s => Ok (Some s)
  | PNone => Ok None
  | _ => Raise ("invalid input for query argument " ++ column ++ ": expected str")
  end.

(** A query argument bound to an [INTEGER] parameter. *)
Definition integer_nullable (column : string) (v : pyval) : result (option Z) :=
  match v with
  | PInt z => Ok (Some z)
  | PNone => Ok None
  | _ => Raise ("invalid input for query argument " ++ column ++ ": expected int")
  end.

(** The server's check of a [NOT NULL] column, on an encoded argument. *)
Definition not_null {A : Type} (column : string) (v : option A) : result A :=
  match v with
  | Some a => Ok a
  | None => Raise ("null value in column " ++ column ++ " violates not-null constraint")
  end.

Definition same_mapping_key (tenant_id ngsi_id : string) (r : mapping_row) : bool :=
  String.eqb (m_tenant_id r) tenant_id && String.eqb (m_ngsi_id r) ngsi_id.

(** [ON CONFLICT (tenant_id, ngsi_id) DO UPDATE SET odoo_id, odoo_model,
    odoo_name, last_sync]; the stored [ngsi_type] stays. *)
Definition mapping_conflict_update (old excluded : mapping_row) : mapping_row :=
  {| m_tenant_id := m_tenant_id old;
     m_ngsi_id := m_ngsi_id old;
     m_ngsi_type := m_ngsi_type old;
     m_odoo_id := m_odoo_id excluded;
     m_odoo_model := m_odoo_model excluded;
     m_odoo_name := m_odoo_name excluded;
     m_last_sync := m_last_sync excluded |}.

(** [create_entity_mapping(tenant_id, mapping)]. The driver encodes the
    arguments in order before the statement is sent, and refuses the first
    one of the wrong type; the server then checks the [NOT NULL] columns. *)
Definition create_entity_mapping (tenant_id : string) (mapping : mapping_dict)
  : M (world E) unit :=
  (ngsi_id_arg <- lift (varchar_nullable "ngsi_id" (d_ngsi_id mapping)) ;;
   ngsi_type_arg <- lift (varchar_nullable "ngsi_type" (d_ngsi_type mapping)) ;;
   odoo_id_arg <- lift (integer_nullable "odoo_id" (d_odoo_id mapping)) ;;
   odoo_name <- lift (varchar_nullable "odoo_name" (d_odoo_name mapping)) ;;
   last_sync <- lift (timestamptz_nullable "last_sync" (d_last_sync mapping)) ;;
   ngsi_id <- lift (not_null "ngsi_id" ngsi_id_arg) ;;
   ngsi_type <- lift (not_null "ngsi_type" ngsi_type_arg) ;;
   odoo_id <- lift (not_null "odoo_id" odoo_id_arg) ;;
   fun w =>
     let new_row :=
       {| m_tenant_id := tenant_id; m_ngsi_id := ngsi_id; m_ngsi_type := ngsi_type;
          m_odoo_id := odoo_id; m_odoo_model := d_odoo_model mapping;
          m_odoo_name := odoo_name; m_last_sync := last_sync |} in
     (set_entity_mappings
        (upsert (same_mapping_key tenant_id ngsi_id)
                (fun old => mapping_conflict_update old new_row)
                new_row (entity_mappings w)) w,
      Ok tt))%coro.

(** *** Sync status *)

(** [SELECT * FROM odoo_sync_status WHERE tenant_id = $1], first row. *)
Definition get_sync_status (tenant_id : string) : M (world E) (option status_row) :=
  fun w => (w, Ok (find (fun r => String.eqb (s_tenant_id r) tenant_id) (sync_status w))).

(** The [status] dict handed to [update_sync_status]. *)
Record status_dict : Type := {
  sd_status : option string;
  sd_last_sync : time_argument;
  sd_entities_synced : option Z;
  sd_errors : option (list string)
}.

(** [update_sync_status(tenant_id, status)]. Of the arguments of the
    upsert only [last_sync] can have a type the driver refuses. *)
Definition update_sync_status (tenant_id : string) (status : status_dict)
  : M (world E) unit :=
  fun w =>
    match timestamptz_nullable "last_sync" (sd_last_sync status) with
    | Raise msg => (w, Raise msg)
    | Ok last_sync =>
        let new_row :=
          {| s_tenant_id := tenant_id;
             s_status := sd_status status;
             s_last_sync := last_sync;
             s_entities_synced :=
               match sd_entities_synced status with Some n => n | None => 0 end;
             s_errors := match sd_errors status with Some l => l | None => [] end;
             s_updated_at := clock w |} in
        (set_sync_status
           (upsert (fun r => String.eqb (s_tenant_id r) tenant_id)
                   (fun _ => new_row) new_row (sync_status w)) w,
         Ok tt)
    end.

End Tables.

(** The [UNIQUE (tenant_id, ngsi_id)] constraint of [odoo_entity_mappings]:
    the number of rows stored under a key, and the constraint itself. *)
Definition count_mappings (tenant_id ngsi_id : string) (rows : list mapping_row) : nat :=
  length (filter (same_mapping_key tenant_id ngsi_id) rows).

Definition unique_mappings (rows : list mapping_row) : Prop :=
  forall tenant_id ngsi_id, (count_mappings tenant_id ngsi_id rows <= 1)%nat.

End Database.
Import Database.

(** ** Configuration (config.py): the two settings the engine reads *)

Class Settings : Type := {
  ODOO_MASTER_PASSWORD : string;
  ODOO_TEMPLATE_DB : string
}.

(** ** The Odoo gateway (services/odoo_client.py) *)

(** The XML-RPC endpoints of the Odoo server, whose state is [E]. Any call
    may raise (a fault, a protocol or a transport error). *)
Class OdooServer (E : Type) : Type := {
  (** [common.authenticate(db, username, password, {})] *)
  xmlrpc_authenticate : string -> string -> string -> M E pyval;
  (** [models.execute_kw(db, uid, password, model, method, args, kwargs)] *)
  xmlrpc_execute_kw :
    string -> pyval -> string -> string -> string -> list pyval -> pydict -> M E pyval;
  (** [db.duplicate_database(master_password, source, target)] *)
  xmlrpc_duplicate_database : string -> string -> string -> M E unit;
  (** [db.drop(master_password, name)] *)
  xmlrpc_drop : string -> string -> M E unit
}.

Module OdooClient.
Section Client.
Context {E : Type} {server : OdooServer E} {settings : Settings}.

(** [OdooClient(database).authenticate(username, password)], returning the
    uid the client caches. *)
Definition authenticate (database : option string) (username password : string)
  : M E pyval :=
  match database with
  | None => raise "Database must be set for authentication"
  | Some db =>
      if String.eqb db "" then raise "Database must be set for authentication"
      else (uid <- xmlrpc_authenticate db username password ;;
            if truthy uid then ret uid else raise "Authentication failed")%coro
  end.

(** [client.execute(model, method, *args, **kwargs)] on a client holding
    [uid] and [password]. *)
Definition execute (database : option string) (uid : pyval) (password : string)
    (model method : string) (args : list pyval) (kwargs : pydict) : M E pyval :=
  if negb (truthy uid) || String.eqb password "" then raise "Must authenticate first"
  else match database with
       | Some db => xmlrpc_execute_kw db uid password model method args kwargs
       | None => raise "Database must be set for authentication"
       end.

Definition duplicate_database (source_db target_db : string) : M E unit :=
  xmlrpc_duplicate_database ODOO_MASTER_PASSWORD source_db target_db.

Definition delete_database (db_name : string) : M E unit :=
  xmlrpc_drop ODOO_MASTER_PASSWORD db_name.

Definition py_strings (l : list string) : pyval := PList (map PStr l).

Definition install_modules (db_name : string) (modules : list string) : M E unit :=
  (uid <- authenticate (Some db_name) "admin" "admin" ;;
   module_ids <- execute (Some db_name) uid "admin" "ir.module.module" "search"
                   [PList [PList [PStr "name"; PStr "in"; py_strings modules];
                           PList [PStr "state"; PStr "!="; PStr "installed"]]] [] ;;
   if truthy module_ids
   then (execute (Some db_name) uid "admin" "ir.module.module"
           "button_immediate_install" [module_ids] [] >> ret tt)
   else ret tt)%coro.

Definition create_user (db_name email name : string) (is_admin : bool) : M E pyval :=
  (uid <- authenticate (Some db_name) "admin" "admin" ;;
   user_id <- execute (Some db_name) uid "admin" "res.users" "create"
                [PDict [("name", PStr name); ("login", PStr email);
                        ("email", PStr email); ("notification_type", PStr "inbox")]] [] ;;
   if is_admin
   then (admin_group_id <- execute (Some db_name) uid "admin" "res.groups" "search"
                             [PList [PList [PStr "category_id.name"; PStr "=";
                                            PStr "Administration"];
                                     PList [PStr "name"; PStr "="; PStr "Settings"]]] [] ;;
         if truthy admin_group_id
         then match admin_group_id with
              | PList (first :: _) =>
                  execute (Some db_name) uid "admin" "res.users" "write"
                    [PList [user_id];
                     PDict [("groups_id", PList [PList [PInt 4; first]])]] [] >>
                  ret user_id
              | PStr (String c _) =>
                  execute (Some db_name) uid "admin" "res.users" "write"
                    [PList [user_id];
                     PDict [("groups_id",
                             PList [PList [PInt 4; PStr (String c EmptyString)]])]] [] >>
                  ret user_id
              | _ => raise "object is not subscriptable"
              end
         else ret user_id)
   else ret user_id)%coro.

Definition create_record (db_name : option string) (model : string) (values : pydict)
  : M E pyval :=
  (uid <- authenticate db_name "admin" "admin" ;;
   execute db_name uid "admin" model "create" [PDict values] [])%coro.

Definition update_record (db_name : option string) (model : string)
    (record_id : pyval) (values : pydict) : M E unit :=
  (uid <- authenticate db_name "admin" "admin" ;;
   execute db_name uid "admin" model "write" [PList [record_id]; PDict values] [] >>
   ret tt)%coro.

End Client.
End OdooClient.

(** Run a gateway call on the server state held in the world. *)
Definition on_odoo {E A : Type} (c : M E A) : M (world E) A :=
  fun w => let (e, r) := c (odoo w) in (set_odoo e w, r).

(** ** The context broker (Orion-LD), reached over HTTP *)

(** What the HTTP client hands back: a status code, the outcome of
    [response.json()], and [response.text]. *)
Record http_response (B : Type) : Type := {
  status_code : Z;
  json : result B;
  text : string
}.
Arguments status_code {B} h.
Arguments json {B} h.
Arguments text {B} h.

(** The broker's answers, per tenant. A request either raises in the HTTP
    client or yields a response. An entity is a JSON object, and a query
    by type decodes to a list of them, as [fetch_entities_by_type]
    declares. *)
Class ContextBroker : Type := {
  (** [GET /ngsi-ld/v1/entities/{entity_id}] *)
  get_entity : string -> pyval -> result (http_response pydict);
  (** [GET /ngsi-ld/v1/entities?type=...&limit=1000] *)
  get_entities : string -> string -> result (http_response (list pydict));
  (** [POST /ngsi-ld/v1/subscriptions] with the subscription of that id *)
  post_subscription : string -> string -> string -> result (http_response unit)
}.

(** ** The sync service (services/ngsi_sync.py) *)

Module NgsiSync.

(** Mapping from NGSI-LD types to Odoo models, in declaration order. *)
Definition NGSI_TO_ODOO_MODEL : list (string * string) :=
  [ ("AgriParcel", "product.template");
    ("Device", "maintenance.equipment");
    ("Building", "res.partner");
    ("EnergyMeter", "energy.meter");
    ("SolarPanel", "energy.installation");
    ("WeatherStation", "maintenance.equipment") ].

(** [NGSI_TO_ODOO_MODEL.keys()] *)
Definition entity_types : list string := map fst NGSI_TO_ODOO_MODEL.

(** [NGSI_TO_ODOO_MODEL.get(entity_type)] on an arbitrary JSON value: a list
    or an object cannot be hashed, any other non-string is simply absent. *)
Definition model_for (entity_type : pyval) : result (option string) :=
  match entity_type with
  | PStr s => Ok (dict_lookup NGSI_TO_ODOO_MODEL s)
  | PList _ => Raise "unhashable type: 'list'"
  | PDict _ => Raise "unhashable type: 'dict'"
  | _ => Ok None
  end.

(** What [sync_entity_to_odoo] returns: [{"id", "model", "name"}]. *)
Record odoo_record_info : Type := {
  r_id : pyval;
  r_model : string;
  r_name : pyval
}.

Section Service.
Context {str : PyStr}.

(** [_get_property_value(entity, property_name, default)] *)
Definition _get_property_value (entity : pydict) (property_name : string)
    (default : pyval) : pyval :=
  match dict_get entity property_name with
  | PNone => default
  | PDict prop =>
      if dict_has prop "value" then dict_get prop "value"
      else if dict_has prop "@value" then dict_get prop "@value"
      else PDict prop
  | prop => prop
  end.

Definition _transform_agri_parcel (entity : pydict) : pydict :=
  [ ("type", PStr "product");
    ("categ_id", PInt 1);
    ("description", _get_property_value entity "description" PNone);
    ("x_area", _get_property_value entity "area" PNone);
    ("x_crop_type", _get_property_value entity "cropType" PNone);
    ("x_location", PStr (py_str (_get_property_value entity "location" PNone))) ].

Definition _transform_device (entity : pydict) : pydict :=
  [ ("serial_no", _get_property_value entity "serialNumber" PNone);
    ("note", _get_property_value entity "description" PNone);
    ("x_device_type", _get_property_value entity "deviceType" PNone);
    ("x_status", _get_property_value entity "status" PNone) ].

Definition _transform_energy_meter (entity : pydict) : pydict :=
  [ ("code", _get_property_value entity "meterCode" PNone);
    ("meter_type", _get_property_value entity "meterType" (PStr "production"));
    ("x_cups", _get_property_value entity "cups" PNone) ].

Definition _transform_solar_panel (entity : pydict) : pydict :=
  [ ("installation_type", PStr "solar");
    ("power_peak", _get_property_value entity "peakPower" PNone);
    ("x_orientation", _get_property_value entity "orientation" PNone);
    ("x_tilt", _get_property_value entity "tilt" PNone) ].

(** [address.get(...)] needs [address] to be a dict: any other truthy
    value has no [get] attribute. *)
Definition _transform_building (entity : pydict) : result pydict :=
  match py_or (_get_property_value entity "address" PNone) (PDict []) with
  | PDict address =>
      Ok [ ("is_company", PBool true);
           ("street", dict_get address "streetAddress");
           ("city", dict_get address "addressLocality");
           ("zip", dict_get address "postalCode");
           ("country_id", PBool false) ]
  | _ => Raise "object has no attribute 'get'"
  end.

(** [entity_type == "..."] for a JSON value against a string literal. *)
Definition is_type (entity_type : pyval) (name : string) : bool :=
  match entity_type with PStr s => String.eqb s name | _ => false end.

(** [_transform_to_odoo(entity, odoo_model)]; the target model is not read. *)
Definition _transform_to_odoo (entity : pydict) (odoo_model : string) : result pydict :=
  let entity_type := dict_get entity "type" in
  let entity_id := dict_get entity "id" in
  let values :=
    [ ("name", py_or (_get_property_value entity "name" PNone) entity_id);
      ("x_ngsi_id", entity_id) ] in
  if is_type entity_type "AgriParcel"
  then Ok (dict_update values (_transform_agri_parcel entity))
  else if is_type entity_type "Device"
  then Ok (dict_update values (_transform_device entity))
  else if is_type entity_type "EnergyMeter"
  then Ok (dict_update values (_transform_energy_meter entity))
  else if is_type entity_type "SolarPanel"
  then Ok (dict_update values (_transform_solar_panel entity))
  else if is_type entity_type "Building"
  then match _transform_building entity with
       | Ok extra => Ok (dict_update values extra)
       | Raise msg => Raise msg
       end
  else Ok values.

(** The subscription id of a (tenant, declared type) pair, as built in
    [register_tenant_subscriptions] and [remove_tenant_subscriptions]. *)
Definition subscription_id (tenant_id entity_type : string) : string :=
  "urn:ngsi-ld:Subscription:nkz-odoo-" ++ tenant_id ++ "-" ++ lower entity_type.

Context {E : Type} {server : OdooServer E} {broker : ContextBroker}.

(** [NgsildSyncService(tenant_id)._get_odoo_database()]. A fetched row
    always carries the [database] key, so the default is never used. *)
Definition _get_odoo_database (tenant_id : string) : M (world E) (option string) :=
  (info <- get_tenant_odoo_info tenant_id ;;
   match info with
   | None => raise ("No Odoo configured for tenant: " ++ tenant_id)
   | Some row => ret (t_database row)
   end)%coro.

(** [fetch_entity(entity_id)] *)
Definition fetch_entity (tenant_id : string) (entity_id : pyval)
  : M (world E) (option pydict) :=
  match get_entity tenant_id entity_id with
  | Raise msg => raise msg
  | Ok response =>
      if status_code response =? 200
      then (entity <- lift (json response) ;; ret (Some entity))%coro
      else if status_code response =? 404 then ret None
      else raise ("Failed to fetch entity: " ++ text response)
  end.

(** [fetch_entities_by_type(entity_type)] *)
Definition fetch_entities_by_type (tenant_id entity_type : string)
  : M (world E) (list pydict) :=
  match get_entities tenant_id entity_type with
  | Raise msg => raise msg
  | Ok response =>
      if status_code response =? 200 then lift (json response) else ret []
  end.

(** The mapping lookup of [sync_entity_to_odoo], whose id argument comes
    from the entity: a null id matches no row. *)
Definition lookup_existing (tenant_id : string) (entity_id : pyval)
  : M (world E) (option mapping_row) :=
  match entity_id with
  | PStr ngsi_id => get_entity_mapping_by_ngsi_id tenant_id ngsi_id
  | PNone => ret None
  | _ => raise "invalid input for query argument ngsi_id: expected str"
  end.

(** [sync_entity_to_odoo(entity)] *)
Definition sync_entity_to_odoo (tenant_id : string) (entity : pydict)
  : M (world E) odoo_record_info :=
  let entity_id := dict_get entity "id" in
  let entity_type := dict_get entity "type" in
  (found <- lift (model_for entity_type) ;;
   match found with
   | None => raise ("Unsupported entity type: " ++ py_str entity_type)
   | Some odoo_model =>
       if String.eqb odoo_model ""
       then raise ("Unsupported entity type: " ++ py_str entity_type)
       else
         db_name <- _get_odoo_database tenant_id ;;
         existing <- lookup_existing tenant_id entity_id ;;
         odoo_values <- lift (_transform_to_odoo entity odoo_model) ;;
         odoo_id <-
           match existing with
           | Some row =>
               on_odoo (OdooClient.update_record db_name odoo_model
                          (PInt (m_odoo_id row)) odoo_values) >>
               ret (PInt (m_odoo_id row))
           | None =>
               on_odoo (OdooClient.create_record db_name odoo_model odoo_values)
           end ;;
         now <- utcnow ;;
         create_entity_mapping tenant_id
           {| d_ngsi_id := entity_id;
              d_ngsi_type := entity_type;
              d_odoo_id := odoo_id;
              d_odoo_model := odoo_model;
              d_odoo_name := dict_get_default odoo_values "name" entity_id;
              d_last_sync := IsoFormat now |} >>
         ret {| r_id := odoo_id;
                r_model := odoo_model;
                r_name := dict_get_default odoo_values "name" entity_id |}
   end)%coro.

(** What [full_sync] returns: [{"synced", "errors"}]. *)
Record sync_result : Type := {
  synced : Z;
  errors : list string
}.

(** The inner loop of [full_sync] over the entities of one type, started
    with the counters of the run so far. The handler only reads the
    entity's id, so the loop itself never raises. *)
Fixpoint sync_entities (tenant_id : string) (entities : list pydict) (acc : sync_result)
  : M (world E) sync_result :=
  match entities with
  | [] => ret acc
  | entity :: rest =>
      (acc' <- try_except
                 (sync_entity_to_odoo tenant_id entity >>
                  ret {| synced := synced acc + 1; errors := errors acc |})
                 (fun e =>
                    let error_msg :=
                      "Failed to sync " ++ py_str (dict_get entity "id") ++ ": " ++ e in
                    ret {| synced := synced acc; errors := errors acc ++ [error_msg] |}) ;;
       sync_entities tenant_id rest acc')%coro
  end.

(** The outer loop of [full_sync] over the declared types. *)
Fixpoint sync_types (tenant_id : string) (types : list string) (acc : sync_result)
  : M (world E) sync_result :=
  match types with
  | [] => ret acc
  | entity_type :: rest =>
      (acc' <- try_except
                 (entities <- fetch_entities_by_type tenant_id entity_type ;;
                  sync_entities tenant_id entities acc)
                 (fun e =>
                    let error_msg := "Failed to fetch " ++ entity_type ++ ": " ++ e in
                    ret {| synced := synced acc; errors := errors acc ++ [error_msg] |}) ;;
       sync_types tenant_id rest acc')%coro
  end.

(** [full_sync()] *)
Definition full_sync (tenant_id : string) : M (world E) sync_result :=
  sync_types tenant_id entity_types {| synced := 0; errors := [] |}.

(** [register_tenant_subscriptions(tenant_id)]: one POST per declared
    type. A response of any status is only logged (201 and 409 as
    registered, the others as a warning); only a raising client stops the
    loop. *)
Fixpoint register_subscriptions (tenant_id : string) (types : list string)
  : M (world E) unit :=
  match types with
  | [] => ret tt
  | entity_type :: rest =>
      match post_subscription tenant_id (subscription_id tenant_id entity_type)
                              entity_type with
      | Raise msg => raise msg
      | Ok response =>
          if (status_code response =? 201) || (status_code response =? 409)
          then register_subscriptions tenant_id rest
          else register_subscriptions tenant_id rest
      end
  end.

Definition register_tenant_subscriptions (tenant_id : string) : M (world E) unit :=
  register_subscriptions tenant_id entity_types.

End Service.
End NgsiSync.
Import NgsiSync.

(** ** Outcomes of a request handler *)

Inductive http_result (A : Type) : Type :=
| Returns (a : A)
| HTTPException (status : Z) (detail : string).
Arguments Returns {A} a.
Arguments HTTPException {A} status detail.

Definition handler (E A : Type) : Type := world E -> world E * http_result A.

(** ** The webhook router (routers/webhook.py) *)

Module Webhook.

(** [_extract_tenant_from_subscription(subscription_id)]. An index out of
    range would be caught by the function's own handler, which also ends
    in [return None]. *)
Definition _extract_tenant_from_subscription (subscription_id : string) : option string :=
  let parts := split ":" subscription_id in
  if (4 <=? length parts)%nat
  then match py_index parts (-1) with
       | Some sub_name =>
           let name_parts := split "-" sub_name in
           match py_index name_parts 0, py_index name_parts 1 with
           | Some p0, Some p1 =>
               if (4 <=? length name_parts)%nat && String.eqb p0 "nkz"
                  && String.eqb p1 "odoo"
               then Some (join "-" (py_slice name_parts 2 (-1)))
               else None
           | _, _ => None
           end
       | None => None
       end
  else None.

(** The reply of [handle_ngsi_notification]. *)
Inductive notification_reply : Type :=
| Ignored (reason : string)
| Processed (synced : Z) (errors : Z) (timestamp : Database.timestamp).

Section Handlers.
Context {str : PyStr} {E : Type} {server : OdooServer E} {broker : ContextBroker}.

(** [handle_ngsi_notification(notification, request)], given the
    notification's [subscriptionId] and [data]. *)
Definition handle_ngsi_notification (subscriptionId : string) (data : list pydict)
  : handler E notification_reply :=
  fun w =>
    let tenant := _extract_tenant_from_subscription subscriptionId in
    match tenant with
    | None => (w, Returns (Ignored "unknown_subscription"))
    | Some tenant_id =>
        if String.eqb tenant_id ""
        then (w, Returns (Ignored "unknown_subscription"))
        else
          match (acc <- sync_entities tenant_id data {| synced := 0; errors := [] |} ;;
                 now <- utcnow ;;
                 ret (Processed (synced acc) (Z.of_nat (length (errors acc))) now))%coro w
          with
          | (w', Ok reply) => (w', Returns reply)
          | (w', Raise e) =>
              (w', HTTPException 500 ("Failed to process notification: " ++ e))
          end
    end.

End Handlers.
End Webhook.
Import Webhook.

(** ** The tenant router (routers/tenant.py) *)

Module Tenant.

(** The response model [TenantOdooInfo]. *)
Record TenantOdooInfo : Type := {
  id : string;
  name : string;
  odooDatabase : string;
  odooUrl : string;
  status : string;
  lastSync : option string;
  energyModulesEnabled : bool;
  installedModules : list string
}.

(** The request model [ProvisionRequest]. *)
Record ProvisionRequest : Type := {
  enableEnergyModules : bool;
  additionalModules : list string
}.

Definition _build_tenant_odoo_url (tenant_id : string) : string :=
  "https://" ++ tenant_id ++ ".odoo.nkz.artotxiki.com".

(** [user.get(key, default)] on the token payload; the two claims read
    here, [email] and [name], are strings. *)
Definition user_get (user : list (string * string)) (key default : string) : string :=
  match dict_lookup user key with Some v => v | None => default end.

Section Handlers.
Context {str : PyStr} {E : Type} {server : OdooServer E} {broker : ContextBroker}
        {settings : Settings}.

(** [modules_to_install] as [provision_tenant] assembles it. *)
Definition modules_to_install (request : ProvisionRequest) : list string :=
  ["base"; "sale"; "purchase"; "stock"; "account"]
  ++ (if enableEnergyModules request
      then ["energy_community"; "energy_selfconsumption"; "energy_import_statement"]
      else [])
  ++ additionalModules request.

(** The [try] block of [provision_tenant]. *)
Definition provision_steps (request : ProvisionRequest) (tenant_id : string)
    (user : list (string * string)) : M (world E) TenantOdooInfo :=
  (started_at <- utcnow ;;
   save_tenant_odoo_info tenant_id
     (Some {| i_name := None; i_database := None; i_status := Some "provisioning";
              i_energy_modules_enabled := None; i_installed_modules := None;
              i_admin_email := None; i_created_at := NoTime; i_error := None;
              i_started_at := IsoFormat started_at; i_failed_at := NoTime |}) >>
   let db_name := "nkz_odoo_" ++ tenant_id in
   on_odoo (OdooClient.duplicate_database ODOO_TEMPLATE_DB db_name) >>
   let modules := modules_to_install request in
   on_odoo (OdooClient.install_modules db_name modules) >>
   let admin_email := user_get user "email" ("admin@" ++ tenant_id ++ ".nkz") in
   on_odoo (OdooClient.create_user db_name admin_email (user_get user "name" "Admin") true) >>
   created_at <- utcnow ;;
   save_tenant_odoo_info tenant_id
     (Some {| i_name := Some tenant_id; i_database := Some db_name;
              i_status := Some "active";
              i_energy_modules_enabled := Some (enableEnergyModules request);
              i_installed_modules := Some modules;
              i_admin_email := Some admin_email;
              i_created_at := IsoFormat created_at;
              i_error := None; i_started_at := NoTime; i_failed_at := NoTime |}) >>
   register_tenant_subscriptions tenant_id >>
   ret {| id := tenant_id;
          name := tenant_id;
          odooDatabase := db_name;
          odooUrl := _build_tenant_odoo_url tenant_id;
          status := "active";
          lastSync := None;
          energyModulesEnabled := enableEnergyModules request;
          installedModules := modules |})%coro.

(** The [except] block of [provision_tenant]. *)
Definition provision_failed (tenant_id e : string) : M (world E) unit :=
  (failed_at <- utcnow ;;
   save_tenant_odoo_info tenant_id
     (Some {| i_name := None; i_database := None; i_status := Some "error";
              i_energy_modules_enabled := None; i_installed_modules := None;
              i_admin_email := None; i_created_at := NoTime; i_error := Some e;
              i_started_at := NoTime; i_failed_at := IsoFormat failed_at |}))%coro.

(** [existing and existing.get("status") == "active"] *)
Definition already_active (existing : option tenant_row) : bool :=
  match existing with
  | Some row =>
      match t_status row with
      | Some s => String.eqb s "active"
      | None => false
      end
  | None => false
  end.

(** [provision_tenant(request, tenant_id, user)] *)
Definition provision_tenant (request : ProvisionRequest) (tenant_id : string)
    (user : list (string * string)) : handler E TenantOdooInfo :=
  fun w =>
    match get_tenant_odoo_info tenant_id w with
    | (w0, Raise e) => (w0, HTTPException 500 "Internal Server Error")
    | (w0, Ok existing) =>
        if already_active existing
        then (w0, HTTPException 409 "Odoo already provisioned for this tenant")
        else
          match provision_steps request tenant_id user w0 with
          | (w1, Ok info) => (w1, Returns info)
          | (w1, Raise e) =>
              match provision_failed tenant_id e w1 with
              | (w2, Ok _) =>
                  (w2, HTTPException 500 ("Failed to provision Odoo: " ++ e))
              | (w2, Raise _) => (w2, HTTPException 500 "Internal Server Error")
              end
          end
    end.

End Handlers.
End Tenant.

(** ** The sync router (routers/sync.py) *)

Module SyncRouter.

(** The response model [SyncStatus]. *)
Record SyncStatus : Type := {
  status : string;
  lastSync : option Database.timestamp
}.

Section Handlers.
Context {E : Type}.

(** [get_sync_status(tenant_id)]. A stored row always carries the
    [status] key; a null status does not fit the response model, which the
    handler turns into a 500. *)
Definition get_sync_status (tenant_id : string) : handler E SyncStatus :=
  fun w =>
    match Database.get_sync_status tenant_id w with
    | (w', Ok None) => (w', Returns {| status := "never_synced"; lastSync := None |})
    | (w', Ok (Some row)) =>
        match s_status row with
        | Some s => (w', Returns {| status := s; lastSync := s_last_sync row |})
        | None => (w', HTTPException 500 "Failed to get sync status")
        end
    | (w', Raise _) => (w', HTTPException 500 "Failed to get sync status")
    end.

End Handlers.
End SyncRouter.

(** ** Observing a run of [full_sync] *)

Module Run.
Section Observers.
Context {str : PyStr} {E : Type} {server : OdooServer E} {broker : ContextBroker}.

Definition is_ok {A : Type} (r : result A) : bool :=
  match r with Ok _ => true | Raise _ => false end.

(** The entities one pass of the inner loop attempts, each with whether
    its [sync_entity_to_odoo] returned, and the world the pass ends in. *)
Fixpoint entity_attempts (tenant_id : string) (entities : list pydict) (w : world E)
  : list (pydict * bool) * world E :=
  match entities with
  | [] => ([], w)
  | entity :: rest =>
      let (w', r) := sync_entity_to_odoo tenant_id entity w in
      let (attempts, w'') := entity_attempts tenant_id rest w' in
      ((entity, is_ok r) :: attempts, w'')
  end.

(** The attempts of a whole run over the given types, in order. *)
Fixpoint run_attempts (tenant_id : string) (types : list string) (w : world E)
  : list (pydict * bool) :=
  match types with
  | [] => []
  | entity_type :: rest =>
      match fetch_entities_by_type tenant_id entity_type w with
      | (w', Ok entities) =>
          let (attempts, w'') := entity_attempts tenant_id entities w' in
          attempts ++ run_attempts tenant_id rest w''
      | (w', Raise _) => run_attempts tenant_id rest w'
      end
  end.

(** The entities the broker hands out for a type: the decoded body of a
    200 response, and nothing otherwise. *)
Definition fetched (tenant_id entity_type : string) : list pydict :=
  match get_entities tenant_id entity_type with
  | Ok response =>
      if status_code response =? 200
      then match json response with Ok entities => entities | Raise _ => [] end
      else []
  | Raise _ => []
  end.

(** The batch of a run: everything fetched, type after type. *)
Definition batch (tenant_id : string) (types : list string) : list pydict :=
  concat (map (fetched tenant_id) types).

(** No request for a type raises: neither the HTTP client nor the decoding
    of a 200 body. *)
Definition fetch_returns (tenant_id entity_type : string) : bool :=
  match get_entities tenant_id entity_type with
  | Ok response =>
      if status_code response =? 200 then is_ok (json response) else true
  | Raise _ => false
  end.

Definition failures (attempts : list (pydict * bool)) : list (pydict * bool) :=
  filter (fun a => negb (snd a)) attempts.

(** The types whose request raises. *)
Definition raised (tenant_id : string) (types : list string) : list string :=
  filter (fun entity_type => negb (fetch_returns tenant_id entity_type)) types.

Definition successes (attempts : list (pydict * bool)) : list (pydict * bool) :=
  filter (fun a => snd a) attempts.

(** The entity has a row in the tenant's part of the mapping table. *)
Definition mapped (tenant_id : string) (entity : pydict) (w : world E) : Prop :=
  exists ngsi_id,
    dict_get entity "id" = PStr ngsi_id
    /\ (1 <= count_mappings tenant_id ngsi_id (entity_mappings w))%nat.

End Observers.

Fixpoint has_char (c : ascii) (s : string) : bool :=
  match s with
  | EmptyString => false
  | String c' rest => Ascii.eqb c' c || has_char c rest
  end.

End Run.
Import Run.

(** ** A small deployment to run the model on *)

Module Demo.

(** Exact on strings, [None] and booleans; the other values, which the
    examples never render, get a placeholder. *)
Definition render : PyStr :=
  fun v => match v with
           | PStr s => s
           | PNone => "None"
           | PBool true => "True"
           | PBool false => "False"
           | _ => "<value>"
           end.

Definition settings : Settings :=
  {| ODOO_MASTER_PASSWORD := "admin"; ODOO_TEMPLATE_DB := "nkz_odoo_template" |}.

(** A server that knows its databases and numbers new records. *)
Record server : Type := {
  databases : list string;
  next_id : Z
}.

Definition has_db (db : string) (s : server) : bool :=
  existsb (String.eqb db) (databases s).

(** A value with a [None] somewhere in it, which the XML-RPC client
    (created without [allow_none]) refuses to marshal. *)
Fixpoint holds_none (v : pyval) : bool :=
  match v with
  | PNone => true
  | PList l =>
      (fix any (l : list pyval) : bool :=
         match l with
         | [] => false
         | x :: rest => holds_none x || any rest
         end) l
  | PDict d =>
      (fix any (d : list (string * pyval)) : bool :=
         match d with
         | [] => false
         | (_, x) :: rest => holds_none x || any rest
         end) d
  | _ => false
  end.

Definition toy_odoo : OdooServer server :=
  {| xmlrpc_authenticate := fun db _ _ s =>
       if has_db db s then (s, Ok (PInt 2))
       else (s, Raise ("database " ++ db ++ " does not exist"));
     xmlrpc_execute_kw := fun db uid _ _ method args kwargs s =>
       if holds_none (PList (uid :: args)) || holds_none (PDict kwargs)
       then (s, Raise "cannot marshal None unless allow_none is enabled")
       else if negb (has_db db s)
       then (s, Raise ("database " ++ db ++ " does not exist"))
       else if String.eqb method "create"
       then ({| databases := databases s; next_id := next_id s + 1 |},
             Ok (PInt (next_id s)))
       else if String.eqb method "search" then (s, Ok (PList []))
       else (s, Ok (PBool true));
     xmlrpc_duplicate_database := fun _ source target s =>
       if has_db source s && negb (has_db target s)
       then ({| databases := databases s ++ [target]; next_id := next_id s |}, Ok tt)
       else (s, Raise "database duplication failed");
     xmlrpc_drop := fun _ db s =>
       ({| databases := filter (fun d => negb (String.eqb d db)) (databases s);
           next_id := next_id s |}, Ok tt) |}.

Definition parcel (ngsi_id : string) : pydict :=
  [ ("id", PStr ngsi_id); ("type", PStr "AgriParcel");
    ("description", PStr "North field");
    ("area", PDict [("value", PFloat "3.5")]);
    ("cropType", PDict [("value", PStr "wheat")]) ].

(** A building whose address is a bare string: its transform raises. *)
Definition bad_building : pydict :=
  [ ("id", PStr "urn:x:b1"); ("type", PStr "Building"); ("address", PStr "Main St 1") ].

Definition device (ngsi_id : string) : pydict :=
  [ ("id", PStr ngsi_id); ("type", PStr "Device") ].

Definition ok_response {B : Type} (body : B) : result (http_response B) :=
  Ok {| status_code := 200; json := Ok body; text := "" |}.

Definition error_response {B : Type} (code : Z) : result (http_response B) :=
  Ok {| status_code := code; json := Raise "Expecting value";
        text := "Internal Server Error" |}.

(** A broker holding two parcels, one ill-formed building and a device. *)
Definition broker : ContextBroker :=
  {| get_entity := fun _ _ => error_response 404;
     get_entities := fun _ entity_type =>
       if String.eqb entity_type "AgriParcel"
       then ok_response [parcel "urn:x:1"; parcel "urn:x:2"]
       else if String.eqb entity_type "Building" then ok_response [bad_building]
       else if String.eqb entity_type "Device" then ok_response [device "urn:x:d1"]
       else ok_response [];
     post_subscription := fun _ _ _ =>
       Ok {| status_code := 201; json := Ok tt; text := "" |} |}.



(** A broker that answers every query by type with a 500. *)
Definition failing_broker : ContextBroker :=
  {| get_entity := fun _ _ => error_response 500;
     get_entities := fun _ _ => error_response 500;
     post_subscription := fun _ _ _ =>
       Ok {| status_code := 201; json := Ok tt; text := "" |} |}.

Definition active_tenant (tenant_id : string) : tenant_row :=
  {| t_tenant_id := tenant_id; t_name := Some tenant_id;
     t_database := Some ("nkz_odoo_" ++ tenant_id); t_status := Some "active";
     t_energy_modules_enabled := true; t_installed_modules := ["base"];
     t_admin_email := Some "admin@example.org"; t_created_at := Some 0%nat;
     t_updated_at := 0%nat; t_error := None |}.

(** Tenant [t1] is provisioned; nothing has been synced yet. *)
Definition w0 : world server :=
  {| tenant_info := [active_tenant "t1"];
     entity_mappings := [];
     sync_status := [];
     clock := 1%nat;
     odoo := {| databases := ["nkz_odoo_template"; "nkz_odoo_t1"]; next_id := 10 |} |}.

(** Nothing is provisioned and the server has lost its template. *)
Definition w_no_template : world server :=
  {| tenant_info := [];
     entity_mappings := [];
     sync_status := [];
     clock := 1%nat;
     odoo := {| databases := []; next_id := 10 |} |}.

Definition mapping (tenant_id ngsi_id : string) (odoo_id : Z) : mapping_row :=
  {| m_tenant_id := tenant_id; m_ngsi_id := ngsi_id; m_ngsi_type := "AgriParcel";
     m_odoo_id := odoo_id; m_odoo_model := "product.template";
     m_odoo_name := Some ngsi_id; m_last_sync := Some 0%nat |}.

(** Two tenants holding mappings for the same external id. *)
Definition w_two_tenants : world server :=
  {| tenant_info := [active_tenant "tenant-a"; active_tenant "tenant-b"];
     entity_mappings := [mapping "tenant-a" "urn:x:1" 7; mapping "tenant-b" "urn:x:1" 9;
                         mapping "tenant-b" "urn:x:2" 11];
     sync_status := [];
     clock := 1%nat;
     odoo := {| databases := ["nkz_odoo_tenant-a"; "nkz_odoo_tenant-b"]; next_id := 20 |} |}.

End Demo.

(** ** Decommissioning and reading a tenant (routers/tenant.py,
    services/ngsi_sync.py) *)

(** The broker's answer to
    [DELETE /ngsi-ld/v1/subscriptions/{sub_id}], per tenant. *)
Class SubscriptionRemoval : Type :=
  delete_subscription : string -> string -> result (http_response unit).

Module TenantAdmin.
Section Handlers.
Context {E : Type} {server : OdooServer E} {removal : SubscriptionRemoval}
        {settings : Settings}.

(** [remove_tenant_subscriptions(tenant_id)]: one DELETE per declared
    type. A 204 or 404 is logged, any other status is passed over in
    silence; only a raising client stops the loop. *)
Fixpoint remove_subscriptions (tenant_id : string) (types : list string)
  : M (world E) unit :=
  match types with
  | [] => ret tt
  | entity_type :: rest =>
      match delete_subscription tenant_id (subscription_id tenant_id entity_type) with
      | Raise msg => raise msg
      | Ok response =>
          if (status_code response =? 204) || (status_code response =? 404)
          then remove_subscriptions tenant_id rest
          else remove_subscriptions tenant_id rest
      end
  end.

Definition remove_tenant_subscriptions (tenant_id : string) : M (world E) unit :=
  remove_subscriptions tenant_id entity_types.

(** [value or default] for a nullable text column. *)
Definition or_text (value : option string) (default : string) : string :=
  match value with
  | Some s => if String.eqb s "" then default else s
  | None => default
  end.

(** [get_tenant_info(tenant_id, user)]. A fetched row has no [last_sync]
    key, so [info.get("last_sync")] is always [None]. *)
Definition get_tenant_info (tenant_id : string) : handler E Tenant.TenantOdooInfo :=
  fun w =>
    match get_tenant_odoo_info tenant_id w with
    | (w', Raise _) => (w', HTTPException 500 "Failed to get tenant info")
    | (w', Ok None) => (w', HTTPException 404 "Odoo not provisioned for this tenant")
    | (w', Ok (Some info)) =>
        (w', Returns
               {| Tenant.id := tenant_id;
                  Tenant.name := or_text (t_name info) tenant_id;
                  Tenant.odooDatabase :=
                    or_text (t_database info) ("nkz_odoo_" ++ tenant_id);
                  Tenant.odooUrl := Tenant._build_tenant_odoo_url tenant_id;
                  Tenant.status := or_text (t_status info) "unknown";
                  Tenant.lastSync := None;
                  Tenant.energyModulesEnabled := t_energy_modules_enabled info;
                  Tenant.installedModules := t_installed_modules info |})
    end.

(** The reply of [delete_tenant_odoo]: [{"status": "deleted", "tenant_id"}]. *)
Record deleted_reply : Type := {
  deleted_status : string;
  deleted_tenant_id : string
}.

(** The steps of [delete_tenant_odoo] after the record was found. The
    database name is the row's, null included: the XML-RPC client cannot
    marshal a null argument. *)
Definition delete_steps (tenant_id : string) (info : tenant_row) : M (world E) deleted_reply :=
  (match t_database info with
   | Some db_name => on_odoo (OdooClient.delete_database db_name)
   | None => raise "cannot marshal None unless allow_none is enabled"
   end >>
   save_tenant_odoo_info tenant_id None >>
   remove_tenant_subscriptions tenant_id >>
   ret {| deleted_status := "deleted"; deleted_tenant_id := tenant_id |})%coro.

(** [delete_tenant_odoo(tenant_id, user)] *)
Definition delete_tenant_odoo (tenant_id : string) : handler E deleted_reply :=
  fun w =>
    match get_tenant_odoo_info tenant_id w with
    | (w', Raise e) => (w', HTTPException 500 ("Failed to delete Odoo: " ++ e))
    | (w', Ok None) => (w', HTTPException 404 "Odoo not found for this tenant")
    | (w', Ok (Some info)) =>
        match delete_steps tenant_id info w' with
        | (w'', Ok reply) => (w'', Returns reply)
        | (w'', Raise e) => (w'', HTTPException 500 ("Failed to delete Odoo: " ++ e))
        end
    end.

End Handlers.
End TenantAdmin.

(** ** Triggering a sync and creating one entity (routers/sync.py) *)

Module SyncOps.

(** The response model [SyncResult]. *)
Record SyncResult : Type := {
  success : bool;
  entitiesSynced : Z;
  result_errors : list string;
  timestamp : Database.timestamp
}.

(** The response model [OdooEntity]. *)
Record OdooEntity : Type := {
  odooId : Z;
  odooModel : string;
  odooName : string;
  ngsiLdId : string;
  ngsiLdType : string;
  lastSync : Database.timestamp
}.

(** The request model [CreateFromNgsiRequest]. *)
Record CreateFromNgsiRequest : Type := {
  req_ngsiLdId : string;
  req_ngsiLdType : string
}.

Section Handlers.
Context {str : PyStr} {E : Type} {server : OdooServer E} {broker : ContextBroker}.

(** The [try] block of [trigger_sync]. *)
Definition trigger_steps (tenant_id : string) : M (world E) SyncResult :=
  (outcome <- full_sync tenant_id ;;
   last_sync <- utcnow ;;
   update_sync_status tenant_id
     {| sd_status := Some "synced";
        sd_last_sync := IsoFormat last_sync;
        sd_entities_synced := Some (synced outcome);
        sd_errors := Some (errors outcome) |} >>
   now <- utcnow ;;
   ret {| success := match errors outcome with [] => true | _ => false end;
          entitiesSynced := synced outcome;
          result_errors := errors outcome;
          timestamp := now |})%coro.

(** [trigger_sync(tenant_id, user)] *)
Definition trigger_sync (tenant_id : string) : handler E SyncResult :=
  fun w =>
    match trigger_steps tenant_id w with
    | (w', Ok reply) => (w', Returns reply)
    | (w', Raise e) => (w', HTTPException 500 ("Sync failed: " ++ e))
    end.

(** What ends the [try] block of [create_entity_from_ngsi]: a reply, the
    404 raised inside it, or any other exception. *)
Inductive create_outcome : Type :=
| Created (entity : OdooEntity)
| NotFound.

(** The [try] block of [create_entity_from_ngsi]. An empty object is as
    false as a missing entity; the response model wants an integer id and
    a string name. *)
Definition create_steps (request : CreateFromNgsiRequest) (tenant_id : string)
  : M (world E) create_outcome :=
  (fetched <- fetch_entity tenant_id (PStr (req_ngsiLdId request)) ;;
   match fetched with
   | None => ret NotFound
   | Some [] => ret NotFound
   | Some entity =>
       odoo_entity <- sync_entity_to_odoo tenant_id entity ;;
       last_sync <- utcnow ;;
       create_entity_mapping tenant_id
         {| d_ngsi_id := PStr (req_ngsiLdId request);
            d_ngsi_type := PStr (req_ngsiLdType request);
            d_odoo_id := r_id odoo_entity;
            d_odoo_model := r_model odoo_entity;
            d_odoo_name := r_name odoo_entity;
            d_last_sync := IsoFormat last_sync |} >>
       now <- utcnow ;;
       match r_id odoo_entity, r_name odoo_entity with
       | PInt odoo_id, PStr odoo_name =>
           ret (Created {| odooId := odoo_id;
                           odooModel := r_model odoo_entity;
                           odooName := odoo_name;
                           ngsiLdId := req_ngsiLdId request;
                           ngsiLdType := req_ngsiLdType request;
                           lastSync := now |})
       | _, _ => raise "validation error for OdooEntity"
       end
   end)%coro.

(** [create_entity_from_ngsi(request, tenant_id, user)] *)
Definition create_entity_from_ngsi (request : CreateFromNgsiRequest) (tenant_id : string)
  : handler E OdooEntity :=
  fun w =>
    match create_steps request tenant_id w with
    | (w', Ok (Created entity)) => (w', Returns entity)
    | (w', Ok NotFound) => (w', HTTPException 404 "NGSI-LD entity not found")
    | (w', Raise e) => (w', HTTPException 500 ("Failed to create entity: " ++ e))
    end.

End Handlers.
End SyncOps.

(** ** The webhook fed by Odoo (routers/webhook.py) *)

Module OdooWebhook.

(** [old] is a prefix of [s]. *)
Fixpoint starts_with (old s : string) : bool :=
  match old, s with
  | EmptyString, _ => true
  | String a old', String b s' => Ascii.eqb a b && starts_with old' s'
  | String _ _, EmptyString => false
  end.

(** [s.replace(old, new)] for a non-empty [old], scanning from the left:
    [skip] counts the characters of a match still to be dropped. *)
Fixpoint replace_from (old new : string) (skip : nat) (s : string) : string :=
  match s with
  | EmptyString => EmptyString
  | String c rest =>
      match skip with
      | S k => replace_from old new k rest
      | O =>
          if starts_with old s
          then new ++ replace_from old new (String.length old - 1) rest
          else String c (replace_from old new 0 rest)
      end
  end.

Definition py_replace (old new s : string) : string := replace_from old new 0 s.

(** [old] occurs somewhere in [s] (for a non-empty [old]). *)
Fixpoint occurs (old s : string) : bool :=
  match s with
  | EmptyString => false
  | String _ rest => starts_with old s || occurs old rest
  end.

(** [tenant_db.replace("nkz_odoo_", "") if tenant_db else None], on
    whatever the body holds under [database]: a truthy value that is not a
    string has no [replace]. *)
Definition tenant_of_database (tenant_db : pyval) : result (option string) :=
  if truthy tenant_db
  then match tenant_db with
       | PStr db => Ok (Some (py_replace "nkz_odoo_" "" db))
       | _ => Raise "object has no attribute 'replace'"
       end
  else Ok None.

(** The reply of [handle_odoo_webhook]. *)
Inductive odoo_reply : Type :=
| OdooIgnored (reason : string)
| OdooProcessed (event : pyval) (timestamp : Database.timestamp).

Section Handlers.
Context {E : Type}.

(** [NgsildSyncService.sync_odoo_to_ngsi(odoo_model, odoo_id)]: the reverse
    sync is only logged. *)
Definition sync_odoo_to_ngsi (tenant_id : string) (odoo_model record_id : pyval)
  : M (world E) unit := ret tt.

(** [event == "record.create" or event == "record.write"] *)
Definition is_record_event (event : pyval) : bool :=
  match event with
  | PStr e => String.eqb e "record.create" || String.eqb e "record.write"
  | _ => false
  end.

(** The [try] block of [handle_odoo_webhook], given the decoded body. *)
Definition odoo_webhook_steps (body : pyval) : M (world E) odoo_reply :=
  match body with
  | PDict body =>
      let event := dict_get body "event" in
      let model := dict_get body "model" in
      let record_id := dict_get body "record_id" in
      let tenant_db := dict_get body "database" in
      (tenant <- lift (tenant_of_database tenant_db) ;;
       match tenant with
       | None => ret (OdooIgnored "unknown_tenant")
       | Some tenant_id =>
           if String.eqb tenant_id "" then ret (OdooIgnored "unknown_tenant")
           else
             (if is_record_event event
              then sync_odoo_to_ngsi tenant_id model record_id
              else ret tt) >>
             now <- utcnow ;;
             ret (OdooProcessed event now)
       end)%coro
  | _ => raise "object has no attribute 'get'"
  end.

(** [handle_odoo_webhook(request)] *)
Definition handle_odoo_webhook (body : pyval) : handler E odoo_reply :=
  fun w =>
    match odoo_webhook_steps body w with
    | (w', Ok reply) => (w', Returns reply)
    | (w', Raise e) => (w', HTTPException 500 e)
    end.

End Handlers.
End OdooWebhook.

(** ** Workflow events (services/n8n_integration.py) *)

(** The two renderings of a clock reading the handlers use:
    [isoformat()] and [strftime("%Y-%m-%d")]. *)
Class TimeFormat : Type := {
  isoformat : Database.timestamp -> string;
  strftime_date : Database.timestamp -> string
}.

(** The record operations of [OdooClient] that the workflow handlers
    call with values taken from the payload. *)
Module OdooRecords.
Section Client.
Context {E : Type} {server : OdooServer E}.

(** [search_records(db_name, model, domain, fields, limit)]: the domain
    and the assembled options travel as the two positional arguments. *)
Definition search_records (db_name : option string) (model : string)
    (domain : list pyval) (fields : option (list string)) (limit : option Z)
  : M E pyval :=
  (uid <- OdooClient.authenticate db_name "admin" "admin" ;;
   let with_fields : pydict :=
     match fields with
     | Some (f :: fs) => [("fields", OdooClient.py_strings (f :: fs))]
     | _ => []
     end in
   let kwargs : pydict :=
     match limit with
     | Some n => if n =? 0 then with_fields else dict_set with_fields "limit" (PInt n)
     | None => with_fields
     end in
   OdooClient.execute db_name uid "admin" model "search_read"
     [PList domain; PDict kwargs] [])%coro.

(** [update_record(db_name, model, record_id, values)] for values of any
    shape. *)
Definition update_record (db_name : option string) (model : string)
    (record_id values : pyval) : M E unit :=
  (uid <- OdooClient.authenticate db_name "admin" "admin" ;;
   OdooClient.execute db_name uid "admin" model "write"
     [PList [record_id]; values] [] >>
   ret tt)%coro.

End Client.
End OdooRecords.

Module N8N.

(** What [handle_event] returns: [{"status": "ignored", "reason"}],
    [{"status": "success", "result"}] or [{"status": "error", "error"}]. *)
Inductive event_reply : Type :=
| EventIgnored (reason : string)
| EventSuccess (result : pydict)
| EventError (error : string).

(** [records[0]["id"]]. The texts of the type errors are abbreviated. *)
Definition first_record_id (records : pyval) : result pyval :=
  match records with
  | PList (PDict record :: _) =>
      match dict_lookup record "id" with
      | Some v => Ok v
      | None => Raise "'id'"
      end
  | PList [] => Raise "list index out of range"
  | PDict _ => Raise "0"
  | _ => Raise "object is not subscriptable"
  end.

(** [records[0]["id"] if records else None] *)
Definition first_id_or_none (records : pyval) : result pyval :=
  if truthy records then first_record_id records else Ok PNone.

(** The characters of a string, each as a string. *)
Fixpoint characters (s : string) : list pyval :=
  match s with
  | EmptyString => []
  | String c rest => PStr (String c EmptyString) :: characters rest
  end.

(** What [for line in v] runs over. *)
Definition py_iter (v : pyval) : result (list pyval) :=
  match v with
  | PList l => Ok l
  | PDict d => Ok (map (fun kv => PStr (fst kv)) d)
  | PStr s => Ok (characters s)
  | _ => Raise "object is not iterable"
  end.

Section Integration.
Context {str : PyStr} {E : Type} {server : OdooServer E} {broker : ContextBroker}
        {clock_format : TimeFormat}.

(** [N8NIntegration(tenant_id)._get_odoo_database()]. A fetched row
    always carries the [database] key, so the default is never used. *)
Definition _get_odoo_database (tenant_id : string) : M (world E) (option string) :=
  (info <- get_tenant_odoo_info tenant_id ;;
   match info with
   | None => raise ("No Odoo configured for tenant: " ++ tenant_id)
   | Some row => ret (t_database row)
   end)%coro.

(** The lookup both [_handle_invoice_create] and [_handle_order_create]
    start with: the partner id of the payload, or else the first partner
    with the payload's e-mail address. *)
Definition find_partner (db_name : option string) (data : pydict) : M (world E) pyval :=
  let partner_id := dict_get data "partner_id" in
  if negb (truthy partner_id) && truthy (dict_get data "partner_email")
  then (partners <- on_odoo (OdooRecords.search_records db_name "res.partner"
                               [PList [PStr "email"; PStr "="; dict_get data "partner_email"]]
                               (Some ["id"]) (Some 1)) ;;
        lift (first_id_or_none partners))%coro
  else ret partner_id.

(** The product of a line: its id, or else the first product with its
    name. *)
Definition find_product (db_name : option string) (line : pydict) : M (world E) pyval :=
  let product_id := dict_get line "product_id" in
  if negb (truthy product_id) && truthy (dict_get line "product_name")
  then (products <- on_odoo (OdooRecords.search_records db_name "product.product"
                               [PList [PStr "name"; PStr "="; dict_get line "product_name"]]
                               (Some ["id"]) (Some 1)) ;;
        lift (first_id_or_none products))%coro
  else ret product_id.

(** The loop over the lines, given what one line contributes besides its
    product. A line that is not an object has no [get]. *)
Fixpoint prepare_lines (db_name : option string) (entry : pyval -> pydict -> pydict)
    (lines : list pyval) : M (world E) (list pyval) :=
  match lines with
  | [] => ret []
  | PDict line :: rest =>
      (product_id <- find_product db_name line ;;
       entries <- prepare_lines db_name entry rest ;;
       ret (PList [PInt 0; PInt 0; PDict (entry product_id line)] :: entries))%coro
  | _ :: _ => raise "object has no attribute 'get'"
  end.

Definition invoice_line (product_id : pyval) (line : pydict) : pydict :=
  [ ("product_id", product_id);
    ("name", dict_get_default line "description"
               (dict_get_default line "product_name" (PStr "Service")));
    ("quantity", dict_get_default line "quantity" (PInt 1));
    ("price_unit", dict_get_default line "price" (PInt 0)) ].

Definition order_line (product_id : pyval) (line : pydict) : pydict :=
  [ ("product_id", product_id);
    ("name", dict_get_default line "description" (PStr ""));
    ("product_uom_qty", dict_get_default line "quantity" (PInt 1));
    ("price_unit", dict_get_default line "price" (PInt 0)) ].

(** [_handle_invoice_create(data)] *)
Definition _handle_invoice_create (tenant_id : string) (data : pydict)
  : M (world E) pydict :=
  (db_name <- _get_odoo_database tenant_id ;;
   partner_id <- find_partner db_name data ;;
   if negb (truthy partner_id) then raise "Partner not found"
   else
     lines <- lift (py_iter (dict_get_default data "lines" (PList []))) ;;
     invoice_lines <- prepare_lines db_name invoice_line lines ;;
     today <- utcnow ;;
     invoice_id <- on_odoo (OdooClient.create_record db_name "account.move"
                              [ ("move_type", PStr "out_invoice");
                                ("partner_id", partner_id);
                                ("invoice_line_ids", PList invoice_lines);
                                ("invoice_date",
                                 dict_get_default data "date_invoice"
                                   (PStr (strftime_date today))) ]) ;;
     ret [("invoice_id", invoice_id)])%coro.

(** [_handle_order_create(data)] *)
Definition _handle_order_create (tenant_id : string) (data : pydict)
  : M (world E) pydict :=
  (db_name <- _get_odoo_database tenant_id ;;
   partner_id <- find_partner db_name data ;;
   if negb (truthy partner_id) then raise "Partner not found"
   else
     lines <- lift (py_iter (dict_get_default data "lines" (PList []))) ;;
     order_lines <- prepare_lines db_name order_line lines ;;
     order_id <- on_odoo (OdooClient.create_record db_name "sale.order"
                            [ ("partner_id", partner_id);
                              ("order_line", PList order_lines) ]) ;;
     ret [("order_id", order_id)])%coro.

(** [_handle_energy_log(data)]: whatever makes the record creation fail is
    answered as a skipped reading. *)
Definition _handle_energy_log (tenant_id : string) (data : pydict)
  : M (world E) pydict :=
  (db_name <- _get_odoo_database tenant_id ;;
   let installation_id := dict_get data "installation_id" in
   let meter_id := dict_get data "meter_id" in
   if negb (truthy installation_id) && negb (truthy meter_id)
   then raise "installation_id or meter_id required"
   else
     now <- utcnow ;;
     let reading_vals : pydict :=
       [ ("installation_id", installation_id);
         ("meter_id", meter_id);
         ("value", dict_get_default data "value" (PInt 0));
         ("reading_date", dict_get_default data "timestamp" (PStr (isoformat now)));
         ("reading_type", dict_get_default data "type" (PStr "production")) ] in
     let model := if truthy installation_id then "energy.reading"
                  else "energy.meter.reading" in
     try_except
       (reading_id <- on_odoo (OdooClient.create_record db_name model reading_vals) ;;
        ret [("reading_id", reading_id)])
       (fun _ => ret [ ("status", PStr "skipped");
                       ("reason", PStr "Energy module not installed") ]))%coro.

(** [_handle_product_update(data)] *)
Definition _handle_product_update (tenant_id : string) (data : pydict)
  : M (world E) pydict :=
  (db_name <- _get_odoo_database tenant_id ;;
   let given := dict_get data "product_id" in
   product_id <-
     (if negb (truthy given) && truthy (dict_get data "ngsi_id")
      then products <- on_odoo (OdooRecords.search_records db_name "product.template"
                                  [PList [PStr "x_ngsi_id"; PStr "=";
                                          dict_get data "ngsi_id"]]
                                  (Some ["id"]) (Some 1)) ;;
           lift (first_id_or_none products)
      else ret given) ;;
   if negb (truthy product_id) then raise "Product not found"
   else
     on_odoo (OdooRecords.update_record db_name "product.template" product_id
                (dict_get_default data "values" (PDict []))) >>
     ret [("product_id", product_id)])%coro.

(** [_handle_sync_request(data)] *)
Definition _handle_sync_request (tenant_id : string) (data : pydict)
  : M (world E) pydict :=
  if truthy (dict_get data "full")
  then (result <- full_sync tenant_id ;;
        ret [ ("synced", PInt (synced result));
              ("errors", PInt (Z.of_nat (length (errors result)))) ])%coro
  else if truthy (dict_get data "entity_id")
  then (entity <- fetch_entity tenant_id (dict_get data "entity_id") ;;
        match entity with
        | Some (field :: fields) =>
            odoo_record <- sync_entity_to_odoo tenant_id (field :: fields) ;;
            ret [("synced", PInt 1); ("odoo_id", r_id odoo_record)]
        | _ => ret [("synced", PInt 0); ("error", PStr "Entity not found")]
        end)%coro
  else ret [("status", PStr "no_action")].

(** The table of handlers in [handle_event]. *)
Definition handlers : list (string * (string -> pydict -> M (world E) pydict)) :=
  [ ("odoo.invoice.create", _handle_invoice_create);
    ("odoo.order.create", _handle_order_create);
    ("odoo.energy.log", _handle_energy_log);
    ("odoo.product.update", _handle_product_update);
    ("sync.request", _handle_sync_request) ].

(** [handle_event(event, data, workflow_id, execution_id)]; the two ids
    are only logged. *)
Definition handle_event (tenant_id event : string) (data : pydict)
  : M (world E) event_reply :=
  match dict_lookup handlers event with
  | None => ret (EventIgnored ("Unknown event: " ++ event))
  | Some handler =>
      try_except
        (result <- handler tenant_id data ;; ret (EventSuccess result))%coro
        (fun e => ret (EventError e))
  end.

End Integration.
End N8N.

(** ** The workflow webhook (routers/webhook.py) *)

(** The request model [N8NWebhookPayload]. *)
Record N8NWebhookPayload : Type := {
  workflow_id : string;
  execution_id : string;
  event : string;
  data : pydict;
  payload_tenant_id : string
}.

(** The configured secret, the JSON dump of a payload and HMAC-SHA256 in
    hexadecimal (key first). *)
Class WebhookSigning : Type := {
  N8N_WEBHOOK_SECRET : string;
  model_dump_json : N8NWebhookPayload -> string;
  hmac_sha256_hex : string -> string -> string
}.

Module WorkflowWebhook.

(** The reply of [handle_n8n_webhook]. *)
Record n8n_reply : Type := {
  reply_event : string;
  reply_result : N8N.event_reply;
  reply_timestamp : Database.timestamp
}.

Definition is_ascii (c : ascii) : bool :=
  match c with Ascii _ _ _ _ _ _ _ top => negb top end.

Fixpoint all_ascii (s : string) : bool :=
  match s with
  | EmptyString => true
  | String c rest => is_ascii c && all_ascii rest
  end.

Section Handlers.
Context {str : PyStr} {E : Type} {server : OdooServer E} {broker : ContextBroker}
        {clock_format : TimeFormat} {signing : WebhookSigning}.

(** [_verify_n8n_signature(payload, signature)]: the digest comparison
    refuses a string with a non-ASCII character. *)
Definition _verify_n8n_signature (payload signature : string) : result bool :=
  if all_ascii signature
  then Ok (String.eqb (hmac_sha256_hex N8N_WEBHOOK_SECRET payload) signature)
  else Raise "comparing strings with non-ASCII characters is not supported".

(** The [try] block of [handle_n8n_webhook]. *)
Definition n8n_steps (payload : N8NWebhookPayload) : M (world E) n8n_reply :=
  (result <- N8N.handle_event (payload_tenant_id payload) (event payload) (data payload) ;;
   now <- utcnow ;;
   ret {| reply_event := event payload; reply_result := result;
          reply_timestamp := now |})%coro.

Definition run_n8n (payload : N8NWebhookPayload) : handler E n8n_reply :=
  fun w =>
    match n8n_steps payload w with
    | (w', Ok reply) => (w', Returns reply)
    | (w', Raise e) => (w', HTTPException 500 ("Failed to process webhook: " ++ e))
    end.

(** [handle_n8n_webhook(payload, x_n8n_signature)]. The signature check
    runs outside the [try] block, so an exception in it is answered by the
    framework. *)
Definition handle_n8n_webhook (payload : N8NWebhookPayload)
    (x_n8n_signature : option string) : handler E n8n_reply :=
  fun w =>
    if String.eqb N8N_WEBHOOK_SECRET "" then run_n8n payload w
    else
      match x_n8n_signature with
      | None => (w, HTTPException 401 "Missing webhook signature")
      | Some signature =>
          if String.eqb signature ""
          then (w, HTTPException 401 "Missing webhook signature")
          else
            match _verify_n8n_signature (model_dump_json payload) signature with
            | Raise _ => (w, HTTPException 500 "Internal Server Error")
            | Ok false => (w, HTTPException 401 "Invalid webhook signature")
            | Ok true => run_n8n payload w
            end
      end.

End Handlers.
End WorkflowWebhook.

(** ** The connector inside Odoo (addons/nekazari_connector/controllers/webhook.py) *)

(** [json.dumps] on a decoded JSON value. *)
Class JsonDumps : Type := json_dumps : pyval -> string.

Module Connector.

(** [_get_value(prop)] *)
Definition _get_value (prop : pyval) : pyval :=
  match prop with
  | PDict d => py_or (dict_get d "value") (dict_get d "@value")
  | _ => prop
  end.

(** The selection values of a device's type and status. *)
Definition type_map : list (string * string) :=
  [ ("Sensor", "sensor"); ("Actuator", "actuator"); ("Gateway", "gateway");
    ("WeatherStation", "weather_station") ].

Definition status_values : list string := ["online"; "offline"; "maintenance"; "error"].

(** [type_map.get(device_type, 'other')]: a list or an object cannot be
    hashed, any other value that is not a key gives the default. *)
Definition device_type_of (device_type : pyval) : result string :=
  match device_type with
  | PStr s => Ok match dict_lookup type_map s with Some t => t | None => "other" end
  | PList _ => Raise "unhashable type: 'list'"
  | PDict _ => Raise "unhashable type: 'dict'"
  | _ => Ok "other"
  end.

(** [self._get_value(data['status']).lower()]: only a string has
    [lower]. The four status values are ASCII, and no other text lowers to
    one of them, so lowering the ASCII letters decides the test that
    follows. *)
Definition status_of (status : pyval) : result string :=
  match status with
  | PStr s => Ok (lower s)
  | _ => Raise "object has no attribute 'lower'"
  end.

Section Transform.
Context {dumps : JsonDumps}.

(** [if key in data: values[field] = self._get_value(data[key])] *)
Definition copy_value (data : pydict) (key field : string) (values : pydict) : pydict :=
  match dict_lookup data key with
  | Some prop => dict_set values field (_get_value prop)
  | None => values
  end.

(** [if 'location' in data: values['x_location'] = json.dumps(...)] *)
Definition copy_location (data values : pydict) : pydict :=
  match dict_lookup data "location" with
  | Some prop => dict_set values "x_location" (PStr (json_dumps (_get_value prop)))
  | None => values
  end.

Definition transform_parcel (data values : pydict) : pydict :=
  copy_value data "description" "description"
    (copy_value data "soilType" "x_soil_type"
       (copy_location data
          (copy_value data "cropType" "x_crop_type"
             (copy_value data "area" "x_area" values)))).

Definition transform_device (data values : pydict) : result pydict :=
  match match dict_lookup data "deviceType" with
        | Some prop =>
            match device_type_of (_get_value prop) with
            | Ok t => Ok (dict_set values "x_device_type" (PStr t))
            | Raise msg => Raise msg
            end
        | None => Ok values
        end with
  | Raise msg => Raise msg
  | Ok typed =>
      match match dict_lookup data "status" with
            | Some prop =>
                match status_of (_get_value prop) with
                | Ok status =>
                    Ok (if existsb (String.eqb status) status_values
                        then dict_set typed "x_status" (PStr status)
                        else typed)
                | Raise msg => Raise msg
                end
            | None => Ok typed
            end with
      | Raise msg => Raise msg
      | Ok with_status =>
          Ok (copy_location data (copy_value data "serialNumber" "serial_no" with_status))
      end
  end.

Definition transform_building (data values : pydict) : pydict :=
  let with_address :=
    match dict_lookup data "address" with
    | Some prop =>
        match _get_value prop with
        | PDict address =>
            dict_set (dict_set (dict_set values "street" (dict_get address "streetAddress"))
                        "city" (dict_get address "addressLocality"))
              "zip" (dict_get address "postalCode")
        | _ => values
        end
    | None => values
    end in
  copy_location data (copy_value data "floorArea" "x_floor_area" with_address).

(** [_transform_ngsi_to_odoo(entity_type, data)] for a data object. *)
Definition _transform_ngsi_to_odoo (entity_type : pyval) (data : pydict) : result pydict :=
  let values := copy_value data "name" "name" [] in
  if is_type entity_type "AgriParcel" then Ok (transform_parcel data values)
  else if is_type entity_type "Device" then transform_device data values
  else if is_type entity_type "Building" then Ok (transform_building data values)
  else Ok values.

End Transform.
End Connector.

(** ** Authentication (middleware/auth.py) *)

(** What the middleware reads of a request. *)
Record request : Type := {
  path : string;
  method : string;
  authorization : option string;
  x_tenant_id : option string
}.

(** How [validate_token] ends: the decoded claims, or one of the
    exceptions [dispatch] tells apart. *)
Inductive token_check : Type :=
| TokenValid (claims : pydict)
| TokenExpired
| TokenInvalid
| TokenError (msg : string).

(** Signature and issuer validation against the identity provider. *)
Class TokenValidator : Type := validate_token : string -> token_check.

Module Auth.

Definition EXEMPT_PATHS : list string :=
  [ "/"; "/api/odoo/health"; "/api/odoo/webhook/ngsi"; "/api/odoo/webhook/n8n";
    "/docs"; "/redoc"; "/openapi.json" ].

(** The whitespace of [str.split()] among the characters a header value
    can hold. *)
Definition is_space (c : ascii) : bool :=
  let n := nat_of_ascii c in
  ((9 <=? n)%nat && (n <=? 13)%nat) || ((28 <=? n)%nat && (n <=? 32)%nat)
  || (n =? 133)%nat || (n =? 160)%nat.

(** [s.split()]: the maximal runs of characters that are not whitespace;
    [current] is the run being read. *)
Fixpoint py_words_from (current s : string) : list string :=
  match s with
  | EmptyString => match current with EmptyString => [] | _ => [current] end
  | String c rest =>
      if is_space c
      then match current with
           | EmptyString => py_words_from EmptyString rest
           | _ => current :: py_words_from EmptyString rest
           end
      else py_words_from (current ++ String c EmptyString) rest
  end.

Definition py_words (s : string) : list string := py_words_from EmptyString s.

Fixpoint no_space (s : string) : bool :=
  match s with
  | EmptyString => true
  | String c rest => negb (is_space c) && no_space rest
  end.

(** What [dispatch] does with a request: hand it on, with the user and
    tenant it stored in the request state if it validated a token, or
    answer it itself. *)
Inductive gate : Type :=
| Forward (state : option (pydict * pyval))
| Reject (status : Z) (detail : string).

(** [extract_tenant_id(request, payload)] *)
Definition extract_tenant_id (r : request) (claims : pydict) : result pyval :=
  let from_header :=
    match x_tenant_id r with
    | Some t => if String.eqb t "" then None else Some t
    | None => None
    end in
  match from_header with
  | Some t => Ok (PStr t)
  | None =>
      match dict_get_default claims "resource_access" (PDict []) with
      | PDict resource_access =>
          match dict_get_default resource_access "nekazari-api" (PDict []) with
          | PDict nekazari_access =>
              let tenant_id := dict_get nekazari_access "tenant_id" in
              if truthy tenant_id then Ok tenant_id
              else Ok (dict_get claims "tenant_id")
          | _ => Raise "object has no attribute 'get'"
          end
      | _ => Raise "object has no attribute 'get'"
      end
  end.

Section Middleware.
Context {validator : TokenValidator}.

(** [JWTAuthMiddleware.dispatch(request, call_next)] *)
Definition dispatch (r : request) : gate :=
  if existsb (String.eqb (path r)) EXEMPT_PATHS then Forward None
  else if String.eqb (method r) "OPTIONS" then Forward None
  else
    match authorization r with
    | None => Reject 401 "Missing Authorization header"
    | Some auth_header =>
        if String.eqb auth_header "" then Reject 401 "Missing Authorization header"
        else
          match py_words auth_header with
          | [scheme; token] =>
              if String.eqb (lower scheme) "bearer"
              then match validate_token token with
                   | TokenValid claims =>
                       match extract_tenant_id r claims with
                       | Ok tenant_id => Forward (Some (claims, tenant_id))
                       | Raise _ => Reject 500 "Authentication error"
                       end
                   | TokenExpired => Reject 401 "Token has expired"
                   | TokenInvalid => Reject 401 "Invalid token"
                   | TokenError _ => Reject 500 "Authentication error"
                   end
              else Reject 401 "Invalid Authorization header format"
          | _ => Reject 401 "Invalid Authorization header format"
          end
    end.

End Middleware.

(** [get_current_tenant(request)] on the state [dispatch] left. *)
Definition get_current_tenant (state : option (pydict * pyval)) : http_result pyval :=
  match state with
  | Some (_, tenant_id) =>
      if truthy tenant_id then Returns tenant_id
      else HTTPException 400 "Tenant ID not found"
  | None => HTTPException 400 "Tenant ID not found"
  end.

(** [get_current_user(request)] on the state [dispatch] left. *)
Definition get_current_user (state : option (pydict * pyval)) : http_result pydict :=
  match state with
  | Some (field :: fields, _) => Returns (field :: fields)
  | _ => HTTPException 401 "Not authenticated"
  end.

End Auth.

(** ** What a coroutine leaves alone *)

Module Frame.
Section Tables.
Context {E : Type}.

(** The three tables hold the same rows. *)
Definition same_tables (w w' : world E) : Prop :=
  tenant_info w' = tenant_info w
  /\ entity_mappings w' = entity_mappings w
  /\ sync_status w' = sync_status w.

(** A coroutine that, however it ends, leaves the tables as they were. *)
Definition keeps_tables {A : Type} (c : M (world E) A) : Prop :=
  forall w, same_tables w (fst (c w)).

End Tables.
End Frame.

(** ** More sample data *)

Module Cases.

(** A broker side that removes every subscription it is asked to. *)
Definition removal : SubscriptionRemoval :=
  fun _ _ => Ok {| status_code := 204; json := Ok tt; text := "" |}.

(** A broker that cannot be reached when subscriptions are removed. *)
Definition unreachable : SubscriptionRemoval :=
  fun _ _ => Raise "All connection attempts failed".

(** A broker that knows one parcel under every id. *)
Definition parcel_broker : ContextBroker :=
  {| get_entity := fun _ _ => Demo.ok_response (Demo.parcel "urn:x:1");
     get_entities := fun _ _ => Demo.ok_response [];
     post_subscription := fun _ _ _ =>
       Ok {| status_code := 201; json := Ok tt; text := "" |} |}.

(** A clock format for the examples, the same text for every reading. *)
Definition fixed_format : TimeFormat :=
  {| isoformat := fun _ => "2024-05-01T12:00:00";
     strftime_date := fun _ => "2024-05-01" |}.

(** A signing scheme for the examples: the payload is dumped as its event
    name and the digest is a readable stand-in for the real one. *)
Definition signing : WebhookSigning :=
  {| N8N_WEBHOOK_SECRET := "s3cret";
     model_dump_json := fun payload => event payload;
     hmac_sha256_hex := fun key message => "mac(" ++ key ++ "," ++ message ++ ")" |}.

(** A reading for a meter. *)
Definition meter_reading : pydict :=
  [ ("meter_id", PInt 4); ("value", PInt 12) ].

(** A validator that knows one token, whose claims name tenant [t1]. *)
Definition validator : TokenValidator :=
  fun token =>
    if String.eqb token "good-token"
    then TokenValid [ ("preferred_username", PStr "ana"); ("tenant_id", PStr "t1") ]
    else TokenInvalid.

End Cases.

(** * Properties *)

(** ** Sync status of a tenant that never synced *)

Lemma find_none_of_absent {A : Type} (p : A -> bool) (l : list A) :
  (forall x, In x l -> p x = false) -> find p l = None.
Proof.
  induction l as [|x l IH]; intros Hall; [reflexivity|].
  simpl. rewrite (Hall x (or_introl eq_refl)).
  apply IH. intros y Hy. apply Hall. now right.
Qed.

(** C10. A tenant without a row in [odoo_sync_status] gets the reply
    [never_synced] with no last-sync time: the handler returns, and returns
    exactly that, leaving the world as it was. *)
Theorem get_sync_status_never_synced {E : Type} (tenant_id : string) (w : world E) :
  (forall row, In row (sync_status w) -> s_tenant_id row <> tenant_id) ->
  SyncRouter.get_sync_status tenant_id w
  = (w, Returns {| SyncRouter.status := "never_synced"; SyncRouter.lastSync := None |}).
Proof.
  intros Hnone.
  unfold SyncRouter.get_sync_status, Database.get_sync_status.
  rewrite find_none_of_absent; [reflexivity|].
  intros row Hin. apply String.eqb_neq. now apply Hnone.
Qed.

Lemma get_sync_status_never_synced_witness :
  SyncRouter.get_sync_status "t1" Demo.w0
  = (Demo.w0, Returns {| SyncRouter.status := "never_synced"; SyncRouter.lastSync := None |}).
Proof.
  apply (get_sync_status_never_synced "t1" Demo.w0).
  simpl. intros row [].
Defined.

(** ** Provisioning an active tenant *)

Section Provisioning.
Context {E : Type} {server : OdooServer E} {broker : ContextBroker} {settings : Settings}.

(** C7. When the tenant's stored record has status [active], provisioning
    is refused with a 409 and the world is returned untouched: no row of
    any table, not the clock, not the server. *)
Theorem provision_active_conflict (request : Tenant.ProvisionRequest)
    (tenant_id : string) (user : list (string * string)) (w : world E)
    (row : tenant_row) :
  get_tenant_odoo_info tenant_id w = (w, Ok (Some row)) ->
  t_status row = Some "active" ->
  Tenant.provision_tenant request tenant_id user w
  = (w, HTTPException 409 "Odoo already provisioned for this tenant").
Proof.
  intros Hrow Hactive.
  unfold Tenant.provision_tenant. rewrite Hrow.
  unfold Tenant.already_active. rewrite Hactive. reflexivity.
Qed.

End Provisioning.

Lemma provision_active_conflict_witness :
  Tenant.provision_tenant (server := Demo.toy_odoo) (broker := Demo.broker)
    (settings := Demo.settings)
    {| Tenant.enableEnergyModules := true; Tenant.additionalModules := [] |}
    "t1" [("email", "kate@example.org")] Demo.w0
  = (Demo.w0, HTTPException 409 "Odoo already provisioned for this tenant").
Proof.
  apply (provision_active_conflict (server := Demo.toy_odoo) (broker := Demo.broker)
           (settings := Demo.settings) _ "t1" _ Demo.w0 (Demo.active_tenant "t1")).
  - reflexivity.
  - reflexivity.
Defined.

(** ** Tenant isolation of the mapping store *)

Section Isolation.
Context {E : Type}.

(** C2. Both reads of [odoo_entity_mappings] return, change nothing, and
    hand out rows of the asking tenant only: whatever the type filter, every
    listed row is a stored row of tenant [a], so none is a row of another
    tenant [b], and the row found by external id is a row of [a] as well. *)
Theorem mapping_reads_tenant_scoped (a b : string) (ngsi_type : option string)
    (ngsi_id : string) (w : world E) :
  a <> b ->
  (exists rows,
      get_entity_mappings a ngsi_type w = (w, Ok rows)
      /\ Forall (fun r => In r (entity_mappings w) /\ m_tenant_id r = a
                          /\ m_tenant_id r <> b) rows)
  /\ (exists found,
         get_entity_mapping_by_ngsi_id a ngsi_id w = (w, Ok found)
         /\ match found with
            | Some r => In r (entity_mappings w) /\ m_tenant_id r = a
                        /\ m_tenant_id r <> b /\ m_ngsi_id r = ngsi_id
            | None => True
            end).
Proof.
  intros Hab. split.
  - unfold get_entity_mappings. eexists. split; [reflexivity|].
    apply Forall_forall. intros r Hr.
    destruct (match ngsi_type with Some ty => negb (ty =? "")%string | None => false end);
      apply filter_In in Hr; destruct Hr as [Hin Hp].
    + apply andb_prop in Hp. destruct Hp as [Ht _].
      apply String.eqb_eq in Ht. repeat split; congruence.
    + apply String.eqb_eq in Hp. repeat split; congruence.
  - unfold get_entity_mapping_by_ngsi_id. eexists. split; [reflexivity|].
    destruct (find _ _) as [r|] eqn:Hfind; [|exact I].
    apply find_some in Hfind. destruct Hfind as [Hin Hp].
    apply andb_prop in Hp. destruct Hp as [Ht Hi].
    apply String.eqb_eq in Ht. apply String.eqb_eq in Hi.
    repeat split; congruence.
Qed.

End Isolation.

Lemma mapping_reads_tenant_scoped_witness :
  (exists rows,
      get_entity_mappings "tenant-a" None Demo.w_two_tenants = (Demo.w_two_tenants, Ok rows)
      /\ Forall (fun r => In r (entity_mappings Demo.w_two_tenants)
                          /\ m_tenant_id r = "tenant-a"
                          /\ m_tenant_id r <> "tenant-b") rows)
  /\ (exists found,
         get_entity_mapping_by_ngsi_id "tenant-a" "urn:x:1" Demo.w_two_tenants
         = (Demo.w_two_tenants, Ok found)
         /\ match found with
            | Some r => In r (entity_mappings Demo.w_two_tenants)
                        /\ m_tenant_id r = "tenant-a"
                        /\ m_tenant_id r <> "tenant-b" /\ m_ngsi_id r = "urn:x:1"
            | None => True
            end).
Proof.
  apply (mapping_reads_tenant_scoped "tenant-a" "tenant-b" None "urn:x:1"
           Demo.w_two_tenants).
  discriminate.
Defined.

(** ** The transform *)

Section Transform.
Context {str : PyStr}.

Lemma transform_building_shape (entity : pydict) :
  match _transform_building entity with
  | Ok extra =>
      exists street city zip,
        extra = [ ("is_company", PBool true); ("street", street); ("city", city);
                  ("zip", zip); ("country_id", PBool false) ]
  | Raise _ =>
      truthy (_get_property_value entity "address" PNone) = true
      /\ forall d, _get_property_value entity "address" PNone <> PDict d
  end.
Proof.
  unfold _transform_building, py_or.
  destruct (truthy (_get_property_value entity "address" PNone)) eqn:Htruthy.
  - destruct (_get_property_value entity "address" PNone) eqn:Haddr;
      try (split; [reflexivity | intros d'; discriminate]);
      try discriminate.
    do 3 eexists. reflexivity.
  - do 3 eexists. reflexivity.
Qed.

(** C9, as the code has it. Whenever the transform returns, the values
    carry the display name, which is the entity id when the name property
    is absent, and the external id; it can only raise for a Building whose
    address is a truthy value other than a dict. A property that is absent
    yields the default, a wrapper yields what is under its [value] key (or
    under [@value] when there is no [value]), a value that is not a dict is
    used as it is, and so is a dict carrying neither key: it is returned
    itself, not replaced by the default. The result depends on the entity
    alone. *)
Theorem transform_contract (entity : pydict) (odoo_model : string) :
  (forall values,
      _transform_to_odoo entity odoo_model = Ok values ->
      dict_lookup values "name"
      = Some (py_or (_get_property_value entity "name" PNone) (dict_get entity "id"))
      /\ dict_lookup values "x_ngsi_id" = Some (dict_get entity "id"))
  /\ (dict_get entity "name" = PNone ->
      py_or (_get_property_value entity "name" PNone) (dict_get entity "id")
      = dict_get entity "id")
  /\ (forall msg,
         _transform_to_odoo entity odoo_model = Raise msg ->
         dict_get entity "type" = PStr "Building"
         /\ truthy (_get_property_value entity "address" PNone) = true
         /\ forall d, _get_property_value entity "address" PNone <> PDict d)
  /\ (forall p default,
         dict_get entity p = PNone -> _get_property_value entity p default = default)
  /\ (forall p default prop,
         dict_get entity p = PDict prop -> dict_has prop "value" = true ->
         _get_property_value entity p default = dict_get prop "value")
  /\ (forall p default prop,
         dict_get entity p = PDict prop -> dict_has prop "value" = false ->
         dict_has prop "@value" = true ->
         _get_property_value entity p default = dict_get prop "@value")
  /\ (forall p default,
         dict_get entity p <> PNone -> (forall d, dict_get entity p <> PDict d) ->
         _get_property_value entity p default = dict_get entity p)
  /\ (forall p default prop,
         dict_get entity p = PDict prop -> dict_has prop "value" = false ->
         dict_has prop "@value" = false ->
         _get_property_value entity p default = PDict prop)
  /\ (forall other_model,
         _transform_to_odoo entity other_model = _transform_to_odoo entity odoo_model).
Proof.
  assert (Hbase : forall values,
             _transform_to_odoo entity odoo_model = Ok values ->
             dict_lookup values "name"
             = Some (py_or (_get_property_value entity "name" PNone)
                           (dict_get entity "id"))
             /\ dict_lookup values "x_ngsi_id" = Some (dict_get entity "id")).
  { intros values Hvalues. unfold _transform_to_odoo in Hvalues.
    repeat match type of Hvalues with
           | (if ?c then _ else _) = _ => destruct c
           end;
      try (injection Hvalues as <-; split; reflexivity).
    pose proof (transform_building_shape entity) as Hshape.
    destruct (_transform_building entity) as [extra|]; [|discriminate].
    destruct Hshape as (street & city & zip & ->).
    injection Hvalues as <-. split; reflexivity. }
  assert (Hraise : forall msg,
             _transform_to_odoo entity odoo_model = Raise msg ->
             dict_get entity "type" = PStr "Building"
             /\ truthy (_get_property_value entity "address" PNone) = true
             /\ forall d, _get_property_value entity "address" PNone <> PDict d).
  { intros msg Hmsg. unfold _transform_to_odoo in Hmsg.
    repeat match type of Hmsg with
           | (if ?c then _ else _) = _ => destruct c eqn:?
           end; try discriminate.
    split.
    - unfold is_type in *.
      destruct (dict_get entity "type"); try discriminate.
      f_equal. now apply String.eqb_eq.
    - pose proof (transform_building_shape entity) as Hshape.
      destruct (_transform_building entity); [discriminate|]. exact Hshape. }
  refine (conj Hbase (conj _ (conj Hraise (conj _ (conj _ (conj _ (conj _ (conj _ _)))))))).
  - intros Hname. unfold _get_property_value. rewrite Hname. reflexivity.
  - intros p default Hp. unfold _get_property_value. rewrite Hp. reflexivity.
  - intros p default prop Hp Hv. unfold _get_property_value. rewrite Hp, Hv. reflexivity.
  - intros p default prop Hp Hv Hv'. unfold _get_property_value.
    rewrite Hp, Hv, Hv'. reflexivity.
  - intros p default Hnone Hdict. unfold _get_property_value.
    destruct (dict_get entity p) as [| | | | | |d]; try reflexivity.
    + now contradiction Hnone.
    + now contradiction (Hdict d).
  - intros p default prop Hp Hv Hv'. unfold _get_property_value.
    rewrite Hp, Hv, Hv'. reflexivity.
  - intros other_model. reflexivity.
Qed.

End Transform.

(** A parcel whose area is a dict with neither [value] nor [@value]. *)
Lemma transform_contract_witness :
  _get_property_value
    [ ("id", PStr "urn:x:1"); ("type", PStr "AgriParcel");
      ("area", PDict [("unitCode", PStr "HA")]) ] "area" PNone
  = PDict [("unitCode", PStr "HA")].
Proof.
  apply (proj2 (proj2 (proj2 (proj2 (proj2 (proj2 (proj2
           (transform_contract (str := Demo.render)
              [ ("id", PStr "urn:x:1"); ("type", PStr "AgriParcel");
                ("area", PDict [("unitCode", PStr "HA")]) ]
              "product.template")))))))).
  - reflexivity.
  - reflexivity.
  - reflexivity.
Defined.

(** C9, as stated, fails: the area of this parcel is a dict carrying
    neither [value] nor [@value], and the value read for it is that dict,
    not the default. *)
Lemma dict_without_value_key_is_not_defaulted :
  let entity := [ ("id", PStr "urn:x:1"); ("type", PStr "AgriParcel");
                  ("area", PDict [("unitCode", PStr "HA")]) ] in
  exists prop,
    dict_get entity "area" = PDict prop
    /\ dict_has prop "value" = false
    /\ dict_has prop "@value" = false
    /\ _get_property_value entity "area" PNone <> PNone
    /\ (forall values,
           _transform_to_odoo (str := Demo.render) entity "product.template" = Ok values ->
           dict_lookup values "x_area" <> Some PNone).
Proof.
  exists [("unitCode", PStr "HA")].
  repeat split; try reflexivity; try discriminate.
  intros values Hvalues. vm_compute in Hvalues.
  injection Hvalues as <-. discriminate.
Qed.

(** ** Declared types outside the routing table *)

Section Unsupported.
Context {str : PyStr} {E : Type} {server : OdooServer E}.


End Unsupported.


(** ** Subscription identifiers *)

Lemma split_not_nil (sep : ascii) (s : string) : split sep s <> [].
Proof.
  destruct s as [|c rest]; simpl; [discriminate|].
  destruct (Ascii.eqb c sep); [discriminate|].
  destruct (split sep rest); discriminate.
Qed.

(** Splitting around one occurrence of the separator splits both sides. *)
Lemma split_app_sep (sep : ascii) (a b : string) :
  split sep (a ++ String sep b) = (split sep a ++ split sep b)%list.
Proof.
  induction a as [|c a IH]; simpl.
  - now rewrite Ascii.eqb_refl.
  - destruct (Ascii.eqb c sep); [now rewrite IH|].
    rewrite IH. pose proof (split_not_nil sep a) as Hne.
    destruct (split sep a); [now contradiction Hne | reflexivity].
Qed.

Lemma split_without_sep (sep : ascii) (s : string) :
  has_char sep s = false -> split sep s = [s].
Proof.
  induction s as [|c s IH]; simpl; intros Hno; [reflexivity|].
  apply orb_false_elim in Hno. destruct Hno as [Hc Hs].
  rewrite Hc, (IH Hs). reflexivity.
Qed.

Lemma has_char_app (c : ascii) (a b : string) :
  has_char c (a ++ b) = has_char c a || has_char c b.
Proof.
  induction a as [|c' a IH]; simpl; [reflexivity|].
  now rewrite IH, orb_assoc.
Qed.

Lemma join_cons_char (sep : string) (c : ascii) (piece : string) (pieces : list string) :
  join sep (String c piece :: pieces) = String c (join sep (piece :: pieces)).
Proof. destruct pieces; reflexivity. Qed.

(** Joining the pieces of a split with the separator gives the string back. *)
Lemma join_split (sep : ascii) (s : string) :
  join (String sep EmptyString) (split sep s) = s.
Proof.
  induction s as [|c s IH]; simpl; [reflexivity|].
  pose proof (split_not_nil sep s) as Hne.
  destruct (Ascii.eqb c sep) eqn:Hc.
  - apply Ascii.eqb_eq in Hc. subst c.
    destruct (split sep s) as [|piece pieces]; [now contradiction Hne|].
    simpl in *. now rewrite IH.
  - destruct (split sep s) as [|piece pieces]; [now contradiction Hne|].
    rewrite join_cons_char. now rewrite IH.
Qed.

(** [l[2:-1]] of a list with two leading items and one trailing item. *)
Lemma py_slice_between {A : Type} (x y z : A) (middle : list A) :
  py_slice (x :: y :: (middle ++ [z])%list) 2 (-1) = middle.
Proof.
  unfold py_slice, slice_bound. simpl length. rewrite length_app. simpl length.
  replace (2 <? 0) with false by reflexivity.
  replace (-1 <? 0) with true by reflexivity.
  rewrite Z.min_l by lia. rewrite Z.max_r by lia.
  replace (Z.to_nat 2) with 2%nat by reflexivity.
  replace (Z.to_nat (Z.of_nat (S (S (length middle + 1))) + -1) - 2)%nat
    with (length middle) by lia.
  simpl skipn. rewrite firstn_app, firstn_all, Nat.sub_diag. simpl.
  apply app_nil_r.
Qed.

Lemma py_index_last {A : Type} (x y z last : A) :
  py_index [x; y; z; last] (-1) = Some last.
Proof. reflexivity. Qed.

Lemma py_index_first {A : Type} (x : A) (rest : list A) :
  py_index (x :: rest) 0 = Some x.
Proof.
  unfold py_index. replace (0 <? 0) with false by reflexivity.
  replace (Z.of_nat (length (x :: rest)) <=? 0) with false
    by (symmetry; apply Z.leb_gt; simpl length; lia).
  reflexivity.
Qed.

Lemma py_index_second {A : Type} (x y : A) (rest : list A) :
  py_index (x :: y :: rest) 1 = Some y.
Proof.
  unfold py_index. replace (1 <? 0) with false by reflexivity.
  replace (Z.of_nat (length (x :: y :: rest)) <=? 1) with false
    by (symmetry; apply Z.leb_gt; simpl length; lia).
  reflexivity.
Qed.

Lemma lower_declared_type (entity_type : string) :
  In entity_type entity_types ->
  has_char ":" (lower entity_type) = false /\ has_char "-" (lower entity_type) = false.
Proof.
  unfold entity_types. simpl.
  intros [<-|[<-|[<-|[<-|[<-|[<-|[]]]]]]]; split; reflexivity.
Qed.

(** The generated identifier of a tenant without a colon parses back. *)
Lemma extract_generated (tenant_id entity_type : string) :
  has_char ":" tenant_id = false ->
  In entity_type entity_types ->
  _extract_tenant_from_subscription (subscription_id tenant_id entity_type)
  = Some tenant_id.
Proof.
  intros Hcolon Htype.
  destruct (lower_declared_type entity_type Htype) as [Hlc Hlh].
  unfold _extract_tenant_from_subscription, subscription_id.
  set (sub_name := "nkz-odoo-" ++ tenant_id ++ "-" ++ lower entity_type).
  change ("urn:ngsi-ld:Subscription:nkz-odoo-" ++ tenant_id ++ "-" ++ lower entity_type)
    with ("urn" ++ String ":" ("ngsi-ld" ++ String ":" ("Subscription" ++ String ":" sub_name))).
  rewrite !split_app_sep.
  assert (Hsub : has_char ":" sub_name = false).
  { unfold sub_name. rewrite !has_char_app, Hcolon, Hlc. reflexivity. }
  rewrite (split_without_sep ":" sub_name Hsub).
  change (split ":" "urn" ++ split ":" "ngsi-ld" ++ split ":" "Subscription" ++ [sub_name])%list
    with ["urn"; "ngsi-ld"; "Subscription"; sub_name].
  rewrite py_index_last. simpl length. simpl Nat.leb. cbv iota.
  unfold sub_name.
  change ("nkz-odoo-" ++ tenant_id ++ "-" ++ lower entity_type)
    with ("nkz" ++ String "-" ("odoo" ++ String "-" (tenant_id ++ String "-" (lower entity_type)))).
  rewrite !split_app_sep.
  rewrite (split_without_sep "-" (lower entity_type) Hlh).
  change (split "-" "nkz" ++ split "-" "odoo" ++ split "-" tenant_id ++ [lower entity_type])%list
    with ("nkz" :: "odoo" :: (split "-" tenant_id ++ [lower entity_type])%list).
  rewrite py_slice_between, join_split, py_index_first, py_index_second.
  pose proof (split_not_nil "-" tenant_id) as Hne.
  destruct (split "-" tenant_id) as [|piece pieces]; [now contradiction Hne|].
  simpl app. simpl length.
  destruct (pieces ++ [lower entity_type])%list eqn:Hrest; [|reflexivity].
  now destruct pieces.
Qed.

(** An identifier whose last colon-separated segment has fewer than four
    hyphen-separated parts names no tenant. *)
Lemma extract_short (subscription_id : string) :
  (length (split "-" (last (split ":" subscription_id) "")) < 4)%nat ->
  _extract_tenant_from_subscription subscription_id = None.
Proof.
  intros Hshort. unfold _extract_tenant_from_subscription.
  destruct (4 <=? length (split ":" subscription_id))%nat; [|reflexivity].
  assert (Hlast : forall (l : list string), l <> [] -> py_index l (-1) = Some (last l "")).
  { intros l Hl. unfold py_index.
    replace (-1 <? 0) with true by reflexivity.
    destruct l as [|x l]; [now contradiction Hl|].
    assert (Hlen : Z.of_nat (length (x :: l)) + -1 = Z.of_nat (length l))
      by (simpl length; lia).
    rewrite Hlen.
    replace (Z.of_nat (length l) <? 0) with false by (symmetry; apply Z.ltb_ge; lia).
    replace (Z.of_nat (length (x :: l)) <=? Z.of_nat (length l)) with false
      by (symmetry; apply Z.leb_gt; simpl length; lia).
    simpl orb. cbv iota. rewrite Nat2Z.id.
    clear Hl Hlen. revert x. induction l as [|y l IH]; intros x; [reflexivity|].
    simpl length. change (nth_error (x :: y :: l) (S (length l))) with (nth_error (y :: l) (length l)).
    rewrite IH. reflexivity. }
  rewrite (Hlast _ (split_not_nil ":" subscription_id)).
  destruct (py_index _ 0); [|reflexivity].
  destruct (py_index _ 1); [|reflexivity].
  apply Nat.leb_gt in Hshort. rewrite Hshort. reflexivity.
Qed.

Section Notifications.
Context {str : PyStr} {E : Type} {server : OdooServer E}.

(** C8, as the code has it. For a tenant id without a colon and a declared
    type of the routing table, the generated subscription id parses back
    to that tenant id; so it does for [farm-7] and [AgriParcel]. An id
    whose last segment has fewer than four hyphen-separated parts names no
    tenant, and its notification is answered [ignored,
    unknown_subscription] with the world untouched. *)
Theorem subscription_id_round_trip :
  (forall tenant_id entity_type,
      has_char ":" tenant_id = false ->
      In entity_type entity_types ->
      _extract_tenant_from_subscription (subscription_id tenant_id entity_type)
      = Some tenant_id)
  /\ _extract_tenant_from_subscription (subscription_id "farm-7" "AgriParcel")
     = Some "farm-7"
  /\ (forall subscriptionId data (w : world E),
         (length (split "-" (last (split ":" subscriptionId) "")) < 4)%nat ->
         _extract_tenant_from_subscription subscriptionId = None
         /\ handle_ngsi_notification subscriptionId data w
            = (w, Returns (Ignored "unknown_subscription"))).
Proof.
  split; [exact extract_generated|].
  split; [reflexivity|].
  intros subscriptionId data w Hshort.
  pose proof (extract_short subscriptionId Hshort) as Hnone.
  split; [exact Hnone|].
  unfold handle_ngsi_notification. rewrite Hnone. reflexivity.
Qed.

End Notifications.

Lemma subscription_id_round_trip_witness :
  _extract_tenant_from_subscription (subscription_id "coop-north-3" "WeatherStation")
  = Some "coop-north-3"
  /\ handle_ngsi_notification (str := Demo.render) (server := Demo.toy_odoo)
       "urn:ngsi-ld:Subscription:nkz-odoo-x" [Demo.parcel "urn:x:1"] Demo.w0
     = (Demo.w0, Returns (Ignored "unknown_subscription")).
Proof.
  split.
  - apply (proj1 (subscription_id_round_trip (str := Demo.render)
                    (server := Demo.toy_odoo)) "coop-north-3" "WeatherStation").
    + reflexivity.
    + simpl. tauto.
  - apply (proj2 (proj2 (subscription_id_round_trip (str := Demo.render)
                           (server := Demo.toy_odoo)))
             "urn:ngsi-ld:Subscription:nkz-odoo-x" [Demo.parcel "urn:x:1"] Demo.w0).
    vm_compute. lia.
Defined.

(** C8, as stated for every tenant id, fails: a tenant id may hold a colon
    (it is taken as is from the request), and then the last colon-separated
    segment of the generated id is no longer the whole subscription name. *)
Lemma colon_tenant_does_not_round_trip :
  In "AgriParcel" entity_types
  /\ _extract_tenant_from_subscription (subscription_id "a:b" "AgriParcel") <> Some "a:b".
Proof.
  split; [simpl; tauto|]. vm_compute. discriminate.
Qed.

(** ** The mapping table under [INSERT ... ON CONFLICT DO UPDATE] *)

Section MappingTable.
Variables (tenant_id ngsi_id : string) (new_row : mapping_row).
Hypothesis new_row_key : same_mapping_key tenant_id ngsi_id new_row = true.

Let on_conflict := fun old : mapping_row => mapping_conflict_update old new_row.
Let stored := upsert (same_mapping_key tenant_id ngsi_id) on_conflict new_row.

Lemma conflict_update_keeps_key (t i : string) (old : mapping_row) :
  same_mapping_key t i (mapping_conflict_update old new_row) = same_mapping_key t i old.
Proof. reflexivity. Qed.

Lemma count_mappings_map_update (t i : string) (rows : list mapping_row) :
  count_mappings t i
    (map (fun r => if same_mapping_key tenant_id ngsi_id r then on_conflict r else r) rows)
  = count_mappings t i rows.
Proof.
  unfold count_mappings.
  induction rows as [|r rows IH]; [reflexivity|]. simpl.
  assert (Hkey : same_mapping_key t i
                   (if same_mapping_key tenant_id ngsi_id r then on_conflict r else r)
                 = same_mapping_key t i r).
  { destruct (same_mapping_key tenant_id ngsi_id r); [apply conflict_update_keeps_key|reflexivity]. }
  rewrite Hkey. destruct (same_mapping_key t i r); simpl; now rewrite IH.
Qed.

Lemma count_mappings_app (t i : string) (rows more : list mapping_row) :
  count_mappings t i (rows ++ more)
  = (count_mappings t i rows + count_mappings t i more)%nat.
Proof. unfold count_mappings. now rewrite filter_app, length_app. Qed.

Lemma existsb_false_count (rows : list mapping_row) :
  existsb (same_mapping_key tenant_id ngsi_id) rows = false ->
  count_mappings tenant_id ngsi_id rows = 0%nat.
Proof.
  unfold count_mappings. induction rows as [|r rows IH]; [reflexivity|].
  simpl. intros Hex. apply orb_false_elim in Hex. destruct Hex as [Hr Hrows].
  rewrite Hr. now apply IH.
Qed.

Lemma existsb_true_count (rows : list mapping_row) :
  existsb (same_mapping_key tenant_id ngsi_id) rows = true ->
  (1 <= count_mappings tenant_id ngsi_id rows)%nat.
Proof.
  unfold count_mappings. induction rows as [|r rows IH]; [discriminate|].
  simpl. destruct (same_mapping_key tenant_id ngsi_id r); simpl; [lia|exact IH].
Qed.

(** A write never lowers the number of rows under any key. *)
Lemma upsert_count_monotone (t i : string) (rows : list mapping_row) :
  (count_mappings t i rows <= count_mappings t i (stored rows))%nat.
Proof.
  unfold stored, upsert.
  destruct (existsb (same_mapping_key tenant_id ngsi_id) rows).
  - now rewrite count_mappings_map_update.
  - rewrite count_mappings_app. lia.
Qed.

(** After a write the written key holds one row, provided the table
    satisfied its uniqueness constraint. *)
Lemma upsert_count_written (rows : list mapping_row) :
  (count_mappings tenant_id ngsi_id rows <= 1)%nat ->
  count_mappings tenant_id ngsi_id (stored rows) = 1%nat.
Proof.
  intros Hunique. unfold stored, upsert.
  destruct (existsb (same_mapping_key tenant_id ngsi_id) rows) eqn:Hex.
  - rewrite count_mappings_map_update.
    pose proof (existsb_true_count rows Hex). lia.
  - rewrite count_mappings_app, (existsb_false_count rows Hex).
    unfold count_mappings. simpl. now rewrite new_row_key.
Qed.

Lemma same_key_eq (t i : string) (r : mapping_row) :
  same_mapping_key tenant_id ngsi_id r = true ->
  same_mapping_key t i r = true ->
  t = tenant_id /\ i = ngsi_id.
Proof.
  unfold same_mapping_key. intros Ha Hb.
  apply andb_prop in Ha. apply andb_prop in Hb.
  destruct Ha as [Ha1 Ha2]. destruct Hb as [Hb1 Hb2].
  apply String.eqb_eq in Ha1, Ha2, Hb1, Hb2. split; congruence.
Qed.

(** The uniqueness constraint survives a write. *)
Lemma upsert_unique (rows : list mapping_row) :
  unique_mappings rows -> unique_mappings (stored rows).
Proof.
  intros Hunique t i.
  destruct (same_mapping_key t i new_row) eqn:Hnew.
  - destruct (same_key_eq t i new_row new_row_key Hnew) as [-> ->].
    rewrite upsert_count_written; [lia|apply Hunique].
  - unfold stored, upsert.
    destruct (existsb (same_mapping_key tenant_id ngsi_id) rows).
    + rewrite count_mappings_map_update. apply Hunique.
    + rewrite count_mappings_app. unfold count_mappings at 2. simpl.
      rewrite Hnew. simpl. rewrite Nat.add_0_r. apply Hunique.
Qed.

(** The row a lookup finds after a write carries the written record id. *)
Lemma upsert_find (rows : list mapping_row) :
  exists row,
    find (same_mapping_key tenant_id ngsi_id) (stored rows) = Some row
    /\ m_odoo_id row = m_odoo_id new_row.
Proof.
  unfold stored, upsert.
  destruct (existsb (same_mapping_key tenant_id ngsi_id) rows) eqn:Hex.
  - induction rows as [|r rows IH]; [discriminate|].
    simpl in *. destruct (same_mapping_key tenant_id ngsi_id r) eqn:Hr.
    + exists (on_conflict r). unfold on_conflict at 1.
      rewrite conflict_update_keeps_key, Hr. split; reflexivity.
    + rewrite Hr. apply IH. exact Hex.
  - exists new_row. split; [|reflexivity].
    induction rows as [|r rows IH]; simpl in *.
    + now rewrite new_row_key.
    + apply orb_false_elim in Hex. destruct Hex as [Hr Hrows].
      rewrite Hr. now apply IH.
Qed.

End MappingTable.

(** ** One entity, synced once and again *)

Lemma Ok_inj {A : Type} (a b : A) : Ok a = Ok b -> a = b.
Proof. intros Heq. now injection Heq. Qed.

Lemma model_for_some (entity_type : pyval) (odoo_model : string) :
  model_for entity_type = Ok (Some odoo_model) ->
  exists ngsi_type,
    entity_type = PStr ngsi_type
    /\ dict_lookup NGSI_TO_ODOO_MODEL ngsi_type = Some odoo_model.
Proof.
  destruct entity_type as [| | | |ngsi_type| |]; try discriminate.
  intros Hmodel. exists ngsi_type. split; [reflexivity|].
  exact (Ok_inj _ _ Hmodel).
Qed.

Section MappingWrite.
Context {E : Type}.

(** [create_entity_mapping] returns exactly when its arguments fit the
    columns, and then it has stored the proposed row. *)
Lemma create_entity_mapping_returns (tenant_id : string) (mapping : mapping_dict)
    (w w' : world E) (u : unit) :
  create_entity_mapping tenant_id mapping w = (w', Ok u) ->
  exists ngsi_id ngsi_type odoo_id odoo_name last_sync,
    d_ngsi_id mapping = PStr ngsi_id
    /\ d_ngsi_type mapping = PStr ngsi_type
    /\ d_odoo_id mapping = PInt odoo_id
    /\ varchar_nullable "odoo_name" (d_odoo_name mapping) = Ok odoo_name
    /\ timestamptz_nullable "last_sync" (d_last_sync mapping) = Ok last_sync
    /\ w' = set_entity_mappings
              (upsert (same_mapping_key tenant_id ngsi_id)
                 (fun old =>
                    mapping_conflict_update old
                      {| m_tenant_id := tenant_id; m_ngsi_id := ngsi_id;
                         m_ngsi_type := ngsi_type; m_odoo_id := odoo_id;
                         m_odoo_model := d_odoo_model mapping;
                         m_odoo_name := odoo_name;
                         m_last_sync := last_sync |})
                 {| m_tenant_id := tenant_id; m_ngsi_id := ngsi_id;
                    m_ngsi_type := ngsi_type; m_odoo_id := odoo_id;
                    m_odoo_model := d_odoo_model mapping;
                    m_odoo_name := odoo_name;
                    m_last_sync := last_sync |}
                 (entity_mappings w)) w.
Proof.
  unfold create_entity_mapping, bind, lift.
  destruct (d_ngsi_id mapping) as [| | | |ngsi_id| |]; try discriminate;
    destruct (d_ngsi_type mapping) as [| | | |ngsi_type| |]; try discriminate;
    destruct (d_odoo_id mapping) as [| |odoo_id| | | |]; try discriminate;
    cbv beta iota delta [varchar_nullable integer_nullable not_null];
    fold (varchar_nullable "odoo_name" (d_odoo_name mapping));
    destruct (varchar_nullable "odoo_name" (d_odoo_name mapping)) as [odoo_name|];
    try discriminate;
    destruct (timestamptz_nullable "last_sync" (d_last_sync mapping)) as [last_sync|];
    try discriminate.
  intros Heq. exists ngsi_id, ngsi_type, odoo_id, odoo_name, last_sync.
  repeat split. now injection Heq as <-.
Qed.

(** A call that raises leaves the table as it was. *)
Lemma create_entity_mapping_raises (tenant_id : string) (mapping : mapping_dict)
    (w w' : world E) (msg : string) :
  create_entity_mapping tenant_id mapping w = (w', Raise msg) -> w' = w.
Proof.
  unfold create_entity_mapping, bind, lift.
  destruct (varchar_nullable "ngsi_id" (d_ngsi_id mapping)) as [ngsi_id|];
    [|intros Heq; now injection Heq].
  destruct (varchar_nullable "ngsi_type" (d_ngsi_type mapping)) as [ngsi_type|];
    [|intros Heq; now injection Heq].
  destruct (integer_nullable "odoo_id" (d_odoo_id mapping)) as [odoo_id|];
    [|intros Heq; now injection Heq].
  destruct (varchar_nullable "odoo_name" (d_odoo_name mapping));
    [|intros Heq; now injection Heq].
  destruct (timestamptz_nullable "last_sync" (d_last_sync mapping));
    [|intros Heq; now injection Heq].
  destruct ngsi_id; [|intros Heq; now injection Heq].
  destruct ngsi_type; [|intros Heq; now injection Heq].
  destruct odoo_id; [discriminate|intros Heq; now injection Heq].
Qed.

(** The text of a time where the time itself is expected is refused:
    nothing is stored. *)
Lemma create_entity_mapping_refuses_text (tenant_id : string) (mapping : mapping_dict)
    (t : timestamp) (w : world E) :
  d_last_sync mapping = IsoFormat t ->
  exists msg, create_entity_mapping tenant_id mapping w = (w, Raise msg).
Proof.
  intros Htime. unfold create_entity_mapping, bind, lift. rewrite Htime.
  destruct (varchar_nullable "ngsi_id" (d_ngsi_id mapping)); [|eexists; reflexivity].
  destruct (varchar_nullable "ngsi_type" (d_ngsi_type mapping)); [|eexists; reflexivity].
  destruct (integer_nullable "odoo_id" (d_odoo_id mapping)); [|eexists; reflexivity].
  destruct (varchar_nullable "odoo_name" (d_odoo_name mapping)); eexists; reflexivity.
Qed.

End MappingWrite.

Section Upsert.
Context {str : PyStr} {E : Type} {server : OdooServer E}.

(** No call of [sync_entity_to_odoo] returns. Whatever it gets past, it
    ends where the mapping is written, with the text of the sync time bound
    to the [last_sync] parameter; the three tables are then as they were,
    while the server has seen the create or the update. *)
Lemma sync_always_raises (tenant_id : string) (entity : pydict) (w : world E) :
  exists w' msg,
    sync_entity_to_odoo tenant_id entity w = (w', Raise msg)
    /\ tenant_info w' = tenant_info w
    /\ entity_mappings w' = entity_mappings w
    /\ sync_status w' = sync_status w.
Proof.
  unfold sync_entity_to_odoo, bind, lift, ret, raise.
  destruct (model_for (dict_get entity "type")) as [[odoo_model|]|];
    try (do 2 eexists; split; [reflexivity|repeat split]).
  destruct (String.eqb odoo_model "");
    try (do 2 eexists; split; [reflexivity|repeat split]).
  unfold _get_odoo_database, get_tenant_odoo_info, bind, ret, raise.
  destruct (find _ (tenant_info w)) as [tenant|];
    try (do 2 eexists; split; [reflexivity|repeat split]).
  destruct (lookup_existing tenant_id (dict_get entity "id") w) as [w0 existing] eqn:Hlookup.
  assert (Hw0 : w0 = w).
  { unfold lookup_existing, get_entity_mapping_by_ngsi_id, ret, raise in Hlookup.
    destruct (dict_get entity "id"); now injection Hlookup. }
  subst w0. clear Hlookup.
  destruct existing as [existing|];
    try (do 2 eexists; split; [reflexivity|repeat split]).
  destruct (_transform_to_odoo entity odoo_model) as [values|];
    try (do 2 eexists; split; [reflexivity|repeat split]).
  unfold on_odoo, utcnow.
  destruct existing as [row|].
  - destruct (OdooClient.update_record _ _ _ _ _) as [e1 [[]|]];
      try (do 2 eexists; split; [reflexivity|repeat split]).
    match goal with
    | |- context [create_entity_mapping ?t ?m ?x] =>
        destruct (create_entity_mapping_refuses_text t m (clock w) x eq_refl)
          as [msg Hmsg]; rewrite Hmsg
    end.
    do 2 eexists; split; [reflexivity|repeat split].
  - destruct (OdooClient.create_record _ _ _ _) as [e1 [created|]];
      try (do 2 eexists; split; [reflexivity|repeat split]).
    match goal with
    | |- context [create_entity_mapping ?t ?m ?x] =>
        destruct (create_entity_mapping_refuses_text t m (clock w) x eq_refl)
          as [msg Hmsg]; rewrite Hmsg
    end.
    do 2 eexists; split; [reflexivity|repeat split].
Qed.

(** The outcome of a call, whichever it is, is an exception and the
    tables are untouched. *)
Lemma sync_outcome (tenant_id : string) (entity : pydict) (w w' : world E)
    (r : result odoo_record_info) :
  sync_entity_to_odoo tenant_id entity w = (w', r) ->
  (exists msg, r = Raise msg)
  /\ tenant_info w' = tenant_info w
  /\ entity_mappings w' = entity_mappings w
  /\ sync_status w' = sync_status w.
Proof.
  intros Hrun.
  destruct (sync_always_raises tenant_id entity w) as (w1 & msg & Heq & Ht & Hm & Hs).
  rewrite Heq in Hrun. injection Hrun as <- <-.
  split; [now exists msg|]. split; [exact Ht|]. split; [exact Hm|exact Hs].
Qed.

(** A sync of an entity without a mapping that gets as far as the server
    creates a record there; the write of the mapping then fails, so the
    entity is as unmapped as before and the next sync of the same snapshot
    creates again. *)
Lemma sync_unmapped_creates (tenant_id : string) (entity : pydict) (w : world E)
    (ngsi_id ngsi_type odoo_model : string) (tenant : tenant_row) (values : pydict) :
  dict_get entity "id" = PStr ngsi_id ->
  dict_get entity "type" = PStr ngsi_type ->
  dict_lookup NGSI_TO_ODOO_MODEL ngsi_type = Some odoo_model ->
  String.eqb odoo_model "" = false ->
  find (fun r => String.eqb (t_tenant_id r) tenant_id) (tenant_info w) = Some tenant ->
  _transform_to_odoo entity odoo_model = Ok values ->
  find (same_mapping_key tenant_id ngsi_id) (entity_mappings w) = None ->
  exists msg,
    sync_entity_to_odoo tenant_id entity w
    = match OdooClient.create_record (t_database tenant) odoo_model values (odoo w) with
      | (e1, Ok _) => (set_odoo e1 (fst (utcnow w)), Raise msg)
      | (e1, Raise failed) => (set_odoo e1 w, Raise failed)
      end.
Proof.
  intros Hid Htype Hlookup Hnonempty Htenant Hvalues Hfound.
  unfold sync_entity_to_odoo, bind, lift, ret, raise.
  rewrite Htype, Hid. cbv beta iota delta [model_for]. rewrite Hlookup, Hnonempty.
  unfold _get_odoo_database, get_tenant_odoo_info, bind, ret, raise.
  rewrite Htenant.
  unfold lookup_existing, get_entity_mapping_by_ngsi_id.
  change (fun r : mapping_row =>
            (String.eqb (m_tenant_id r) tenant_id && String.eqb (m_ngsi_id r) ngsi_id)%bool)
    with (same_mapping_key tenant_id ngsi_id).
  rewrite Hfound, Hvalues.
  unfold on_odoo.
  destruct (OdooClient.create_record _ _ _ _) as [e1 [created|failed]];
    [|exists ""; reflexivity].
  unfold utcnow.
  match goal with
  | |- context [create_entity_mapping ?t ?m ?x] =>
      destruct (create_entity_mapping_refuses_text t m (clock w) x eq_refl)
        as [msg Hmsg]; rewrite Hmsg
  end.
  exists msg. reflexivity.
Qed.

(** [sync_entity_to_odoo] never returns, whatever the tenant, the entity,
    the server and the store. A call that gets past routing, the tenant
    lookup and the transform reaches the server, and then raises where the
    mapping is written, because the sync time is handed over as text. The
    tenant, mapping and status tables are as before the call. *)
Theorem sync_never_returns (tenant_id : string) (entity : pydict) (w : world E) :
  exists w' msg,
    sync_entity_to_odoo tenant_id entity w = (w', Raise msg)
    /\ tenant_info w' = tenant_info w
    /\ entity_mappings w' = entity_mappings w
    /\ sync_status w' = sync_status w.
Proof. exact (sync_always_raises tenant_id entity w). Qed.

End Upsert.

(** C1, at a parcel of a provisioned tenant whose store is empty. The
    first sync creates record 10 on the server and then fails where the
    mapping is written, with the exception of the driver refusing the
    text of the sync time; nothing is stored. The second sync of the same
    snapshot therefore finds no mapping, creates record 11 and fails the
    same way: two records on the server, no mapping row, no id returned. *)
Theorem sync_twice_creates_two_records :
  let sync := sync_entity_to_odoo (str := Demo.render) (server := Demo.toy_odoo) "t1"
                (Demo.parcel "urn:x:1") in
  let first := sync Demo.w0 in
  let second := sync (fst first) in
  (exists msg,
      timestamptz_nullable "last_sync" (IsoFormat (clock Demo.w0)) = Raise msg
      /\ snd first = Raise msg)
  /\ (exists msg,
         timestamptz_nullable "last_sync" (IsoFormat (clock (fst first))) = Raise msg
         /\ snd second = Raise msg)
  /\ Demo.next_id (odoo Demo.w0) = 10
  /\ Demo.next_id (odoo (fst first)) = 11
  /\ Demo.next_id (odoo (fst second)) = 12
  /\ entity_mappings (fst first) = []
  /\ entity_mappings (fst second) = [].
Proof.
  intros sync first second.
  split; [eexists; split; [reflexivity|vm_compute; reflexivity]|].
  split; [eexists; split; [reflexivity|vm_compute; reflexivity]|].
  vm_compute. repeat split.
Qed.

(** ** A full sync with failing entities *)

Section FullSync.
Context {str : PyStr} {E : Type} {server : OdooServer E} {broker : ContextBroker}.

(** A sync never lowers the number of rows under any key. *)
Lemma sync_keeps_rows (tenant_id : string) (entity : pydict) (w w' : world E)
    (r : result odoo_record_info) (t i : string) :
  sync_entity_to_odoo tenant_id entity w = (w', r) ->
  (count_mappings t i (entity_mappings w) <= count_mappings t i (entity_mappings w'))%nat.
Proof.
  intros Hrun. destruct (sync_outcome _ _ _ _ _ Hrun) as (_ & _ & -> & _).
  apply Nat.le_refl.
Qed.

Lemma mapped_kept (tenant_id : string) (entity : pydict) (w w' : world E) :
  (forall t i, count_mappings t i (entity_mappings w)
               <= count_mappings t i (entity_mappings w'))%nat ->
  mapped tenant_id entity w -> mapped tenant_id entity w'.
Proof.
  intros Hkeeps (ngsi_id & Hid & Hcount). exists ngsi_id. split; [exact Hid|].
  specialize (Hkeeps tenant_id ngsi_id). lia.
Qed.

Lemma find_some_count (tenant_id ngsi_id : string) (rows : list mapping_row)
    (row : mapping_row) :
  find (same_mapping_key tenant_id ngsi_id) rows = Some row ->
  (1 <= count_mappings tenant_id ngsi_id rows)%nat.
Proof.
  unfold count_mappings. induction rows as [|r rows IH]; [discriminate|].
  simpl. destruct (same_mapping_key tenant_id ngsi_id r); simpl; [lia|exact IH].
Qed.

(** A sync that returns has left a row for its entity; none does. *)
Lemma sync_success_mapped (tenant_id : string) (entity : pydict) (w w' : world E)
    (r1 : odoo_record_info) :
  sync_entity_to_odoo tenant_id entity w = (w', Ok r1) -> mapped tenant_id entity w'.
Proof.
  intros Hrun. destruct (sync_outcome _ _ _ _ _ Hrun) as ([msg Habs] & _).
  discriminate.
Qed.

(** The inner loop against its attempts: it returns, counts the
    successes, records one message per failure, attempts every entity once
    and in order, and every entity it synced is mapped at the end. *)
Lemma sync_entities_run (tenant_id : string) (entities : list pydict) :
  forall (acc : sync_result) (w : world E),
    exists msgs,
      sync_entities tenant_id entities acc w
      = (snd (entity_attempts tenant_id entities w),
         Ok {| synced := synced acc
                         + Z.of_nat (length (successes
                                               (fst (entity_attempts tenant_id entities w))));
               errors := errors acc ++ msgs |})
      /\ length msgs = length (failures (fst (entity_attempts tenant_id entities w)))
      /\ map fst (fst (entity_attempts tenant_id entities w)) = entities
      /\ (forall t i,
             count_mappings t i (entity_mappings w)
             <= count_mappings t i
                  (entity_mappings (snd (entity_attempts tenant_id entities w))))%nat
      /\ (forall entity,
             In (entity, true) (fst (entity_attempts tenant_id entities w)) ->
             mapped tenant_id entity (snd (entity_attempts tenant_id entities w))).
Proof.
  induction entities as [|entity rest IH]; intros acc w.
  - exists []. simpl. unfold ret. rewrite Z.add_0_r, app_nil_r.
    destruct acc. refine (conj eq_refl (conj eq_refl (conj eq_refl (conj _ _)))).
    + intros t i. apply Nat.le_refl.
    + intros entity [].
  - simpl. unfold bind at 1, try_except, bind at 1, ret.
    destruct (sync_entity_to_odoo tenant_id entity w) as [w1 [r1|e]] eqn:Hsync.
    + destruct (IH {| synced := synced acc + 1; errors := errors acc |} w1)
        as (msgs & Hrun & Hlen & Hmap & Hkeeps & Hmapped).
      destruct (entity_attempts tenant_id rest w1) as [attempts w2] eqn:Hrest.
      simpl in *. exists msgs. rewrite Hrun.
      refine (conj _ (conj _ (conj _ (conj _ _)))).
      * do 2 f_equal. f_equal. lia.
      * exact Hlen.
      * now rewrite Hmap.
      * intros t i. pose proof (sync_keeps_rows _ _ _ _ _ t i Hsync).
        specialize (Hkeeps t i). lia.
      * intros entity' [Hhere|Hlater].
        -- injection Hhere as <-.
           apply (mapped_kept tenant_id entity w1 w2 Hkeeps).
           exact (sync_success_mapped _ _ _ _ _ Hsync).
        -- now apply Hmapped.
    + destruct (IH {| synced := synced acc;
                      errors := errors acc
                                ++ ["Failed to sync " ++ py_str (dict_get entity "id")
                                    ++ ": " ++ e] |} w1)
        as (msgs & Hrun & Hlen & Hmap & Hkeeps & Hmapped).
      destruct (entity_attempts tenant_id rest w1) as [attempts w2] eqn:Hrest.
      simpl in *.
      exists (("Failed to sync " ++ py_str (dict_get entity "id") ++ ": " ++ e) :: msgs).
      rewrite Hrun. refine (conj _ (conj _ (conj _ (conj _ _)))).
      * now rewrite <- app_assoc.
      * simpl. now rewrite Hlen.
      * now rewrite Hmap.
      * intros t i. pose proof (sync_keeps_rows _ _ _ _ _ t i Hsync).
        specialize (Hkeeps t i). lia.
      * intros entity' [Hhere|Hlater]; [discriminate|now apply Hmapped].
Qed.

(** A request that does not raise hands the loop the fetched entities
    and leaves the world alone. *)
Lemma fetch_when_returns (tenant_id entity_type : string) (w : world E) :
  fetch_returns tenant_id entity_type = true ->
  fetch_entities_by_type tenant_id entity_type w = (w, Ok (fetched tenant_id entity_type)).
Proof.
  unfold fetch_returns, fetch_entities_by_type, fetched.
  destruct (get_entities tenant_id entity_type) as [response|]; [|discriminate].
  destruct (status_code response =? 200); [|reflexivity].
  unfold lift. destruct (json response); [reflexivity|discriminate].
Qed.

(** A request that raises does so in [fetch_entities_by_type] too, with
    the world left alone and nothing fetched. *)
Lemma fetch_when_raises (tenant_id entity_type : string) (w : world E) :
  fetch_returns tenant_id entity_type = false ->
  fetched tenant_id entity_type = []
  /\ exists e, fetch_entities_by_type tenant_id entity_type w = (w, Raise e).
Proof.
  unfold fetch_returns, fetch_entities_by_type, fetched.
  destruct (get_entities tenant_id entity_type) as [response|e].
  - destruct (status_code response =? 200); [|discriminate].
    unfold lift. destruct (json response) as [|e]; [discriminate|].
    intros _. split; [reflexivity|]. now exists e.
  - intros _. split; [reflexivity|]. now exists e.
Qed.

(** The outer loop against its attempts: it always returns, counts the
    successes, records one message per failed entity and one per request
    that raised, attempts the whole batch once and in order, and every
    entity it synced is mapped at the end. *)
Lemma sync_types_run (tenant_id : string) (types : list string) :
  forall (acc : sync_result) (w : world E),
    exists w' msgs,
      sync_types tenant_id types acc w
      = (w', Ok {| synced := synced acc
                             + Z.of_nat (length (successes
                                                   (run_attempts tenant_id types w)));
                   errors := errors acc ++ msgs |})
      /\ length msgs = (length (failures (run_attempts tenant_id types w))
                        + length (raised tenant_id types))%nat
      /\ map fst (run_attempts tenant_id types w) = batch tenant_id types
      /\ (forall t i,
             count_mappings t i (entity_mappings w)
             <= count_mappings t i (entity_mappings w'))%nat
      /\ (forall entity,
             In (entity, true) (run_attempts tenant_id types w) ->
             mapped tenant_id entity w').
Proof.
  induction types as [|entity_type rest IH]; intros acc w.
  - exists w, []. simpl. unfold ret. rewrite Z.add_0_r, app_nil_r.
    destruct acc. refine (conj eq_refl (conj eq_refl (conj eq_refl (conj _ _)))).
    + intros t i. apply Nat.le_refl.
    + intros entity [].
  - cbn [sync_types run_attempts]. unfold bind at 1, try_except, bind at 1.
    unfold batch, raised in *. cbn [map concat filter].
    destruct (fetch_returns tenant_id entity_type) eqn:Hhere.
    + rewrite (fetch_when_returns tenant_id entity_type w Hhere).
      destruct (sync_entities_run tenant_id (fetched tenant_id entity_type) acc w)
        as (msgs1 & Hrun1 & Hlen1 & Hmap1 & Hkeeps1 & Hmapped1).
      destruct (entity_attempts tenant_id (fetched tenant_id entity_type) w)
        as [attempts1 w1] eqn:Hattempts1.
      simpl in Hrun1, Hlen1, Hmap1, Hkeeps1, Hmapped1. rewrite Hrun1.
      destruct (IH {| synced := synced acc + Z.of_nat (length (successes attempts1));
                      errors := errors acc ++ msgs1 |} w1)
        as (w' & msgs2 & Hrun2 & Hlen2 & Hmap2 & Hkeeps2 & Hmapped2).
      exists w', (msgs1 ++ msgs2)%list. rewrite Hrun2. simpl synced. simpl errors.
      unfold successes, failures in *. simpl negb. cbv iota.
      rewrite !filter_app, !length_app, map_app, Hmap1, Hmap2, Hlen1, Hlen2.
      refine (conj _ (conj _ (conj eq_refl (conj _ _)))).
      * rewrite <- app_assoc. do 2 f_equal. f_equal. lia.
      * lia.
      * intros t i. specialize (Hkeeps1 t i). specialize (Hkeeps2 t i). lia.
      * intros entity Hin. apply in_app_or in Hin. destruct Hin as [Hin|Hin].
        -- apply (mapped_kept tenant_id entity w1 w' Hkeeps2). now apply Hmapped1.
        -- now apply Hmapped2.
    + destruct (fetch_when_raises tenant_id entity_type w Hhere) as (Hnone & e & Hraise).
      rewrite Hraise, Hnone. unfold ret. cbv beta iota.
      destruct (IH {| synced := synced acc;
                      errors := errors acc
                                ++ ["Failed to fetch " ++ entity_type ++ ": " ++ e] |} w)
        as (w' & msgs2 & Hrun2 & Hlen2 & Hmap2 & Hkeeps2 & Hmapped2).
      exists w', (("Failed to fetch " ++ entity_type ++ ": " ++ e) :: msgs2).
      rewrite Hrun2. simpl synced. simpl errors. simpl negb. cbv iota.
      refine (conj _ (conj _ (conj Hmap2 (conj Hkeeps2 Hmapped2)))).
      * now rewrite <- app_assoc.
      * simpl length. rewrite Hlen2. lia.
Qed.

(** [full_sync] returns a result whatever fails along the way, and its
    error list has one entry per failed entity and per raising request. *)
Lemma full_sync_always_returns (tenant_id : string) (w : world E) :
  exists w' outcome,
    full_sync tenant_id w = (w', Ok outcome)
    /\ synced outcome
       = Z.of_nat (length (successes (run_attempts tenant_id entity_types w)))
    /\ length (errors outcome)
       = (length (failures (run_attempts tenant_id entity_types w))
          + length (raised tenant_id entity_types))%nat.
Proof.
  destruct (sync_types_run tenant_id entity_types {| synced := 0; errors := [] |} w)
    as (w' & msgs & Hrun & Hlen & _).
  eexists w', _. split; [exact Hrun|]. split; [reflexivity|exact Hlen].
Qed.


End FullSync.



(** ** Failures that leave no trace *)

(** C5, on the code. The broker answers every query by type with a 500.
    [fetch_entities_by_type] turns each of them into an empty list, so the
    run reports nothing synced and an empty error list: the six failed
    fetches are not in it. The sibling [fetch_entity] raises on the same
    response. *)
Theorem full_sync_drops_fetch_failures :
  full_sync (str := Demo.render) (server := Demo.toy_odoo) (broker := Demo.failing_broker)
    "t1" Demo.w0
  = (Demo.w0, Ok {| synced := 0; errors := [] |})
  /\ fetch_entities_by_type (broker := Demo.failing_broker) "t1" "AgriParcel" Demo.w0
     = (Demo.w0, Ok [])
  /\ fetch_entity (broker := Demo.failing_broker) "t1" (PStr "urn:x:1") Demo.w0
     = (Demo.w0, Raise "Failed to fetch entity: Internal Server Error").
Proof. repeat split. Qed.

Section FetchStatus.
Context {E : Type} {broker : ContextBroker}.

(** Any response other than a 200 is read as "no entities". *)
Lemma fetch_error_status_is_empty (tenant_id entity_type : string) (w : world E)
    (response : http_response (list pydict)) :
  get_entities tenant_id entity_type = Ok response ->
  status_code response <> 200 ->
  fetch_entities_by_type tenant_id entity_type w = (w, Ok []).
Proof.
  intros Hresponse Hstatus. unfold fetch_entities_by_type. rewrite Hresponse.
  apply Z.eqb_neq in Hstatus. now rewrite Hstatus.
Qed.

End FetchStatus.

Section TenantRecord.
Context {E : Type}.

(** [save_tenant_odoo_info] never writes the [error] column: after a save
    every row carries no error or the error of a row that was there
    before, whatever the [error] key of the info. *)
Lemma save_tenant_odoo_info_ignores_error (tenant_id : string) (info : tenant_info_dict)
    (w : world E) :
  forall row',
    In row' (tenant_info (fst (save_tenant_odoo_info tenant_id (Some info) w))) ->
    t_error row' = None
    \/ exists row, In row (tenant_info w) /\ t_error row' = t_error row.
Proof.
  intros row'. unfold save_tenant_odoo_info.
  destruct (timestamptz_nullable "created_at" (i_created_at info)) as [created_at|];
    [|intros Hin; right; now exists row'].
  simpl. unfold upsert.
  destruct (existsb _ (tenant_info w)).
  - intros Hin. apply in_map_iff in Hin. destruct Hin as (row & Hrow' & Hin).
    right. exists row. split; [exact Hin|].
    destruct (String.eqb (t_tenant_id row) tenant_id); now subst row'.
  - intros Hin. apply in_app_or in Hin. destruct Hin as [Hin|[<-|[]]].
    + right. now exists row'.
    + now left.
Qed.

End TenantRecord.

(** C6, on the code. Tenant [t2] asks to be provisioned while the server
    has no template database, so the duplication raises. The handler
    answers 500 and the tenant's row ends with status [error], but its
    [error] column is empty: the captured message was handed to
    [save_tenant_odoo_info], which does not store it. *)
Theorem provision_failure_loses_message :
  let outcome :=
    Tenant.provision_tenant (server := Demo.toy_odoo) (broker := Demo.broker)
      (settings := Demo.settings)
      {| Tenant.enableEnergyModules := true; Tenant.additionalModules := [] |}
      "t2" [] Demo.w_no_template in
  snd outcome = HTTPException 500 "Failed to provision Odoo: database duplication failed"
  /\ exists row,
      get_tenant_odoo_info "t2" (fst outcome) = (fst outcome, Ok (Some row))
      /\ t_status row = Some "error"
      /\ t_error row = None.
Proof.
  split; [reflexivity|]. eexists. split; [reflexivity|]. split; reflexivity.
Qed.

(** * Further properties of the engine *)

(** ** Tables under an upsert *)

Section UpsertLookup.
Context {R : Type}.
Variables (same_key : R -> bool) (on_conflict : R -> R) (new_row : R).
Hypothesis new_row_has_key : same_key new_row = true.
Hypothesis conflict_keeps_key : forall old, same_key (on_conflict old) = same_key old.

(** The first row under the key after an upsert: the updated old row, or
    the new row when there was none. *)
Lemma upsert_lookup (rows : list R) :
  find same_key (upsert same_key on_conflict new_row rows)
  = Some match find same_key rows with
         | Some old => on_conflict old
         | None => new_row
         end.
Proof.
  unfold upsert.
  destruct (existsb same_key rows) eqn:Hex.
  - induction rows as [|r rows IH]; [discriminate|].
    simpl in *. destruct (same_key r) eqn:Hr.
    + now rewrite conflict_keeps_key, Hr.
    + rewrite Hr. apply IH. exact Hex.
  - induction rows as [|r rows IH]; simpl in *.
    + now rewrite new_row_has_key.
    + apply orb_false_elim in Hex. destruct Hex as [Hr Hrows].
      rewrite Hr. now apply IH.
Qed.

(** A selection that neither the key nor the updated rows fall under sees
    the same rows before and after. *)
Lemma upsert_filter_others (selected : R -> bool) (rows : list R) :
  (forall r, same_key r = true -> selected r = false) ->
  (forall r, same_key r = true -> selected (on_conflict r) = false) ->
  filter selected (upsert same_key on_conflict new_row rows) = filter selected rows.
Proof.
  intros Hkey Hupdated. unfold upsert.
  destruct (existsb same_key rows).
  - induction rows as [|r rows IH]; [reflexivity|]. simpl.
    destruct (same_key r) eqn:Hr.
    + now rewrite (Hupdated r Hr), (Hkey r Hr).
    + destruct (selected r); now rewrite IH.
  - rewrite filter_app. simpl. rewrite (Hkey new_row new_row_has_key).
    apply app_nil_r.
Qed.

(** The first row under a predicate that excludes the key is the same
    before and after. *)
Lemma upsert_find_others (selected : R -> bool) (rows : list R) :
  (forall r, same_key r = true -> selected r = false) ->
  (forall r, same_key r = true -> selected (on_conflict r) = false) ->
  find selected (upsert same_key on_conflict new_row rows) = find selected rows.
Proof.
  intros Hkey Hupdated. unfold upsert.
  destruct (existsb same_key rows).
  - induction rows as [|r rows IH]; [reflexivity|]. simpl.
    destruct (same_key r) eqn:Hr.
    + now rewrite (Hupdated r Hr), (Hkey r Hr).
    + destruct (selected r); [reflexivity|exact IH].
  - induction rows as [|r rows IH]; simpl.
    + now rewrite (Hkey new_row new_row_has_key).
    + destruct (selected r); [reflexivity|exact IH].
Qed.

End UpsertLookup.

(** ** Writing and reading back a mapping *)

Lemma other_key_excluded (tenant_id ngsi_id t i : string) (r : mapping_row) :
  t <> tenant_id \/ i <> ngsi_id ->
  same_mapping_key tenant_id ngsi_id r = true ->
  same_mapping_key t i r = false.
Proof.
  intros Hother Hkey. destruct (same_mapping_key t i r) eqn:Hsel; [|reflexivity].
  destruct (same_key_eq tenant_id ngsi_id t i r Hkey Hsel) as [-> ->].
  destruct Hother as [Habs|Habs]; now contradiction Habs.
Qed.

Section MappingRoundTrip.
Context {E : Type}.

(** A mapping write that returns can be read back under its key: the row
    found carries the written record id, model, name and sync time. Its
    type tag is the written one only when the key was new: an existing row
    keeps the tag it had. Every other key reads as before. *)
Theorem mapping_write_then_lookup (tenant_id : string) (mapping : mapping_dict)
    (w w' : world E) (u : unit) :
  create_entity_mapping tenant_id mapping w = (w', Ok u) ->
  exists ngsi_id row,
    d_ngsi_id mapping = PStr ngsi_id
    /\ get_entity_mapping_by_ngsi_id tenant_id ngsi_id w' = (w', Ok (Some row))
    /\ d_odoo_id mapping = PInt (m_odoo_id row)
    /\ m_odoo_model row = d_odoo_model mapping
    /\ varchar_nullable "odoo_name" (d_odoo_name mapping) = Ok (m_odoo_name row)
    /\ timestamptz_nullable "last_sync" (d_last_sync mapping) = Ok (m_last_sync row)
    /\ match find (same_mapping_key tenant_id ngsi_id) (entity_mappings w) with
       | Some old => m_ngsi_type row = m_ngsi_type old
       | None => d_ngsi_type mapping = PStr (m_ngsi_type row)
       end
    /\ forall t i,
         t <> tenant_id \/ i <> ngsi_id ->
         snd (get_entity_mapping_by_ngsi_id t i w')
         = snd (get_entity_mapping_by_ngsi_id t i w).
Proof.
  intros Hwrite.
  destruct (create_entity_mapping_returns _ _ _ _ _ Hwrite)
    as (ngsi_id & ngsi_type & odoo_id & odoo_name & last_sync
        & Hid & Htype & Hoid & Hname & Htime & Hw').
  set (written := {| m_tenant_id := tenant_id; m_ngsi_id := ngsi_id;
                     m_ngsi_type := ngsi_type; m_odoo_id := odoo_id;
                     m_odoo_model := d_odoo_model mapping; m_odoo_name := odoo_name;
                     m_last_sync := last_sync |}) in *.
  assert (Hkey : same_mapping_key tenant_id ngsi_id written = true).
  { unfold same_mapping_key, written. simpl. now rewrite !String.eqb_refl. }
  pose proof (upsert_lookup (same_mapping_key tenant_id ngsi_id)
                (fun old => mapping_conflict_update old written) written Hkey
                (fun old => eq_refl) (entity_mappings w)) as Hfound.
  exists ngsi_id.
  eexists. split; [exact Hid|].
  split.
  { unfold get_entity_mapping_by_ngsi_id. subst w'. simpl entity_mappings.
    change (fun r : mapping_row =>
              (String.eqb (m_tenant_id r) tenant_id && String.eqb (m_ngsi_id r) ngsi_id)%bool)
      with (same_mapping_key tenant_id ngsi_id).
    rewrite Hfound. reflexivity. }
  destruct (find (same_mapping_key tenant_id ngsi_id) (entity_mappings w)) as [old|];
    (split; [exact Hoid|]); (split; [reflexivity|]); (split; [exact Hname|]);
    (split; [exact Htime|]); (split; [first [reflexivity | exact Htype]|]).
  all: intros t i Hother; subst w'; unfold get_entity_mapping_by_ngsi_id;
    simpl entity_mappings; cbn [snd]; f_equal;
    change (fun r : mapping_row =>
              (String.eqb (m_tenant_id r) t && String.eqb (m_ngsi_id r) i)%bool)
      with (same_mapping_key t i);
    apply (upsert_find_others (same_mapping_key tenant_id ngsi_id)
             (fun old => mapping_conflict_update old written) written Hkey);
    intros r Hr; [|rewrite conflict_update_keeps_key];
    exact (other_key_excluded tenant_id ngsi_id t i r Hother Hr).
Qed.

End MappingRoundTrip.

(** Tenant [tenant-a] rewrites its mapping of [urn:x:1], stored as an
    AgriParcel, with a Device tag and record 42: the row read back has
    record 42 and is still tagged AgriParcel. *)
Lemma mapping_write_then_lookup_witness :
  let mapping := {| d_ngsi_id := PStr "urn:x:1"; d_ngsi_type := PStr "Device";
                    d_odoo_id := PInt 42; d_odoo_model := "maintenance.equipment";
                    d_odoo_name := PStr "probe"; d_last_sync := Datetime 5%nat |} in
  let w' := fst (create_entity_mapping "tenant-a" mapping Demo.w_two_tenants) in
  exists row,
    get_entity_mapping_by_ngsi_id "tenant-a" "urn:x:1" w' = (w', Ok (Some row))
    /\ m_odoo_id row = 42
    /\ m_ngsi_type row = "AgriParcel"
    /\ snd (get_entity_mapping_by_ngsi_id "tenant-b" "urn:x:1" w')
       = Ok (Some (Demo.mapping "tenant-b" "urn:x:1" 9)).
Proof.
  intros mapping w'.
  destruct (mapping_write_then_lookup "tenant-a" mapping Demo.w_two_tenants w' tt eq_refl)
    as (ngsi_id & row & Hid & Hfound & Hoid & _ & _ & _ & Htag & Hothers).
  injection Hid as <-. exists row.
  split; [exact Hfound|]. split; [now injection Hoid|]. split; [exact Htag|].
  rewrite (Hothers "tenant-b" "urn:x:1"); [reflexivity|].
  left. discriminate.
Defined.

(** ** What a sync leaves alone *)

Section SyncFrame.
Context {str : PyStr} {E : Type} {server : OdooServer E}.

(** A sync reads the tenant table and never touches the status table. *)
Lemma sync_keeps_tenant_tables (tenant_id : string) (entity : pydict) (w w' : world E)
    (r : result odoo_record_info) :
  sync_entity_to_odoo tenant_id entity w = (w', r) ->
  tenant_info w' = tenant_info w /\ sync_status w' = sync_status w.
Proof.
  intros Hrun. destruct (sync_outcome _ _ _ _ _ Hrun) as (_ & Ht & _ & Hs).
  split; [exact Ht|exact Hs].
Qed.

Lemma key_fixes_tenant (tenant_id ngsi_id : string) (r : mapping_row) :
  same_mapping_key tenant_id ngsi_id r = true -> m_tenant_id r = tenant_id.
Proof.
  unfold same_mapping_key. intros Hkey. apply andb_prop in Hkey.
  now apply String.eqb_eq.
Qed.

(** Storing a row of one tenant changes no read of another tenant. *)
Lemma upsert_other_tenant_reads (tenant_id ngsi_id other : string) (new_row : mapping_row)
    (rows : list mapping_row) (ngsi_type : option string) (i : string) (w1 w2 : world E) :
  same_mapping_key tenant_id ngsi_id new_row = true ->
  other <> tenant_id ->
  entity_mappings w1 = rows ->
  entity_mappings w2
  = upsert (same_mapping_key tenant_id ngsi_id)
      (fun old => mapping_conflict_update old new_row) new_row rows ->
  snd (get_entity_mappings other ngsi_type w2) = snd (get_entity_mappings other ngsi_type w1)
  /\ snd (get_entity_mapping_by_ngsi_id other i w2)
     = snd (get_entity_mapping_by_ngsi_id other i w1).
Proof.
  intros Hkey Hother Hrows1 Hrows2.
  assert (Hexcl : forall r, same_mapping_key tenant_id ngsi_id r = true ->
                            String.eqb (m_tenant_id r) other = false).
  { intros r Hr. apply String.eqb_neq. rewrite (key_fixes_tenant _ _ _ Hr). congruence. }
  unfold get_entity_mappings, get_entity_mapping_by_ngsi_id. cbn [snd].
  rewrite Hrows1, Hrows2. split.
  - destruct (match ngsi_type with Some ty => negb (ty =? "")%string | None => false end);
      f_equal;
      apply (upsert_filter_others (same_mapping_key tenant_id ngsi_id)
               (fun old => mapping_conflict_update old new_row) new_row Hkey);
      intros r Hr; cbn [mapping_conflict_update m_tenant_id]; now rewrite (Hexcl r Hr).
  - f_equal.
    apply (upsert_find_others (same_mapping_key tenant_id ngsi_id)
             (fun old => mapping_conflict_update old new_row) new_row Hkey);
      intros r Hr; cbn [mapping_conflict_update m_tenant_id]; now rewrite (Hexcl r Hr).
Qed.

(** The step behind the confinement results below. *)
Lemma sync_step_confined (tenant_id : string) (entity : pydict) (w w' : world E)
    (r : result odoo_record_info) :
  sync_entity_to_odoo tenant_id entity w = (w', r) ->
  tenant_info w' = tenant_info w
  /\ sync_status w' = sync_status w
  /\ (unique_mappings (entity_mappings w) -> unique_mappings (entity_mappings w'))
  /\ forall other,
       other <> tenant_id ->
       forall ngsi_type i,
         snd (get_entity_mappings other ngsi_type w')
         = snd (get_entity_mappings other ngsi_type w)
         /\ snd (get_entity_mapping_by_ngsi_id other i w')
            = snd (get_entity_mapping_by_ngsi_id other i w).
Proof.
  intros Hrun.
  destruct (sync_keeps_tenant_tables _ _ _ _ _ Hrun) as [Htenants Hstatus].
  split; [exact Htenants|]. split; [exact Hstatus|].
  destruct (sync_outcome _ _ _ _ _ Hrun) as (_ & _ & Hsame & _).
  split; [now rewrite Hsame|].
  intros other _ ngsi_type i.
  unfold get_entity_mappings, get_entity_mapping_by_ngsi_id. cbn [snd].
  now rewrite Hsame.
Qed.

(** One sync for a tenant: the tenant and status tables are as before,
    the uniqueness constraint of the mapping table survives, and every read
    of the mapping table by another tenant returns what it returned
    before, whether the sync returned or raised. *)
Theorem sync_confined_to_tenant (tenant_id : string) (entity : pydict) (w w' : world E)
    (r : result odoo_record_info) :
  sync_entity_to_odoo tenant_id entity w = (w', r) ->
  tenant_info w' = tenant_info w
  /\ sync_status w' = sync_status w
  /\ (unique_mappings (entity_mappings w) -> unique_mappings (entity_mappings w'))
  /\ forall other,
       other <> tenant_id ->
       forall ngsi_type i,
         snd (get_entity_mappings other ngsi_type w')
         = snd (get_entity_mappings other ngsi_type w)
         /\ snd (get_entity_mapping_by_ngsi_id other i w')
            = snd (get_entity_mapping_by_ngsi_id other i w).
Proof. exact (sync_step_confined tenant_id entity w w' r). Qed.

Section Loops.
Context {broker : ContextBroker}.
Variable tenant_id : string.
Variable kept : world E -> world E -> Prop.
Hypothesis kept_refl : forall w, kept w w.
Hypothesis kept_trans : forall a b c, kept a b -> kept b c -> kept a c.
Hypothesis kept_by_sync :
  forall entity w w' r, sync_entity_to_odoo tenant_id entity w = (w', r) -> kept w w'.

(** What every sync keeps, the inner loop keeps. *)
Lemma sync_entities_keeps (entities : list pydict) :
  forall acc w, kept w (fst (sync_entities tenant_id entities acc w)).
Proof.
  induction entities as [|entity rest IH]; intros acc w; [apply kept_refl|].
  cbn [sync_entities]. unfold bind at 1, try_except, bind at 1, ret.
  destruct (sync_entity_to_odoo tenant_id entity w) as [w1 [r1|e]] eqn:Hsync;
    (eapply kept_trans; [exact (kept_by_sync _ _ _ _ Hsync)|apply IH]).
Qed.

Lemma fetch_keeps_world (entity_type : string) (w : world E) :
  fst (fetch_entities_by_type tenant_id entity_type w) = w.
Proof.
  unfold fetch_entities_by_type.
  destruct (get_entities tenant_id entity_type) as [response|]; [|reflexivity].
  destruct (status_code response =? 200); reflexivity.
Qed.

(** And so does the outer loop, hence [full_sync]. *)
Lemma sync_types_keeps (types : list string) :
  forall acc w, kept w (fst (sync_types tenant_id types acc w)).
Proof.
  induction types as [|entity_type rest IH]; intros acc w; [apply kept_refl|].
  cbn [sync_types]. unfold bind at 1, try_except, bind at 1, ret.
  pose proof (fetch_keeps_world entity_type w) as Hfetch.
  destruct (fetch_entities_by_type tenant_id entity_type w) as [w0 [entities|e]].
  - simpl in Hfetch. subst w0.
    pose proof (sync_entities_keeps entities acc w) as Hinner.
    destruct (sync_entities tenant_id entities acc w) as [w1 [acc1|e1]].
    + eapply kept_trans; [exact Hinner|apply IH].
    + eapply kept_trans; [exact Hinner|apply IH].
  - simpl in Hfetch. subst w0. apply IH.
Qed.

End Loops.

(** The confinement of one sync, as a relation between worlds. *)
Lemma confined_refl_trans (tenant_id : string) :
  let kept := fun w w' : world E =>
    tenant_info w' = tenant_info w
    /\ sync_status w' = sync_status w
    /\ (unique_mappings (entity_mappings w) -> unique_mappings (entity_mappings w'))
    /\ forall other,
         other <> tenant_id ->
         forall ngsi_type i,
           snd (get_entity_mappings other ngsi_type w')
           = snd (get_entity_mappings other ngsi_type w)
           /\ snd (get_entity_mapping_by_ngsi_id other i w')
              = snd (get_entity_mapping_by_ngsi_id other i w) in
  (forall w, kept w w) /\ (forall a b c, kept a b -> kept b c -> kept a c).
Proof.
  split.
  - intros w. repeat split; auto.
  - intros a b c (Ht1 & Hs1 & Hu1 & Ho1) (Ht2 & Hs2 & Hu2 & Ho2).
    split; [congruence|]. split; [congruence|]. split; [auto|].
    intros other Hother ngsi_type i.
    destruct (Ho1 other Hother ngsi_type i) as [Ha1 Hb1].
    destruct (Ho2 other Hother ngsi_type i) as [Ha2 Hb2].
    split; congruence.
Qed.

(** A whole run of [full_sync] for a tenant, whatever fails in it: the
    tenant and status tables are as before, the uniqueness constraint of
    the mapping table survives, and every read of the mapping table by
    another tenant returns what it returned before. *)
Theorem full_sync_confined_to_tenant {broker : ContextBroker} (tenant_id : string)
    (w : world E) :
  let w' := fst (full_sync tenant_id w) in
  tenant_info w' = tenant_info w
  /\ sync_status w' = sync_status w
  /\ (unique_mappings (entity_mappings w) -> unique_mappings (entity_mappings w'))
  /\ forall other,
       other <> tenant_id ->
       forall ngsi_type i,
         snd (get_entity_mappings other ngsi_type w')
         = snd (get_entity_mappings other ngsi_type w)
         /\ snd (get_entity_mapping_by_ngsi_id other i w')
            = snd (get_entity_mapping_by_ngsi_id other i w).
Proof.
  destruct (confined_refl_trans tenant_id) as [Hrefl Htrans].
  exact (sync_types_keeps tenant_id _ Hrefl Htrans (sync_step_confined tenant_id)
           entity_types {| synced := 0; errors := [] |} w).
Qed.

End SyncFrame.

(** Tenant [tenant-a] syncs a parcel whose id tenant [tenant-b] also
    holds: the record of [tenant-a] is written on the server, the
    mapping write is refused, and the rows of [tenant-b] read as
    before. *)
Lemma sync_confined_to_tenant_witness :
  let run := sync_entity_to_odoo (str := Demo.render) (server := Demo.toy_odoo)
               "tenant-a" (Demo.parcel "urn:x:1") Demo.w_two_tenants in
  (exists msg, snd run = Raise msg)
  /\ snd (get_entity_mappings "tenant-b" None (fst run))
     = Ok [Demo.mapping "tenant-b" "urn:x:1" 9; Demo.mapping "tenant-b" "urn:x:2" 11]
  /\ snd (get_entity_mapping_by_ngsi_id "tenant-b" "urn:x:1" (fst run))
     = Ok (Some (Demo.mapping "tenant-b" "urn:x:1" 9)).
Proof.
  intros run. split; [eexists; vm_compute; reflexivity|].
  destruct (sync_confined_to_tenant (str := Demo.render) (server := Demo.toy_odoo)
              "tenant-a" (Demo.parcel "urn:x:1") Demo.w_two_tenants (fst run) (snd run))
    as (_ & _ & _ & Hothers).
  - apply surjective_pairing.
  - destruct (Hothers "tenant-b") with (ngsi_type := @None string) (i := "urn:x:1")
      as [Hlist Hone]; [discriminate|].
    rewrite Hlist, Hone. split; reflexivity.
Defined.

(** ** A tenant record without a database *)

Section NoDatabase.
Context {str : PyStr} {E : Type} {server : OdooServer E}.

Lemma set_odoo_same (w : world E) : set_odoo (odoo w) w = w.
Proof. now destruct w. Qed.

(** [_get_odoo_database] only asks for a row. When the row has no
    database name, as the row a failed first provisioning leaves, a sync
    that got past routing, lookup and transform raises in the gateway's
    own check: the server is not contacted and nothing is written. *)
Theorem sync_without_database (tenant_id : string) (entity : pydict) (w : world E)
    (tenant : tenant_row) (odoo_model : string) (values : pydict) :
  get_tenant_odoo_info tenant_id w = (w, Ok (Some tenant)) ->
  t_database tenant = None ->
  model_for (dict_get entity "type") = Ok (Some odoo_model) ->
  String.eqb odoo_model "" = false ->
  (dict_get entity "id" = PNone \/ exists ngsi_id, dict_get entity "id" = PStr ngsi_id) ->
  _transform_to_odoo entity odoo_model = Ok values ->
  sync_entity_to_odoo tenant_id entity w
  = (w, Raise "Database must be set for authentication").
Proof.
  intros Htenant Hdb Hmodel Hnonempty Hid Hvalues.
  unfold get_tenant_odoo_info in Htenant.
  assert (Hfind : find (fun r => String.eqb (t_tenant_id r) tenant_id) (tenant_info w)
                  = Some tenant) by (injection Htenant as Heq; exact Heq).
  unfold sync_entity_to_odoo, bind, lift, ret, raise.
  rewrite Hmodel, Hnonempty.
  unfold _get_odoo_database, get_tenant_odoo_info, bind, ret, raise.
  rewrite Hfind, Hdb.
  unfold lookup_existing, get_entity_mapping_by_ngsi_id, ret.
  destruct Hid as [Hid|[ngsi_id Hid]]; rewrite Hid, Hvalues.
  - unfold on_odoo, OdooClient.create_record, OdooClient.authenticate, bind, raise.
    now rewrite set_odoo_same.
  - destruct (find _ (entity_mappings w)) as [row|];
      unfold on_odoo, OdooClient.create_record, OdooClient.update_record,
        OdooClient.authenticate, bind, raise;
      now rewrite set_odoo_same.
Qed.

End NoDatabase.

(** Tenant [t2] after its failed provisioning (the server has no
    template): the record exists with no database, and a sync is turned
    away before reaching the server. *)
Lemma sync_without_database_witness :
  let w := fst (Tenant.provision_tenant (server := Demo.toy_odoo) (broker := Demo.broker)
                  (settings := Demo.settings)
                  {| Tenant.enableEnergyModules := true; Tenant.additionalModules := [] |}
                  "t2" [] Demo.w_no_template) in
  sync_entity_to_odoo (str := Demo.render) (server := Demo.toy_odoo) "t2"
    (Demo.parcel "urn:x:1") w
  = (w, Raise "Database must be set for authentication").
Proof.
  intros w.
  eapply (sync_without_database (str := Demo.render) (server := Demo.toy_odoo) "t2"
            (Demo.parcel "urn:x:1") w).
  - reflexivity.
  - reflexivity.
  - reflexivity.
  - reflexivity.
  - right. now exists "urn:x:1".
  - reflexivity.
Defined.

(** ** The tenant table *)

Section TenantTable.
Context {E : Type}.

(** The row read back after a save: the proposed row, merged into the old
    one when there was one. *)
Lemma tenant_save_lookup (tenant_id : string) (info : tenant_info_dict)
    (created_at : option timestamp) (w : world E) :
  timestamptz_nullable "created_at" (i_created_at info) = Ok created_at ->
  snd (save_tenant_odoo_info tenant_id (Some info) w) = Ok tt
  /\ find (fun r => String.eqb (t_tenant_id r) tenant_id)
       (tenant_info (fst (save_tenant_odoo_info tenant_id (Some info) w)))
     = Some match find (fun r => String.eqb (t_tenant_id r) tenant_id) (tenant_info w) with
            | Some old =>
                tenant_conflict_update old
                  (tenant_insert_row tenant_id info created_at (clock w))
            | None => tenant_insert_row tenant_id info created_at (clock w)
            end.
Proof.
  intros Hcreated. unfold save_tenant_odoo_info. rewrite Hcreated.
  split; [reflexivity|]. cbn [fst set_tenant_info tenant_info].
  apply (upsert_lookup (fun r => String.eqb (t_tenant_id r) tenant_id)).
  - cbn [tenant_insert_row t_tenant_id]. apply String.eqb_refl.
  - reflexivity.
Qed.

Lemma tenant_save_others (tenant_id other : string) (info : option tenant_info_dict)
    (w : world E) :
  other <> tenant_id ->
  find (fun r => String.eqb (t_tenant_id r) other)
    (tenant_info (fst (save_tenant_odoo_info tenant_id info w)))
  = find (fun r => String.eqb (t_tenant_id r) other) (tenant_info w).
Proof.
  intros Hother.
  assert (Hexcl : forall r, String.eqb (t_tenant_id r) tenant_id = true ->
                            String.eqb (t_tenant_id r) other = false).
  { intros r Hr. apply String.eqb_eq in Hr. apply String.eqb_neq. congruence. }
  unfold save_tenant_odoo_info.
  destruct info as [info|];
    [destruct (timestamptz_nullable "created_at" (i_created_at info)) as [created_at|msg];
     [|reflexivity]|];
    cbn [fst set_tenant_info tenant_info].
  - apply (upsert_find_others (fun r => String.eqb (t_tenant_id r) tenant_id)).
    + cbn [tenant_insert_row t_tenant_id]. apply String.eqb_refl.
    + exact Hexcl.
    + intros r Hr. cbn [tenant_conflict_update t_tenant_id]. now apply Hexcl.
  - induction (tenant_info w) as [|r rows IH]; [reflexivity|]. simpl.
    destruct (String.eqb (t_tenant_id r) tenant_id) eqn:Hr; simpl.
    + now rewrite (Hexcl r Hr).
    + destruct (String.eqb (t_tenant_id r) other); [reflexivity|exact IH].
Qed.

Lemma tenant_delete_lookup (tenant_id : string) (w : world E) :
  find (fun r => String.eqb (t_tenant_id r) tenant_id)
    (tenant_info (fst (save_tenant_odoo_info tenant_id None w)))
  = None.
Proof.
  unfold save_tenant_odoo_info. cbn [fst set_tenant_info tenant_info].
  induction (tenant_info w) as [|r rows IH]; [reflexivity|]. simpl.
  destruct (String.eqb (t_tenant_id r) tenant_id) eqn:Hr; simpl; [exact IH|].
  now rewrite Hr.
Qed.

(** Saving a tenant record and reading it back. A field given in the info
    is the one read back, and a text field left out keeps its old value;
    the energy flag and the module list are overwritten even when left out
    (with false and the empty list); the creation time of an existing row
    and the error column never change. A creation time given as text is
    refused by the driver: the save raises and stores nothing. Deleting
    makes the record absent. Neither touches the record of another
    tenant. *)
Theorem tenant_record_round_trip (tenant_id : string) (info : tenant_info_dict)
    (w : world E) :
  let old := find (fun r => String.eqb (t_tenant_id r) tenant_id) (tenant_info w) in
  let w1 := fst (save_tenant_odoo_info tenant_id (Some info) w) in
  let w2 := fst (save_tenant_odoo_info tenant_id None w1) in
  match timestamptz_nullable "created_at" (i_created_at info) with
  | Raise msg => save_tenant_odoo_info tenant_id (Some info) w = (w, Raise msg)
  | Ok created_at =>
    snd (save_tenant_odoo_info tenant_id (Some info) w) = Ok tt
    /\ exists row,
      get_tenant_odoo_info tenant_id w1 = (w1, Ok (Some row))
      /\ t_status row = coalesce (i_status info) (match old with
                                                  | Some o => t_status o
                                                  | None => None
                                                  end)
      /\ t_database row = coalesce (i_database info) (match old with
                                                      | Some o => t_database o
                                                      | None => None
                                                      end)
      /\ t_energy_modules_enabled row
         = match i_energy_modules_enabled info with Some b => b | None => false end
      /\ t_installed_modules row
         = match i_installed_modules info with Some l => l | None => [] end
      /\ t_created_at row = match old with
                            | Some o => t_created_at o
                            | None => created_at
                            end
      /\ t_error row = match old with Some o => t_error o | None => None end
  end
  /\ get_tenant_odoo_info tenant_id w2 = (w2, Ok None)
  /\ forall other,
       other <> tenant_id ->
       snd (get_tenant_odoo_info other w1) = snd (get_tenant_odoo_info other w)
       /\ snd (get_tenant_odoo_info other w2) = snd (get_tenant_odoo_info other w).
Proof.
  intros old w1 w2. split; [|split].
  - destruct (timestamptz_nullable "created_at" (i_created_at info))
      as [created_at|msg] eqn:Hcreated.
    + destruct (tenant_save_lookup tenant_id info created_at w Hcreated)
        as [Hsaved Hfound].
      split; [exact Hsaved|].
      eexists. unfold get_tenant_odoo_info. unfold w1.
      rewrite Hfound. fold old. split; [reflexivity|].
      destruct old as [o|]; cbn; destruct (i_status info), (i_database info);
        repeat split; reflexivity.
    + unfold save_tenant_odoo_info. now rewrite Hcreated.
  - unfold get_tenant_odoo_info, w2. now rewrite tenant_delete_lookup.
  - intros other Hother. unfold get_tenant_odoo_info, w2, w1. cbn [snd].
    now rewrite !(tenant_save_others tenant_id other _ _ Hother).
Qed.

End TenantTable.

(** ** Provisioning, step by step *)

Section ProvisionOutcome.
Context {str : PyStr} {E : Type} {server : OdooServer E} {broker : ContextBroker}
        {settings : Settings}.

(** Registering subscriptions changes nothing on this side. *)
Lemma register_keeps_world (tenant_id : string) (types : list string) (w : world E) :
  fst (register_subscriptions tenant_id types w) = w.
Proof.
  induction types as [|entity_type rest IH]; [reflexivity|].
  cbn [register_subscriptions].
  destruct (post_subscription tenant_id (subscription_id tenant_id entity_type) entity_type)
    as [response|]; [|reflexivity].
  destruct ((status_code response =? 201) || (status_code response =? 409)); exact IH.
Qed.

(** The world the [try] block of [provision_tenant] ends in. The marker
    is saved; the steps on the server follow; the save of the active
    record hands the creation time over as text, which the driver refuses
    for a [TIMESTAMPTZ] parameter. So the block always raises, and the
    tenant table is the one holding the provisioning marker. Only the
    tenant table (and the clock and the server) differ from the start. *)
Lemma provision_steps_shape (request : Tenant.ProvisionRequest) (tenant_id : string)
    (user : list (string * string)) (w w1 : world E) (r : result Tenant.TenantOdooInfo) :
  Tenant.provision_steps request tenant_id user w = (w1, r) ->
  let marked :=
    fst (save_tenant_odoo_info tenant_id
           (Some {| i_name := None; i_database := None; i_status := Some "provisioning";
                    i_energy_modules_enabled := None; i_installed_modules := None;
                    i_admin_email := None; i_created_at := NoTime; i_error := None;
                    i_started_at := IsoFormat (clock w); i_failed_at := NoTime |})
           (fst (utcnow w))) in
  entity_mappings w1 = entity_mappings w
  /\ sync_status w1 = sync_status w
  /\ tenant_info w1 = tenant_info marked
  /\ exists msg, r = Raise msg.
Proof.
  unfold Tenant.provision_steps, bind, ret.
  cbn [utcnow fst]. unfold on_odoo.
  set (marker := Some {| i_name := None; i_database := None;
                         i_status := Some "provisioning";
                         i_energy_modules_enabled := None; i_installed_modules := None;
                         i_admin_email := None; i_created_at := NoTime; i_error := None;
                         i_started_at := IsoFormat (clock w); i_failed_at := NoTime |}).
  destruct (save_tenant_odoo_info tenant_id marker _) as [wb [[]|e]] eqn:Hmark.
  2: { unfold save_tenant_odoo_info, marker in Hmark. discriminate. }
  assert (Hwb : wb = fst (save_tenant_odoo_info tenant_id marker
                            {| tenant_info := tenant_info w;
                               entity_mappings := entity_mappings w;
                               sync_status := sync_status w;
                               clock := S (clock w);
                               odoo := odoo w |})) by now rewrite Hmark.
  assert (Hframe : entity_mappings wb = entity_mappings w /\ sync_status wb = sync_status w).
  { rewrite Hwb. split; reflexivity. }
  destruct Hframe as [Hmaps Hstat]. clear Hmark. cbn [fst]. clear Hwb.
  destruct (OdooClient.duplicate_database _ _ (odoo wb)) as [e1 [[]|m]].
  2: { intros Heq. injection Heq as <- <-. cbn.
       split; [exact Hmaps|]. split; [exact Hstat|]. split; [reflexivity|].
       now exists m. }
  cbn [set_odoo odoo].
  destruct (OdooClient.install_modules _ _ e1) as [e2 [[]|m]].
  2: { intros Heq. injection Heq as <- <-. cbn.
       split; [exact Hmaps|]. split; [exact Hstat|]. split; [reflexivity|].
       now exists m. }
  cbn [set_odoo odoo tenant_info entity_mappings sync_status clock].
  destruct (OdooClient.create_user _ _ _ _ e2) as [e3 [uid|m]].
  2: { intros Heq. injection Heq as <- <-. cbn.
       split; [exact Hmaps|]. split; [exact Hstat|]. split; [reflexivity|].
       now exists m. }
  cbn [set_odoo odoo tenant_info entity_mappings sync_status clock].
  unfold save_tenant_odoo_info at 1.
  cbn [i_created_at timestamptz_nullable].
  intros Heq. injection Heq as <- <-. cbn.
  split; [exact Hmaps|]. split; [exact Hstat|]. split; [reflexivity|].
  eexists. reflexivity.
Qed.

(** A save returns unless its creation time is given as text. *)
Lemma save_returns (tenant_id : string) (info : option tenant_info_dict) (w : world E) :
  match info with
  | Some i => match i_created_at i with IsoFormat _ => False | _ => True end
  | None => True
  end ->
  save_tenant_odoo_info tenant_id info w
  = (fst (save_tenant_odoo_info tenant_id info w), Ok tt).
Proof.
  unfold save_tenant_odoo_info. destruct info as [i|]; [|reflexivity].
  now destruct (i_created_at i).
Qed.

Lemma save_keeps_other_tables (tenant_id : string) (info : option tenant_info_dict)
    (w : world E) :
  entity_mappings (fst (save_tenant_odoo_info tenant_id info w)) = entity_mappings w
  /\ sync_status (fst (save_tenant_odoo_info tenant_id info w)) = sync_status w.
Proof.
  unfold save_tenant_odoo_info. destruct info as [info|]; [|now split].
  now destruct (timestamptz_nullable "created_at" (i_created_at info)).
Qed.

(** The record and the reply at the end of [provision_tenant], case by
    case. *)
Lemma provision_record_settled (request : Tenant.ProvisionRequest) (tenant_id : string)
    (user : list (string * string)) (w : world E) :
  let old := find (fun r => String.eqb (t_tenant_id r) tenant_id) (tenant_info w) in
  let outcome := Tenant.provision_tenant request tenant_id user w in
  entity_mappings (fst outcome) = entity_mappings w
  /\ sync_status (fst outcome) = sync_status w
  /\ (forall other,
         other <> tenant_id ->
         snd (get_tenant_odoo_info other (fst outcome)) = snd (get_tenant_odoo_info other w))
  /\ match snd outcome with
     | Returns info =>
         info = {| Tenant.id := tenant_id;
                   Tenant.name := tenant_id;
                   Tenant.odooDatabase := "nkz_odoo_" ++ tenant_id;
                   Tenant.odooUrl := Tenant._build_tenant_odoo_url tenant_id;
                   Tenant.status := "active";
                   Tenant.lastSync := None;
                   Tenant.energyModulesEnabled := Tenant.enableEnergyModules request;
                   Tenant.installedModules := Tenant.modules_to_install request |}
         /\ exists row,
             get_tenant_odoo_info tenant_id (fst outcome) = (fst outcome, Ok (Some row))
             /\ t_status row = Some "active"
             /\ t_database row = Some ("nkz_odoo_" ++ tenant_id)
             /\ t_name row = Some tenant_id
             /\ t_energy_modules_enabled row = Tenant.enableEnergyModules request
             /\ t_installed_modules row = Tenant.modules_to_install request
             /\ t_admin_email row
                = Some (Tenant.user_get user "email" ("admin@" ++ tenant_id ++ ".nkz"))
             /\ t_created_at row
                = match old with Some o => t_created_at o | None => None end
     | HTTPException code _ =>
         if code =? 409
         then fst outcome = w /\ Tenant.already_active old = true
         else exists row,
             get_tenant_odoo_info tenant_id (fst outcome) = (fst outcome, Ok (Some row))
             /\ t_status row = Some "error"
             /\ t_energy_modules_enabled row = false
             /\ t_installed_modules row = []
             /\ t_error row = match old with Some o => t_error o | None => None end
     end.
Proof.
  intros old outcome. unfold outcome, Tenant.provision_tenant, get_tenant_odoo_info.
  fold old. destruct (Tenant.already_active old) eqn:Hactive.
  { cbn. repeat split; reflexivity. }
  destruct (Tenant.provision_steps request tenant_id user w) as [w1 r] eqn:Hsteps.
  apply provision_steps_shape in Hsteps. cbv zeta in Hsteps.
  set (marker := {| i_name := None; i_database := None; i_status := Some "provisioning";
                    i_energy_modules_enabled := None; i_installed_modules := None;
                    i_admin_email := None; i_created_at := NoTime; i_error := None;
                    i_started_at := IsoFormat (clock w); i_failed_at := NoTime |}) in *.
  destruct Hsteps as (Hmaps & Hstat & Hrows & e & ->).
  destruct (tenant_save_lookup tenant_id marker None (fst (utcnow w)) eq_refl)
    as [_ Hmarked].
  change (find (fun r => String.eqb (t_tenant_id r) tenant_id)
            (tenant_info (fst (utcnow w)))) with old in Hmarked.
  assert (Hmarked_others :
            forall other, other <> tenant_id ->
              find (fun r => String.eqb (t_tenant_id r) other)
                (tenant_info (fst (save_tenant_odoo_info tenant_id (Some marker)
                                     (fst (utcnow w)))))
              = find (fun r => String.eqb (t_tenant_id r) other) (tenant_info w))
    by (intros other Hother; now rewrite tenant_save_others).
  (* the block raised: the handler records the failure *)
  unfold Tenant.provision_failed, bind. cbn [utcnow].
  rewrite save_returns by exact I. cbn [fst snd].
  assert (Hnot409 : (500 =? 409) = false) by reflexivity. rewrite Hnot409.
  match goal with
  | |- context [save_tenant_odoo_info tenant_id (Some ?i) ?wx] =>
      set (failed := i); set (wf := wx)
  end.
  assert (Hwf_rows : tenant_info wf = tenant_info w1) by reflexivity.
  destruct (save_keeps_other_tables tenant_id (Some failed) wf) as [Hm Hs].
  split; [rewrite Hm; exact Hmaps|]. split; [rewrite Hs; exact Hstat|].
  destruct (tenant_save_lookup tenant_id failed None wf eq_refl) as [_ Hfailed].
  split.
  - intros other Hother. f_equal.
    rewrite (tenant_save_others tenant_id other _ wf Hother), Hwf_rows, Hrows.
    now apply Hmarked_others.
  - eexists. split.
    + rewrite Hfailed, Hwf_rows, Hrows, Hmarked. reflexivity.
    + destruct old as [o|]; cbn; repeat split; reflexivity.
Qed.

(** However [provision_tenant] ends, the tenant's record is settled. When
    it returns, the record is active with the database, name, flag,
    modules and admin address of the reply; when it refuses an active
    tenant nothing changed; on any other failure the record has status
    error, and its module list and energy flag are reset. The record never
    stays in status provisioning. The creation time handed over with the
    active record is not stored: a tenant without a previous record ends
    with none. The mapping and status tables and the records of the other
    tenants are as before. *)
Theorem provision_settles_record (request : Tenant.ProvisionRequest) (tenant_id : string)
    (user : list (string * string)) (w : world E) :
  let old := find (fun r => String.eqb (t_tenant_id r) tenant_id) (tenant_info w) in
  let outcome := Tenant.provision_tenant request tenant_id user w in
  entity_mappings (fst outcome) = entity_mappings w
  /\ sync_status (fst outcome) = sync_status w
  /\ (forall other,
         other <> tenant_id ->
         snd (get_tenant_odoo_info other (fst outcome)) = snd (get_tenant_odoo_info other w))
  /\ match snd outcome with
     | Returns info =>
         info = {| Tenant.id := tenant_id;
                   Tenant.name := tenant_id;
                   Tenant.odooDatabase := "nkz_odoo_" ++ tenant_id;
                   Tenant.odooUrl := Tenant._build_tenant_odoo_url tenant_id;
                   Tenant.status := "active";
                   Tenant.lastSync := None;
                   Tenant.energyModulesEnabled := Tenant.enableEnergyModules request;
                   Tenant.installedModules := Tenant.modules_to_install request |}
         /\ exists row,
             get_tenant_odoo_info tenant_id (fst outcome) = (fst outcome, Ok (Some row))
             /\ t_status row = Some "active"
             /\ t_database row = Some ("nkz_odoo_" ++ tenant_id)
             /\ t_name row = Some tenant_id
             /\ t_energy_modules_enabled row = Tenant.enableEnergyModules request
             /\ t_installed_modules row = Tenant.modules_to_install request
             /\ t_admin_email row
                = Some (Tenant.user_get user "email" ("admin@" ++ tenant_id ++ ".nkz"))
             /\ t_created_at row
                = match old with Some o => t_created_at o | None => None end
     | HTTPException code _ =>
         if code =? 409
         then fst outcome = w /\ Tenant.already_active old = true
         else exists row,
             get_tenant_odoo_info tenant_id (fst outcome) = (fst outcome, Ok (Some row))
             /\ t_status row = Some "error"
             /\ t_energy_modules_enabled row = false
             /\ t_installed_modules row = []
             /\ t_error row = match old with Some o => t_error o | None => None end
     end.
Proof. exact (provision_record_settled request tenant_id user w). Qed.

(** [provision_tenant] never returns. For a tenant whose record is active
    it answers 409. For any other tenant it answers 500: a step on the
    server raised, or all of them went through and the save of the active
    record, which hands the creation time over as text, was refused by the
    driver. *)
Theorem provision_never_returns (request : Tenant.ProvisionRequest) (tenant_id : string)
    (user : list (string * string)) (w : world E) :
  let old := find (fun r => String.eqb (t_tenant_id r) tenant_id) (tenant_info w) in
  let outcome := Tenant.provision_tenant request tenant_id user w in
  exists detail,
    snd outcome
    = HTTPException (if Tenant.already_active old then 409 else 500) detail.
Proof.
  intros old outcome. unfold outcome, Tenant.provision_tenant, get_tenant_odoo_info.
  fold old. destruct (Tenant.already_active old).
  { eexists. reflexivity. }
  destruct (Tenant.provision_steps request tenant_id user w) as [w1 r] eqn:Hsteps.
  destruct (provision_steps_shape _ _ _ _ _ _ Hsteps) as (_ & _ & _ & e & ->).
  unfold Tenant.provision_failed, bind. cbn [utcnow].
  rewrite save_returns by exact I. eexists. reflexivity.
Qed.

End ProvisionOutcome.

(** Tenant [t3] asks to be provisioned on a server that has its template:
    the database is duplicated, the modules installed and the user created,
    and the answer is a 500 naming the refused creation time. *)
Lemma provision_refused_at_the_active_record :
  let outcome :=
    Tenant.provision_tenant (server := Demo.toy_odoo)
      (broker := Demo.broker) (settings := Demo.settings)
      {| Tenant.enableEnergyModules := true; Tenant.additionalModules := [] |}
      "t3" [] Demo.w0 in
  (exists msg,
      timestamptz_nullable "created_at" (IsoFormat 2%nat) = Raise msg
      /\ snd outcome = HTTPException 500 ("Failed to provision Odoo: " ++ msg))
  /\ Demo.databases (odoo (fst outcome))
     = ["nkz_odoo_template"; "nkz_odoo_t1"; "nkz_odoo_t3"]
  /\ option_map t_status
       (find (fun r => String.eqb (t_tenant_id r) "t3") (tenant_info (fst outcome)))
     = Some (Some "error").
Proof.
  intros outcome.
  split; [eexists; split; [reflexivity|vm_compute; reflexivity]|].
  vm_compute. repeat split.
Qed.


(** ** Notifications *)

Section NotificationRun.
Context {str : PyStr} {E : Type} {server : OdooServer E}.

(** A notification whose subscription id names a tenant is always
    processed, never answered with an error: every entity of its batch is
    attempted once, the reply's two counts add up to the size of the batch,
    and each entity counted as synced has a mapping row of that tenant
    afterwards. *)
Theorem notification_accounts_for_batch (subscriptionId tenant_id : string)
    (data : list pydict) (w : world E) :
  _extract_tenant_from_subscription subscriptionId = Some tenant_id ->
  tenant_id <> "" ->
  exists w' synced_count error_count now,
    handle_ngsi_notification subscriptionId data w
    = (w', Returns (Processed synced_count error_count now))
    /\ synced_count + error_count = Z.of_nat (length data)
    /\ synced_count
       = Z.of_nat (length (successes (fst (entity_attempts tenant_id data w))))
    /\ map fst (fst (entity_attempts tenant_id data w)) = data
    /\ forall entity,
         In (entity, true) (fst (entity_attempts tenant_id data w)) ->
         mapped tenant_id entity w'.
Proof.
  intros Htenant Hnonempty.
  unfold handle_ngsi_notification. rewrite Htenant.
  apply String.eqb_neq in Hnonempty. rewrite Hnonempty.
  destruct (sync_entities_run tenant_id data {| synced := 0; errors := [] |} w)
    as (msgs & Hrun & Hlen & Hmap & _ & Hmapped).
  unfold bind at 1. rewrite Hrun. unfold bind, utcnow, ret.
  cbn [synced errors app].
  do 4 eexists. split; [reflexivity|].
  pose proof (filter_length (fun a : pydict * bool => snd a)
                (fst (entity_attempts tenant_id data w))) as Hsplit.
  unfold successes, failures in *. cbv beta in Hsplit.
  assert (Hall : length (fst (entity_attempts tenant_id data w)) = length data)
    by (rewrite <- Hmap at 2; now rewrite length_map).
  split; [lia|]. split; [lia|]. split; [exact Hmap|].
  intros entity Hin. destruct (Hmapped entity Hin) as (ngsi_id & Hid & Hcount).
  exists ngsi_id. split; [exact Hid|exact Hcount].
Qed.

End NotificationRun.

(** The subscription of tenant [t1] for parcels delivers a parcel and an
    ill-formed building: both are attempted, neither is counted as
    synced. *)
Lemma notification_accounts_for_batch_witness :
  exists w' now,
    handle_ngsi_notification (str := Demo.render) (server := Demo.toy_odoo)
      (subscription_id "t1" "AgriParcel") [Demo.parcel "urn:x:1"; Demo.bad_building]
      Demo.w0
    = (w', Returns (Processed 0 2 now))
    /\ map fst (fst (entity_attempts (str := Demo.render) (server := Demo.toy_odoo) "t1"
                       [Demo.parcel "urn:x:1"; Demo.bad_building] Demo.w0))
       = [Demo.parcel "urn:x:1"; Demo.bad_building].
Proof.
  destruct (notification_accounts_for_batch (str := Demo.render) (server := Demo.toy_odoo)
              (subscription_id "t1" "AgriParcel") "t1"
              [Demo.parcel "urn:x:1"; Demo.bad_building] Demo.w0)
    as (w' & synced_count & error_count & now & Hreply & Hsum & Hsynced & Hall & _).
  - reflexivity.
  - discriminate.
  - exists w', now.
    assert (Hnone : synced_count = 0) by (rewrite Hsynced; reflexivity).
    assert (Herr : error_count = 2).
    { rewrite Hnone in Hsum. change (0 + error_count = 2) in Hsum. lia. }
    rewrite Hnone, Herr in Hreply. split; [exact Hreply|exact Hall].
Defined.

(** ** The naming scheme of subscriptions *)

Lemma string_app_inv_head (p a b : string) : p ++ a = p ++ b -> a = b.
Proof.
  induction p as [|c p IH]; simpl; [trivial|].
  intros Heq. injection Heq as Heq. now apply IH.
Qed.

Lemma lower_injective_on_types (ty ty' : string) :
  In ty entity_types -> In ty' entity_types -> lower ty = lower ty' -> ty = ty'.
Proof.
  unfold entity_types. simpl.
  intros [<-|[<-|[<-|[<-|[<-|[<-|[]]]]]]] [<-|[<-|[<-|[<-|[<-|[<-|[]]]]]]] Heq;
    first [reflexivity | vm_compute in Heq; discriminate].
Qed.

(** One subscription per (tenant, declared type): two pairs with the same
    generated id are the same pair, whatever hyphens or colons the tenant
    ids hold. *)
Theorem subscription_id_injective (tenant_id tenant_id' entity_type entity_type' : string) :
  In entity_type entity_types ->
  In entity_type' entity_types ->
  subscription_id tenant_id entity_type = subscription_id tenant_id' entity_type' ->
  tenant_id = tenant_id' /\ entity_type = entity_type'.
Proof.
  intros Hty Hty' Heq. unfold subscription_id in Heq.
  apply string_app_inv_head in Heq.
  destruct (lower_declared_type entity_type Hty) as [_ Hl].
  destruct (lower_declared_type entity_type' Hty') as [_ Hl'].
  apply (f_equal (split "-")) in Heq.
  change ("-" ++ lower entity_type) with (String "-" (lower entity_type)) in Heq.
  change ("-" ++ lower entity_type') with (String "-" (lower entity_type')) in Heq.
  rewrite !split_app_sep, (split_without_sep "-" _ Hl), (split_without_sep "-" _ Hl') in Heq.
  apply app_inj_tail in Heq. destruct Heq as [Hpieces Hlower].
  split.
  - rewrite <- (join_split "-" tenant_id), <- (join_split "-" tenant_id').
    now rewrite Hpieces.
  - now apply lower_injective_on_types.
Qed.

Lemma subscription_id_injective_witness :
  "farm-7" = "farm-7" /\ "Device" = "Device".
Proof.
  apply (subscription_id_injective "farm-7" "farm-7" "Device" "Device").
  - simpl. tauto.
  - simpl. tauto.
  - reflexivity.
Defined.

Lemma split_pieces_without_sep (sep : ascii) (s : string) :
  Forall (fun piece => has_char sep piece = false) (split sep s).
Proof.
  induction s as [|c s IH]; simpl.
  - constructor; [reflexivity|constructor].
  - destruct (Ascii.eqb c sep) eqn:Hc.
    + constructor; [reflexivity|exact IH].
    + pose proof (split_not_nil sep s) as Hne.
      destruct (split sep s) as [|piece pieces]; [now contradiction Hne|].
      inversion IH as [|? ? Hpiece Hpieces]. subst.
      constructor; [|exact Hpieces]. simpl. now rewrite Hc, Hpiece.
Qed.

Lemma string_app_assoc (a b c : string) : (a ++ b) ++ c = a ++ b ++ c.
Proof. induction a as [|x a IH]; simpl; [reflexivity|now rewrite IH]. Qed.

Lemma last_in_list {A : Type} (l : list A) (d : A) : l <> [] -> In (last l d) l.
Proof.
  intros Hl. rewrite (app_removelast_last d Hl) at 2.
  apply in_or_app. right. now left.
Qed.

Lemma join_cons (sep p : string) (pieces : list string) :
  pieces <> [] -> join sep (p :: pieces) = p ++ sep ++ join sep pieces.
Proof. destruct pieces; [intros Hne; now contradiction Hne|reflexivity]. Qed.

Lemma join_last (sep : string) (pieces : list string) :
  (2 <= length pieces)%nat ->
  join sep pieces = join sep (removelast pieces) ++ sep ++ last pieces "".
Proof.
  induction pieces as [|p pieces IH]; simpl length; [lia|].
  intros Hlen. destruct pieces as [|q pieces]; [simpl in Hlen; lia|].
  destruct pieces as [|r pieces]; [reflexivity|].
  change (join sep (p :: q :: r :: pieces)) with (p ++ sep ++ join sep (q :: r :: pieces)).
  rewrite IH by (simpl; lia).
  change (removelast (p :: q :: r :: pieces)) with (p :: removelast (q :: r :: pieces)).
  change (last (p :: q :: r :: pieces) "") with (last (q :: r :: pieces) "").
  destruct (removelast (q :: r :: pieces)) as [|x xs] eqn:Hrm.
  - destruct pieces; discriminate.
  - change (join sep (p :: x :: xs)) with (p ++ sep ++ join sep (x :: xs)).
    now rewrite !string_app_assoc.
Qed.

Lemma py_index_minus_one {A : Type} (l : list A) (d : A) :
  l <> [] -> py_index l (-1) = Some (last l d).
Proof.
  intros Hl. unfold py_index.
  replace (-1 <? 0) with true by reflexivity.
  destruct l as [|x l]; [now contradiction Hl|].
  assert (Hlen : Z.of_nat (length (x :: l)) + -1 = Z.of_nat (length l))
    by (simpl length; lia).
  rewrite Hlen.
  replace (Z.of_nat (length l) <? 0) with false by (symmetry; apply Z.ltb_ge; lia).
  replace (Z.of_nat (length (x :: l)) <=? Z.of_nat (length l)) with false
    by (symmetry; apply Z.leb_gt; simpl length; lia).
  simpl orb. cbv iota. rewrite Nat2Z.id.
  clear Hl Hlen. revert x. induction l as [|y l IH]; intros x; [reflexivity|].
  simpl length.
  change (nth_error (x :: y :: l) (S (length l))) with (nth_error (y :: l) (length l)).
  rewrite IH. reflexivity.
Qed.

Lemma has_char_app_false (c : ascii) (a b : string) :
  has_char c (a ++ b) = false -> has_char c a = false /\ has_char c b = false.
Proof. rewrite has_char_app. apply orb_false_elim. Qed.

(** The parser inverts the naming scheme and nothing else: an id is
    attributed to a tenant only when it ends in [:nkz-odoo-], the tenant
    id, a hyphen and a last part free of hyphens and colons; the tenant id
    it yields holds no colon. *)
Theorem extracted_tenant_was_named (subscriptionId tenant_id : string) :
  _extract_tenant_from_subscription subscriptionId = Some tenant_id ->
  exists head last_part,
    subscriptionId = head ++ ":nkz-odoo-" ++ tenant_id ++ "-" ++ last_part
    /\ has_char ":" tenant_id = false
    /\ has_char ":" last_part = false
    /\ has_char "-" last_part = false.
Proof.
  unfold _extract_tenant_from_subscription.
  set (parts := split ":" subscriptionId).
  destruct (4 <=? length parts)%nat eqn:Hparts; [|discriminate].
  apply Nat.leb_le in Hparts.
  rewrite (py_index_minus_one parts "" (split_not_nil ":" subscriptionId)).
  set (sub_name := last parts "").
  set (name_parts := split "-" sub_name).
  destruct (py_index name_parts 0) as [p0|] eqn:H0; [|discriminate].
  destruct (py_index name_parts 1) as [p1|] eqn:H1; [|discriminate].
  destruct (4 <=? length name_parts)%nat eqn:Hlen; [|discriminate].
  destruct (String.eqb p0 "nkz") eqn:Hp0; [|discriminate].
  destruct (String.eqb p1 "odoo") eqn:Hp1; [|discriminate].
  cbn [andb]. intros Heq. injection Heq as Htenant.
  apply Nat.leb_le in Hlen. apply String.eqb_eq in Hp0, Hp1. subst p0 p1.
  (* the shape of the hyphen-separated parts *)
  destruct name_parts as [|a [|b rest]] eqn:Hname; try (simpl in Hlen; lia).
  rewrite py_index_first in H0. rewrite py_index_second in H1.
  injection H0 as ->. injection H1 as ->.
  assert (Hrest : (2 <= length rest)%nat) by (simpl in Hlen; lia).
  assert (Hsplit_rest : rest = (removelast rest ++ [last rest ""])%list)
    by (apply app_removelast_last; destruct rest; [simpl in Hrest; lia|discriminate]).
  set (middle := removelast rest) in *. set (z := last rest "") in *.
  rewrite Hsplit_rest, py_slice_between in Htenant.
  (* the last colon-separated segment, put back together *)
  assert (Hsub : sub_name = "nkz-odoo-" ++ tenant_id ++ "-" ++ z).
  { rewrite <- (join_split "-" sub_name). fold name_parts. rewrite Hname.
    assert (Hne : rest <> []) by (destruct rest; [simpl in Hrest; lia|discriminate]).
    rewrite join_cons by discriminate. rewrite (join_cons "-" "odoo" rest Hne).
    rewrite (join_last "-" rest Hrest). fold middle. fold z. now rewrite Htenant. }
  assert (Hwhole : subscriptionId = join ":" (removelast parts) ++ ":" ++ sub_name).
  { rewrite <- (join_split ":" subscriptionId) at 1. fold parts.
    apply join_last. lia. }
  (* none of the pieces holds its separator *)
  assert (Hno_colon : has_char ":" sub_name = false).
  { pose proof (split_pieces_without_sep ":" subscriptionId) as Hall. fold parts in Hall.
    rewrite Forall_forall in Hall. apply Hall. unfold sub_name.
    apply last_in_list. apply split_not_nil. }
  assert (Hno_hyphen : has_char "-" z = false).
  { pose proof (split_pieces_without_sep "-" sub_name) as Hall. fold name_parts in Hall.
    rewrite Hname, Forall_forall in Hall. apply Hall.
    right. right. unfold z. apply last_in_list.
    destruct rest; [simpl in Hrest; lia|discriminate]. }
  rewrite Hsub in Hno_colon.
  change ("nkz-odoo-" ++ tenant_id ++ "-" ++ z)
    with ("nkz-odoo-" ++ (tenant_id ++ "-" ++ z)) in Hno_colon.
  apply has_char_app_false in Hno_colon. destruct Hno_colon as [_ Hno_colon].
  apply has_char_app_false in Hno_colon. destruct Hno_colon as [Htenant_colon Hno_colon].
  apply has_char_app_false in Hno_colon. destruct Hno_colon as [_ Hz_colon].
  exists (join ":" (removelast parts)), z.
  split; [rewrite Hwhole, Hsub; reflexivity|].
  split; [exact Htenant_colon|]. split; [exact Hz_colon|exact Hno_hyphen].
Qed.

Lemma extracted_tenant_was_named_witness :
  exists head last_part,
    "urn:ngsi-ld:Subscription:nkz-odoo-coop-north-3-device"
    = head ++ ":nkz-odoo-" ++ "coop-north-3" ++ "-" ++ last_part
    /\ has_char ":" "coop-north-3" = false
    /\ has_char ":" last_part = false
    /\ has_char "-" last_part = false.
Proof.
  apply (extracted_tenant_was_named
           "urn:ngsi-ld:Subscription:nkz-odoo-coop-north-3-device" "coop-north-3").
  reflexivity.
Defined.

(** ** The webhook fed by Odoo *)

Lemma starts_with_app (old t : string) : OdooWebhook.starts_with old (old ++ t) = true.
Proof.
  induction old as [|c old IH]; simpl; [reflexivity|].
  now rewrite Ascii.eqb_refl, IH.
Qed.

Lemma replace_from_skip (old new p t : string) :
  OdooWebhook.replace_from old new (String.length p) (p ++ t)
  = OdooWebhook.replace_from old new 0 t.
Proof. induction p as [|c p IH]; simpl; [reflexivity|exact IH]. Qed.

(** A leading occurrence is replaced and the scan goes on behind it. *)
Lemma py_replace_leading (c : ascii) (old new t : string) :
  OdooWebhook.py_replace (String c old) new (String c old ++ t)
  = new ++ OdooWebhook.py_replace (String c old) new t.
Proof.
  unfold OdooWebhook.py_replace.
  change (String c old ++ t) with (String c (old ++ t)).
  cbn [OdooWebhook.replace_from].
  change (String c (old ++ t)) with (String c old ++ t).
  rewrite starts_with_app.
  replace (String.length (String c old) - 1)%nat with (String.length old)
    by (cbn [String.length]; lia).
  now rewrite replace_from_skip.
Qed.

(** Without an occurrence nothing is replaced. *)
Lemma py_replace_absent (old new t : string) :
  OdooWebhook.occurs old t = false -> OdooWebhook.py_replace old new t = t.
Proof.
  unfold OdooWebhook.py_replace.
  induction t as [|c t IH]; [reflexivity|].
  cbn [OdooWebhook.occurs OdooWebhook.replace_from]. intros Hocc.
  apply orb_false_elim in Hocc. destruct Hocc as [Hhere Hlater].
  rewrite Hhere. now rewrite (IH Hlater).
Qed.

Section OdooSide.
Context {E : Type}.

(** The webhook Odoo calls never writes: whatever the body, the three
    tables and the server are as before. And it reads the tenant back from
    the database name provisioning gave: for a tenant id that is not empty
    and does not itself contain [nkz_odoo_], a body naming the database
    [nkz_odoo_] followed by the tenant id is processed under that tenant
    id. *)
Theorem odoo_webhook_reads_tenant_and_never_writes (body : pyval) (w : world E) :
  let outcome := OdooWebhook.handle_odoo_webhook body w in
  (tenant_info (fst outcome) = tenant_info w
   /\ entity_mappings (fst outcome) = entity_mappings w
   /\ sync_status (fst outcome) = sync_status w
   /\ odoo (fst outcome) = odoo w)
  /\ forall fields tenant_id,
       body = PDict fields ->
       dict_get fields "database" = PStr ("nkz_odoo_" ++ tenant_id) ->
       tenant_id <> "" ->
       OdooWebhook.occurs "nkz_odoo_" tenant_id = false ->
       OdooWebhook.tenant_of_database (dict_get fields "database") = Ok (Some tenant_id)
       /\ snd outcome
          = Returns (OdooWebhook.OdooProcessed (dict_get fields "event") (clock w)).
Proof.
  intros outcome. split.
  - unfold outcome, OdooWebhook.handle_odoo_webhook, OdooWebhook.odoo_webhook_steps.
    destruct body as [| | | | | |fields]; try (cbn; tauto).
    unfold bind, lift.
    destruct (OdooWebhook.tenant_of_database (dict_get fields "database"))
      as [[tenant_id|]|e]; try (cbn; tauto).
    destruct (String.eqb tenant_id ""); try (cbn; tauto).
    destruct (OdooWebhook.is_record_event (dict_get fields "event")); cbn; tauto.
  - intros fields tenant_id -> Hdb Hnonempty Habsent.
    assert (Hdecoded : OdooWebhook.tenant_of_database (dict_get fields "database")
                       = Ok (Some tenant_id)).
    { rewrite Hdb. unfold OdooWebhook.tenant_of_database.
      change (truthy (PStr ("nkz_odoo_" ++ tenant_id))) with true. cbv iota.
      change "nkz_odoo_" with (String "n" "kz_odoo_") at 1 2.
      rewrite py_replace_leading.
      change (String "n" "kz_odoo_") with "nkz_odoo_".
      now rewrite (py_replace_absent "nkz_odoo_" "" tenant_id Habsent). }
    split; [exact Hdecoded|].
    unfold outcome, OdooWebhook.handle_odoo_webhook, OdooWebhook.odoo_webhook_steps,
      bind, lift.
    rewrite Hdecoded. apply String.eqb_neq in Hnonempty. rewrite Hnonempty.
    destruct (OdooWebhook.is_record_event (dict_get fields "event")); reflexivity.
Qed.

End OdooSide.

Lemma odoo_webhook_reads_tenant_and_never_writes_witness :
  let body := PDict [("event", PStr "record.write"); ("model", PStr "product.template");
                     ("record_id", PInt 10); ("database", PStr "nkz_odoo_t1")] in
  OdooWebhook.tenant_of_database (PStr "nkz_odoo_t1") = Ok (Some "t1")
  /\ snd (OdooWebhook.handle_odoo_webhook body Demo.w0)
     = Returns (OdooWebhook.OdooProcessed (PStr "record.write") 1%nat).
Proof.
  intros body.
  apply (proj2 (odoo_webhook_reads_tenant_and_never_writes body Demo.w0)
           [("event", PStr "record.write"); ("model", PStr "product.template");
            ("record_id", PInt 10); ("database", PStr "nkz_odoo_t1")] "t1").
  - reflexivity.
  - reflexivity.
  - discriminate.
  - reflexivity.
Defined.

(** ** The tenant record as the info endpoint shows it *)

Lemma or_text_same (t : string) : TenantAdmin.or_text (Some t) t = t.
Proof. unfold TenantAdmin.or_text. now destruct (String.eqb t ""). Qed.

Section InfoAfterProvisioning.
Context {str : PyStr} {E : Type} {server : OdooServer E} {broker : ContextBroker}
        {settings : Settings}.

(** After any call of [provision_tenant], [get_tenant_info] answers for
    that tenant without changing anything. After a provisioning that
    returned it returns the very reply provisioning gave; after a refusal
    (409) it shows status active; after a failure it shows status error,
    with no modules and the energy flag off. *)
Theorem tenant_info_after_provisioning (request : Tenant.ProvisionRequest)
    (tenant_id : string) (user : list (string * string)) (w : world E) :
  let outcome := Tenant.provision_tenant request tenant_id user w in
  let shown := TenantAdmin.get_tenant_info tenant_id (fst outcome) in
  fst shown = fst outcome
  /\ match snd outcome with
     | Returns info => snd shown = Returns info
     | HTTPException code _ =>
         exists info,
           snd shown = Returns info
           /\ if code =? 409
              then Tenant.status info = "active"
              else Tenant.status info = "error"
                   /\ Tenant.installedModules info = []
                   /\ Tenant.energyModulesEnabled info = false
     end.
Proof.
  intros outcome shown.
  pose proof (provision_record_settled request tenant_id user w) as Hsettled.
  cbv zeta in Hsettled. fold outcome in Hsettled.
  destruct Hsettled as (_ & _ & _ & Hcase).
  split.
  { unfold shown, TenantAdmin.get_tenant_info, get_tenant_odoo_info.
    now destruct (find _ (tenant_info (fst outcome))). }
  destruct (snd outcome) as [info|code detail].
  - destruct Hcase as (-> & row & Hrow & Hstatus & Hdb & Hname & Hflag & Hmods & _).
    unfold shown, TenantAdmin.get_tenant_info. rewrite Hrow. cbn [snd].
    rewrite Hstatus, Hdb, Hname, Hflag, Hmods, or_text_same. reflexivity.
  - destruct (code =? 409) eqn:Hcode.
    + destruct Hcase as [Hsame Hactive]. unfold shown, TenantAdmin.get_tenant_info,
        get_tenant_odoo_info. rewrite Hsame.
      unfold Tenant.already_active in Hactive.
      destruct (find _ (tenant_info w)) as [row|]; [|discriminate].
      destruct (t_status row) as [s|] eqn:Hs; [|discriminate].
      apply String.eqb_eq in Hactive. subst s.
      eexists. split; [reflexivity|]. reflexivity.
    + destruct Hcase as (row & Hrow & Hstatus & Hflag & Hmods & _).
      unfold shown, TenantAdmin.get_tenant_info. rewrite Hrow.
      eexists. split; [reflexivity|].
      cbn [Tenant.status Tenant.installedModules Tenant.energyModulesEnabled].
      rewrite Hstatus, Hflag, Hmods. repeat split; reflexivity.
Qed.

End InfoAfterProvisioning.

(** ** Decommissioning a tenant *)

Section Decommission.
Context {E : Type} {server : OdooServer E} {removal : SubscriptionRemoval}
        {settings : Settings}.

(** Removing subscriptions changes nothing on this side, and its outcome
    depends on the broker alone. *)
Lemma remove_subscriptions_run (tenant_id : string) (types : list string)
    (w w0 : world E) :
  TenantAdmin.remove_subscriptions tenant_id types w
  = (w, snd (TenantAdmin.remove_subscriptions tenant_id types w0)).
Proof.
  induction types as [|entity_type rest IH]; [reflexivity|].
  cbn [TenantAdmin.remove_subscriptions].
  destruct (delete_subscription tenant_id (subscription_id tenant_id entity_type))
    as [response|msg]; [|reflexivity].
  destruct ((status_code response =? 204) || (status_code response =? 404)); exact IH.
Qed.

(** [delete_tenant_odoo], case by case. Without a record it answers 404
    and changes nothing. With a record whose database column is null it
    fails before reaching the server. When the server refuses to drop the
    database the answer is a 500 and the record stays. Once the database
    is dropped the record is gone, also when the removal of the
    subscriptions then fails and the answer is a 500. In every case the
    rows of the mapping table and of the status table stay, those of the
    deleted tenant included, and the records of the other tenants read as
    before. *)
Theorem delete_tenant_odoo_outcome (tenant_id : string) (w : world E) :
  let outcome := TenantAdmin.delete_tenant_odoo tenant_id w in
  entity_mappings (fst outcome) = entity_mappings w
  /\ sync_status (fst outcome) = sync_status w
  /\ (forall other,
         other <> tenant_id ->
         snd (get_tenant_odoo_info other (fst outcome)) = snd (get_tenant_odoo_info other w))
  /\ match find (fun r => String.eqb (t_tenant_id r) tenant_id) (tenant_info w) with
     | None => outcome = (w, HTTPException 404 "Odoo not found for this tenant")
     | Some info =>
         match t_database info with
         | None =>
             outcome
             = (w, HTTPException 500
                     "Failed to delete Odoo: cannot marshal None unless allow_none is enabled")
         | Some db_name =>
             odoo (fst outcome) = fst (OdooClient.delete_database db_name (odoo w))
             /\ match snd (OdooClient.delete_database db_name (odoo w)) with
                | Raise msg =>
                    snd outcome = HTTPException 500 ("Failed to delete Odoo: " ++ msg)
                    /\ tenant_info (fst outcome) = tenant_info w
                | Ok _ =>
                    snd (get_tenant_odoo_info tenant_id (fst outcome)) = Ok None
                    /\ snd outcome
                       = match snd (TenantAdmin.remove_tenant_subscriptions tenant_id w) with
                         | Ok _ => Returns {| TenantAdmin.deleted_status := "deleted";
                                              TenantAdmin.deleted_tenant_id := tenant_id |}
                         | Raise msg =>
                             HTTPException 500 ("Failed to delete Odoo: " ++ msg)
                         end
                end
         end
     end.
Proof.
  intros outcome. unfold outcome, TenantAdmin.delete_tenant_odoo, get_tenant_odoo_info.
  destruct (find (fun r => String.eqb (t_tenant_id r) tenant_id) (tenant_info w))
    as [info|]; [|cbn; repeat split; reflexivity].
  unfold TenantAdmin.delete_steps, bind, raise.
  destruct (t_database info) as [db_name|]; [|cbn; repeat split; reflexivity].
  unfold on_odoo.
  destruct (OdooClient.delete_database db_name (odoo w)) as [e [[]|msg]];
    [|cbn; repeat split; reflexivity].
  rewrite save_returns by exact I. unfold TenantAdmin.remove_tenant_subscriptions.
  rewrite (remove_subscriptions_run tenant_id entity_types _ w).
  set (wd := fst (save_tenant_odoo_info tenant_id None (set_odoo e w))).
  assert (Hmaps : entity_mappings wd = entity_mappings w)
    by apply (save_keeps_other_tables tenant_id None (set_odoo e w)).
  assert (Hstat : sync_status wd = sync_status w)
    by apply (save_keeps_other_tables tenant_id None (set_odoo e w)).
  assert (Hothers : forall other, other <> tenant_id ->
            find (fun r => String.eqb (t_tenant_id r) other) (tenant_info wd)
            = find (fun r => String.eqb (t_tenant_id r) other) (tenant_info w))
    by (intros other Hother; unfold wd;
        now rewrite (tenant_save_others tenant_id other None _ Hother)).
  assert (Hgone : find (fun r => String.eqb (t_tenant_id r) tenant_id) (tenant_info wd) = None)
    by apply tenant_delete_lookup.
  assert (Hodoo : odoo wd = e) by reflexivity.
  destruct (snd (TenantAdmin.remove_subscriptions tenant_id entity_types w)) as [[]|msg];
    cbn [fst snd ret];
    (split; [exact Hmaps|]); (split; [exact Hstat|]);
    (split; [intros other Hother; now rewrite (Hothers other Hother)|]);
    (split; [exact Hodoo|]); rewrite Hgone; split; reflexivity.
Qed.

End Decommission.

(** ** A triggered run and the status it leaves *)

Section StatusTable.
Context {E : Type}.

(** The status row read back after an update whose sync time the driver
    accepts is the row written. *)
Lemma status_update_lookup (tenant_id : string) (status : status_dict)
    (last_sync : option timestamp) (w : world E) :
  timestamptz_nullable "last_sync" (sd_last_sync status) = Ok last_sync ->
  find (fun r => String.eqb (s_tenant_id r) tenant_id)
    (sync_status (fst (update_sync_status tenant_id status w)))
  = Some {| s_tenant_id := tenant_id;
            s_status := sd_status status;
            s_last_sync := last_sync;
            s_entities_synced :=
              match sd_entities_synced status with Some n => n | None => 0 end;
            s_errors := match sd_errors status with Some l => l | None => [] end;
            s_updated_at := clock w |}.
Proof.
  intros Htime. unfold update_sync_status. rewrite Htime.
  cbn [fst set_sync_status sync_status]. unfold upsert.
  destruct (existsb _ (sync_status w)) eqn:Hex.
  - induction (sync_status w) as [|r rows IH]; [discriminate|].
    simpl in *. destruct (String.eqb (s_tenant_id r) tenant_id) eqn:Hr.
    + cbn [s_tenant_id]. now rewrite String.eqb_refl.
    + rewrite Hr. apply IH. exact Hex.
  - induction (sync_status w) as [|r rows IH]; simpl in *.
    + now rewrite String.eqb_refl.
    + apply orb_false_elim in Hex. destruct Hex as [Hr Hrows].
      rewrite Hr. now apply IH.
Qed.

Lemma status_update_others (tenant_id other : string) (status : status_dict)
    (w : world E) :
  other <> tenant_id ->
  find (fun r => String.eqb (s_tenant_id r) other)
    (sync_status (fst (update_sync_status tenant_id status w)))
  = find (fun r => String.eqb (s_tenant_id r) other) (sync_status w).
Proof.
  intros Hother.
  assert (Hnew : String.eqb tenant_id other = false)
    by (apply String.eqb_neq; congruence).
  unfold update_sync_status.
  destruct (timestamptz_nullable "last_sync" (sd_last_sync status)) as [last_sync|msg];
    [|reflexivity].
  cbn [fst set_sync_status sync_status]. unfold upsert.
  destruct (existsb _ (sync_status w)).
  - induction (sync_status w) as [|r rows IH]; [reflexivity|]. simpl.
    destruct (String.eqb (s_tenant_id r) tenant_id) eqn:Hr.
    + cbn [s_tenant_id]. rewrite Hnew.
      apply String.eqb_eq in Hr. rewrite Hr, Hnew. exact IH.
    + destruct (String.eqb (s_tenant_id r) other); [reflexivity|exact IH].
  - induction (sync_status w) as [|r rows IH]; simpl.
    + now rewrite Hnew.
    + destruct (String.eqb (s_tenant_id r) other); [reflexivity|exact IH].
Qed.

(** An update whose sync time is given as text is refused by the driver:
    it raises and stores nothing. *)
Lemma status_update_refuses_text (tenant_id : string) (status : status_dict)
    (t : timestamp) (w : world E) :
  sd_last_sync status = IsoFormat t ->
  exists msg,
    timestamptz_nullable "last_sync" (IsoFormat t) = Raise msg
    /\ update_sync_status tenant_id status w = (w, Raise msg).
Proof.
  intros Htime. unfold update_sync_status. rewrite Htime.
  eexists. split; reflexivity.
Qed.

End StatusTable.

Section TriggeredRun.
Context {str : PyStr} {E : Type} {server : OdooServer E} {broker : ContextBroker}.

(** [full_sync] leaves the three tables alone. *)
Lemma full_sync_keeps_tables (tenant_id : string) (w : world E) :
  tenant_info (fst (full_sync tenant_id w)) = tenant_info w
  /\ entity_mappings (fst (full_sync tenant_id w)) = entity_mappings w
  /\ sync_status (fst (full_sync tenant_id w)) = sync_status w.
Proof.
  apply (sync_types_keeps tenant_id Frame.same_tables).
  - intros w0. repeat split.
  - intros a b c (Ht & Hm & Hs) (Ht' & Hm' & Hs'). repeat split; congruence.
  - intros entity w0 w' r Hrun.
    destruct (sync_outcome _ _ _ _ _ Hrun) as (_ & Ht & Hm & Hs).
    repeat split; assumption.
Qed.

(** [trigger_sync] never returns. The run itself is carried out, so the
    server sees its creates and updates; then the status update hands the
    sync time over as text, the driver refuses it, and the handler answers
    500 with the driver's message. No status row is written: the status
    endpoint answers for every tenant what it answered before the call,
    [never_synced] for a tenant without a row. The tenant and mapping
    tables are as before. *)
Theorem trigger_sync_records_run (tenant_id : string) (w : world E) :
  let outcome := SyncOps.trigger_sync tenant_id w in
  (exists msg,
      timestamptz_nullable "last_sync" (IsoFormat (clock (fst (full_sync tenant_id w))))
      = Raise msg
      /\ snd outcome = HTTPException 500 ("Sync failed: " ++ msg))
  /\ fst outcome = fst (utcnow (fst (full_sync tenant_id w)))
  /\ tenant_info (fst outcome) = tenant_info w
  /\ entity_mappings (fst outcome) = entity_mappings w
  /\ sync_status (fst outcome) = sync_status w
  /\ forall tenant,
       snd (SyncRouter.get_sync_status tenant (fst outcome))
       = snd (SyncRouter.get_sync_status tenant w).
Proof.
  intros outcome.
  destruct (full_sync_always_returns tenant_id w) as (w1 & result & Hrun & _).
  destruct (full_sync_keeps_tables tenant_id w) as (Htenants & Hmaps & Hstatus).
  rewrite Hrun in Htenants, Hmaps, Hstatus. cbn [fst] in Htenants, Hmaps, Hstatus.
  destruct (status_update_refuses_text tenant_id
              {| sd_status := Some "synced";
                 sd_last_sync := IsoFormat (clock w1);
                 sd_entities_synced := Some (synced result);
                 sd_errors := Some (errors result) |}
              (clock w1) (fst (utcnow w1)) eq_refl) as (msg & Hmsg & Hupdate).
  assert (Houtcome :
            outcome = (fst (utcnow w1), HTTPException 500 ("Sync failed: " ++ msg))).
  { unfold outcome, SyncOps.trigger_sync, SyncOps.trigger_steps, bind.
    rewrite Hrun. cbn [utcnow fst] in Hupdate |- *. now rewrite Hupdate. }
  rewrite Houtcome, Hrun. cbn [fst snd].
  split; [exists msg; split; [exact Hmsg|reflexivity]|]. split; [reflexivity|].
  split; [exact Htenants|]. split; [exact Hmaps|]. split; [exact Hstatus|].
  intros tenant. unfold SyncRouter.get_sync_status, Database.get_sync_status.
  cbn [utcnow fst sync_status]. rewrite Hstatus.
  destruct (find _ (sync_status w)) as [row|]; [|reflexivity].
  now destruct (s_status row).
Qed.

End TriggeredRun.

(** ** Creating one entity on request *)

Section CreateOnRequest.
Context {str : PyStr} {E : Type} {server : OdooServer E} {broker : ContextBroker}.

(** [create_entity_from_ngsi], by what the broker hands out for the
    requested id. A failing fetch gives a 500, a missing entity or an empty
    object a 404, and in both cases nothing changed. For a fetched entity
    the call never returns: the sync of the entity raises, the handler
    answers 500 with the message of that exception, and its own write of
    the mapping is not reached. The three tables are as before; what the
    sync did on the server stays. *)
Theorem create_from_ngsi_outcome (request : SyncOps.CreateFromNgsiRequest)
    (tenant_id : string) (w : world E) :
  let outcome := SyncOps.create_entity_from_ngsi request tenant_id w in
  let ngsi_id := SyncOps.req_ngsiLdId request in
  match snd (fetch_entity tenant_id (PStr ngsi_id) w) with
  | Raise msg => outcome = (w, HTTPException 500 ("Failed to create entity: " ++ msg))
  | Ok None | Ok (Some []) => outcome = (w, HTTPException 404 "NGSI-LD entity not found")
  | Ok (Some entity) =>
      exists msg,
        snd (sync_entity_to_odoo tenant_id entity w) = Raise msg
        /\ outcome = (fst (sync_entity_to_odoo tenant_id entity w),
                      HTTPException 500 ("Failed to create entity: " ++ msg))
        /\ tenant_info (fst outcome) = tenant_info w
        /\ entity_mappings (fst outcome) = entity_mappings w
        /\ sync_status (fst outcome) = sync_status w
  end.
Proof.
  intros outcome ngsi_id.
  assert (Hkeep : fst (fetch_entity tenant_id (PStr ngsi_id) w) = w).
  { unfold fetch_entity, bind, lift, ret, raise.
    destruct (get_entity tenant_id (PStr ngsi_id)) as [response|]; [|reflexivity].
    destruct (status_code response =? 200);
      [now destruct (json response)|].
    now destruct (status_code response =? 404). }
  assert (Hout : outcome = SyncOps.create_entity_from_ngsi request tenant_id w)
    by reflexivity.
  clearbody outcome.
  unfold SyncOps.create_entity_from_ngsi, SyncOps.create_steps in Hout.
  fold ngsi_id in Hout. unfold bind at 1 in Hout.
  destruct (fetch_entity tenant_id (PStr ngsi_id) w) as [w0 fetched].
  cbn [fst] in Hkeep. subst w0. cbn [snd].
  destruct fetched as [[[|field rest]|]|msg]; try exact Hout.
  cbv beta iota in Hout. set (entity := field :: rest) in *.
  unfold bind at 1 in Hout.
  destruct (sync_always_raises tenant_id entity w) as (w1 & msg & Hsync & Ht & Hm & Hs).
  rewrite Hsync in Hout. rewrite Hsync. cbn [fst snd].
  exists msg. split; [reflexivity|]. split; [exact Hout|].
  rewrite Hout. cbn [fst]. split; [exact Ht|]. split; [exact Hm|exact Hs].
Qed.

End CreateOnRequest.

(** A request for the parcel [urn:x:1] of tenant [t1]: the server creates
    record 10, the answer is a 500, and no mapping row is stored. *)
Lemma create_from_ngsi_outcome_witness :
  let request := {| SyncOps.req_ngsiLdId := "urn:x:1";
                    SyncOps.req_ngsiLdType := "Device" |} in
  let outcome := SyncOps.create_entity_from_ngsi (str := Demo.render)
                   (server := Demo.toy_odoo) (broker := Cases.parcel_broker)
                   request "t1" Demo.w0 in
  (exists msg, snd outcome = HTTPException 500 ("Failed to create entity: " ++ msg))
  /\ Demo.next_id (odoo Demo.w0) = 10
  /\ Demo.next_id (odoo (fst outcome)) = 11
  /\ entity_mappings (fst outcome) = [].
Proof.
  intros request outcome.
  pose proof (create_from_ngsi_outcome (str := Demo.render) (server := Demo.toy_odoo)
                (broker := Cases.parcel_broker) request "t1" Demo.w0) as Hcase.
  cbv zeta in Hcase.
  change (snd (fetch_entity (broker := Cases.parcel_broker) "t1"
                 (PStr (SyncOps.req_ngsiLdId request)) Demo.w0))
    with (Ok (Some (Demo.parcel "urn:x:1"))) in Hcase.
  cbv beta iota delta [Demo.parcel] in Hcase.
  destruct Hcase as (msg & Hmsg & Hout & _ & Hmaps & _).
  fold outcome in Hout, Hmaps.
  split; [exists msg; now rewrite Hout|]. split; [reflexivity|].
  split; [rewrite Hout; vm_compute; reflexivity|].
  rewrite Hmaps. reflexivity.
Defined.

(** A run over the sample broker for tenant [t1], which has no status
    row: the answer is a 500 and the status endpoint still says
    [never_synced]. *)
Lemma trigger_sync_records_run_witness :
  let outcome := SyncOps.trigger_sync (str := Demo.render) (server := Demo.toy_odoo)
                   (broker := Demo.broker) "t1" Demo.w0 in
  (exists msg, snd outcome = HTTPException 500 ("Sync failed: " ++ msg))
  /\ sync_status (fst outcome) = []
  /\ snd (SyncRouter.get_sync_status "t1" (fst outcome))
     = Returns {| SyncRouter.status := "never_synced"; SyncRouter.lastSync := None |}.
Proof.
  intros outcome.
  destruct (trigger_sync_records_run (str := Demo.render) (server := Demo.toy_odoo)
              (broker := Demo.broker) "t1" Demo.w0)
    as ((msg & _ & Hreply) & _ & _ & _ & Hstatus & Hshown).
  fold outcome in Hreply, Hstatus, Hshown.
  split; [exists msg; exact Hreply|]. split; [rewrite Hstatus; reflexivity|].
  rewrite (Hshown "t1"). reflexivity.
Defined.

(** ** Workflow events *)

Section FrameRules.
Context {E : Type}.

Lemma same_tables_refl (w : world E) : Frame.same_tables w w.
Proof. repeat split. Qed.

Lemma same_tables_trans (a b c : world E) :
  Frame.same_tables a b -> Frame.same_tables b c -> Frame.same_tables a c.
Proof.
  intros (Ht1 & Hm1 & Hs1) (Ht2 & Hm2 & Hs2).
  split; [congruence|]. split; congruence.
Qed.

Lemma keeps_ret {A : Type} (a : A) : Frame.keeps_tables (E := E) (ret a).
Proof. intros w. apply same_tables_refl. Qed.

Lemma keeps_raise {A : Type} (msg : string) : Frame.keeps_tables (E := E) (A := A) (raise msg).
Proof. intros w. apply same_tables_refl. Qed.

Lemma keeps_lift {A : Type} (r : result A) : Frame.keeps_tables (E := E) (lift r).
Proof. intros w. apply same_tables_refl. Qed.

Lemma keeps_utcnow : Frame.keeps_tables (E := E) utcnow.
Proof. intros w. repeat split. Qed.

Lemma keeps_on_odoo {A : Type} (c : M E A) : Frame.keeps_tables (on_odoo c).
Proof. intros w. unfold on_odoo. destruct (c (odoo w)). repeat split. Qed.

Lemma keeps_get_tenant (tenant_id : string) :
  Frame.keeps_tables (E := E) (get_tenant_odoo_info tenant_id).
Proof. intros w. apply same_tables_refl. Qed.

Lemma keeps_bind {A B : Type} (c : M (world E) A) (k : A -> M (world E) B) :
  Frame.keeps_tables c -> (forall a, Frame.keeps_tables (k a)) ->
  Frame.keeps_tables (bind c k).
Proof.
  intros Hc Hk w. unfold bind. specialize (Hc w).
  destruct (c w) as [w1 [a|msg]]; [|exact Hc].
  exact (same_tables_trans _ _ _ Hc (Hk a w1)).
Qed.

Lemma keeps_try {A : Type} (c : M (world E) A) (h : string -> M (world E) A) :
  Frame.keeps_tables c -> (forall e, Frame.keeps_tables (h e)) ->
  Frame.keeps_tables (try_except c h).
Proof.
  intros Hc Hh w. unfold try_except. specialize (Hc w).
  destruct (c w) as [w1 [a|msg]]; [exact Hc|].
  exact (same_tables_trans _ _ _ Hc (Hh msg w1)).
Qed.

End FrameRules.

Ltac keep_tables :=
  repeat first
    [ apply keeps_ret | apply keeps_raise | apply keeps_lift | apply keeps_utcnow
    | apply keeps_on_odoo | apply keeps_get_tenant
    | apply keeps_bind; [|intros ?]
    | apply keeps_try; [|intros ?]
    | match goal with
      | |- Frame.keeps_tables (if ?b then _ else _) => destruct b
      | |- Frame.keeps_tables (match ?x with _ => _ end) => destruct x
      end ].

Section WorkflowEvents.
Context {str : PyStr} {E : Type} {server : OdooServer E} {broker : ContextBroker}
        {clock_format : TimeFormat}.

Lemma keeps_database_lookup (tenant_id : string) :
  Frame.keeps_tables (N8N._get_odoo_database (E := E) tenant_id).
Proof. unfold N8N._get_odoo_database. keep_tables. Qed.

Lemma keeps_find_partner (db_name : option string) (payload : pydict) :
  Frame.keeps_tables (N8N.find_partner (E := E) db_name payload).
Proof. unfold N8N.find_partner. keep_tables. Qed.

Lemma keeps_find_product (db_name : option string) (line : pydict) :
  Frame.keeps_tables (N8N.find_product (E := E) db_name line).
Proof. unfold N8N.find_product. keep_tables. Qed.

Lemma keeps_prepare_lines (db_name : option string) (entry : pyval -> pydict -> pydict)
    (lines : list pyval) :
  Frame.keeps_tables (N8N.prepare_lines (E := E) db_name entry lines).
Proof.
  induction lines as [|line rest IH]; [apply keeps_ret|].
  destruct line; try apply keeps_raise.
  cbn [N8N.prepare_lines].
  apply keeps_bind; [apply keeps_find_product|intros product_id].
  apply keeps_bind; [exact IH|intros entries]. apply keeps_ret.
Qed.

Lemma keeps_invoice (tenant_id : string) (payload : pydict) :
  Frame.keeps_tables (N8N._handle_invoice_create (E := E) tenant_id payload).
Proof.
  unfold N8N._handle_invoice_create.
  apply keeps_bind; [apply keeps_database_lookup|intros db_name].
  apply keeps_bind; [apply keeps_find_partner|intros partner_id].
  destruct (negb (truthy partner_id)); [apply keeps_raise|].
  apply keeps_bind; [apply keeps_lift|intros lines].
  apply keeps_bind; [apply keeps_prepare_lines|intros entries].
  keep_tables.
Qed.

Lemma keeps_order (tenant_id : string) (payload : pydict) :
  Frame.keeps_tables (N8N._handle_order_create (E := E) tenant_id payload).
Proof.
  unfold N8N._handle_order_create.
  apply keeps_bind; [apply keeps_database_lookup|intros db_name].
  apply keeps_bind; [apply keeps_find_partner|intros partner_id].
  destruct (negb (truthy partner_id)); [apply keeps_raise|].
  apply keeps_bind; [apply keeps_lift|intros lines].
  apply keeps_bind; [apply keeps_prepare_lines|intros entries].
  keep_tables.
Qed.

Lemma keeps_energy_log (tenant_id : string) (payload : pydict) :
  Frame.keeps_tables (N8N._handle_energy_log (E := E) tenant_id payload).
Proof.
  unfold N8N._handle_energy_log.
  apply keeps_bind; [apply keeps_database_lookup|intros db_name].
  keep_tables.
Qed.

Lemma keeps_product_update (tenant_id : string) (payload : pydict) :
  Frame.keeps_tables (N8N._handle_product_update (E := E) tenant_id payload).
Proof.
  unfold N8N._handle_product_update.
  apply keeps_bind; [apply keeps_database_lookup|intros db_name].
  keep_tables.
Qed.

(** The world a handled event ends in is the one its handler ends in. *)
Lemma handled_world {A B : Type} (c : M (world E) A) (f : A -> B) (g : string -> B)
    (w : world E) :
  fst (try_except (bind c (fun a => ret (f a))) (fun e => ret (g e)) w) = fst (c w)
  /\ exists reply,
      snd (try_except (bind c (fun a => ret (f a))) (fun e => ret (g e)) w) = Ok reply.
Proof.
  unfold try_except, bind, ret. destruct (c w) as [w1 [a|msg]]; cbn; eauto.
Qed.

Lemma fetch_entity_keeps_world (tenant_id : string) (entity_id : pyval) (w : world E) :
  fst (fetch_entity tenant_id entity_id w) = w.
Proof.
  unfold fetch_entity, bind, lift, ret, raise.
  destruct (get_entity tenant_id entity_id) as [response|]; [|reflexivity].
  destruct (status_code response =? 200); [now destruct (json response)|].
  now destruct (status_code response =? 404).
Qed.

Section SyncRequest.
Variable tenant_id : string.
Variable kept : world E -> world E -> Prop.
Hypothesis kept_refl : forall w, kept w w.
Hypothesis kept_trans : forall a b c, kept a b -> kept b c -> kept a c.
Hypothesis kept_by_sync :
  forall entity w w' r, sync_entity_to_odoo tenant_id entity w = (w', r) -> kept w w'.

(** What every sync keeps, a sync request keeps. *)
Lemma sync_request_keeps (payload : pydict) (w : world E) :
  kept w (fst (N8N._handle_sync_request tenant_id payload w)).
Proof.
  unfold N8N._handle_sync_request.
  destruct (truthy (dict_get payload "full")).
  - unfold bind, full_sync.
    pose proof (sync_types_keeps tenant_id kept kept_refl kept_trans kept_by_sync
                  entity_types {| synced := 0; errors := [] |} w) as Hrun.
    destruct (sync_types tenant_id entity_types {| synced := 0; errors := [] |} w)
      as [w1 [result|msg]]; exact Hrun.
  - destruct (truthy (dict_get payload "entity_id")); [|apply kept_refl].
    unfold bind at 1.
    pose proof (fetch_entity_keeps_world tenant_id (dict_get payload "entity_id") w)
      as Hfetch.
    destruct (fetch_entity tenant_id (dict_get payload "entity_id") w)
      as [w0 [[[|field fields]|]|msg]]; cbn [fst] in Hfetch; subst w0;
      try apply kept_refl.
    unfold bind.
    destruct (sync_entity_to_odoo tenant_id (field :: fields) w) as [w1 r] eqn:Hsync.
    pose proof (kept_by_sync _ _ _ _ Hsync) as Hstep.
    destruct r; exact Hstep.
Qed.

End SyncRequest.

(** A workflow event always gets a reply, errors included. Whatever the
    event and its payload, the tenant table and the status table are as
    before, the uniqueness constraint of the mapping table survives and
    the mapping reads of every other tenant return what they returned
    before. Only a sync request can change the mapping table at all, and an
    event outside the table of handlers changes nothing. *)
Theorem workflow_event_confined (tenant_id event : string) (payload : pydict)
    (w : world E) :
  let run := N8N.handle_event tenant_id event payload w in
  (exists reply, snd run = Ok reply)
  /\ tenant_info (fst run) = tenant_info w
  /\ sync_status (fst run) = sync_status w
  /\ (unique_mappings (entity_mappings w) -> unique_mappings (entity_mappings (fst run)))
  /\ (forall other,
         other <> tenant_id ->
         forall ngsi_type i,
           snd (get_entity_mappings other ngsi_type (fst run))
           = snd (get_entity_mappings other ngsi_type w)
           /\ snd (get_entity_mapping_by_ngsi_id other i (fst run))
              = snd (get_entity_mapping_by_ngsi_id other i w))
  /\ (event <> "sync.request" -> entity_mappings (fst run) = entity_mappings w)
  /\ (dict_has (N8N.handlers (E := E)) event = false ->
      run = (w, Ok (N8N.EventIgnored ("Unknown event: " ++ event)))).
Proof.
  intros run.
  destruct (confined_refl_trans (E := E) tenant_id) as [Hrefl Htrans].
  assert (Hsame : forall w', Frame.same_tables w w' ->
            tenant_info w' = tenant_info w
            /\ sync_status w' = sync_status w
            /\ (unique_mappings (entity_mappings w) -> unique_mappings (entity_mappings w'))
            /\ (forall other,
                   other <> tenant_id ->
                   forall ngsi_type i,
                     snd (get_entity_mappings other ngsi_type w')
                     = snd (get_entity_mappings other ngsi_type w)
                     /\ snd (get_entity_mapping_by_ngsi_id other i w')
                        = snd (get_entity_mapping_by_ngsi_id other i w))
            /\ entity_mappings w' = entity_mappings w).
  { intros w' (Ht & Hm & Hs). split; [exact Ht|]. split; [exact Hs|].
    split; [now rewrite Hm|]. split; [|exact Hm].
    intros other Hother ngsi_type i.
    unfold get_entity_mappings, get_entity_mapping_by_ngsi_id. cbn [snd].
    now rewrite Hm. }
  assert (Hodoo : forall handler : string -> pydict -> M (world E) pydict,
            (forall t d, Frame.keeps_tables (handler t d)) ->
            let r := try_except
                       (bind (handler tenant_id payload)
                          (fun result => ret (N8N.EventSuccess result)))
                       (fun e => ret (N8N.EventError e)) w in
            (exists reply, snd r = Ok reply)
            /\ tenant_info (fst r) = tenant_info w
            /\ sync_status (fst r) = sync_status w
            /\ (unique_mappings (entity_mappings w)
                -> unique_mappings (entity_mappings (fst r)))
            /\ (forall other,
                   other <> tenant_id ->
                   forall ngsi_type i,
                     snd (get_entity_mappings other ngsi_type (fst r))
                     = snd (get_entity_mappings other ngsi_type w)
                     /\ snd (get_entity_mapping_by_ngsi_id other i (fst r))
                        = snd (get_entity_mapping_by_ngsi_id other i w))
            /\ entity_mappings (fst r) = entity_mappings w).
  { intros handler Hkeeps r.
    destruct (handled_world (handler tenant_id payload) N8N.EventSuccess N8N.EventError w)
      as [Hworld Hreply].
    split; [exact Hreply|]. unfold r. rewrite Hworld.
    exact (Hsame _ (Hkeeps tenant_id payload w)). }
  unfold run, N8N.handle_event, N8N.handlers, dict_has. cbn [dict_lookup].
  destruct (String.eqb "odoo.invoice.create" event).
  { destruct (Hodoo _ keeps_invoice) as (H1 & H2 & H3 & H4 & H5 & H6).
    repeat (split; [assumption|]). split; [intros _; exact H6|discriminate]. }
  destruct (String.eqb "odoo.order.create" event).
  { destruct (Hodoo _ keeps_order) as (H1 & H2 & H3 & H4 & H5 & H6).
    repeat (split; [assumption|]). split; [intros _; exact H6|discriminate]. }
  destruct (String.eqb "odoo.energy.log" event).
  { destruct (Hodoo _ keeps_energy_log) as (H1 & H2 & H3 & H4 & H5 & H6).
    repeat (split; [assumption|]). split; [intros _; exact H6|discriminate]. }
  destruct (String.eqb "odoo.product.update" event).
  { destruct (Hodoo _ keeps_product_update) as (H1 & H2 & H3 & H4 & H5 & H6).
    repeat (split; [assumption|]). split; [intros _; exact H6|discriminate]. }
  destruct (String.eqb "sync.request" event) eqn:Hevent.
  - apply String.eqb_eq in Hevent.
    destruct (handled_world (N8N._handle_sync_request tenant_id payload)
                N8N.EventSuccess N8N.EventError w) as [Hworld Hreply].
    split; [exact Hreply|]. rewrite Hworld.
    pose proof (sync_request_keeps tenant_id _ Hrefl Htrans (sync_step_confined tenant_id)
                  payload w) as Hkept.
    destruct Hkept as (H2 & H3 & H4 & H5).
    repeat (split; [assumption|]).
    split; [intros Hother; now contradiction Hother|discriminate].
  - cbn. destruct (Hsame w (same_tables_refl w)) as (H2 & H3 & H4 & H5 & H6).
    split; [eexists; reflexivity|]. repeat (split; [assumption|]).
    split; [intros _; reflexivity|reflexivity].
Qed.

(** Every event is answered. *)
Lemma handle_event_replies (tenant_id event : string) (payload : pydict) (w : world E) :
  exists reply, snd (N8N.handle_event tenant_id event payload w) = Ok reply.
Proof.
  unfold N8N.handle_event.
  destruct (dict_lookup N8N.handlers event) as [handler|]; [|eexists; reflexivity].
  apply (handled_world (handler tenant_id payload) N8N.EventSuccess N8N.EventError w).
Qed.

(** An energy reading, case by case. Without a tenant record, or with
    neither an installation nor a meter id, the reply is an error and
    nothing changed. Otherwise the reply is always a success: it carries
    the id of the new reading when the server created one, in the
    installation's model when an installation id is given and in the
    meter's otherwise, and the notice that the reading was skipped for
    whatever made the creation fail. *)
Theorem energy_log_reply (tenant_id : string) (payload : pydict) (w : world E) :
  let run := N8N.handle_event tenant_id "odoo.energy.log" payload w in
  let installation_id := dict_get payload "installation_id" in
  let meter_id := dict_get payload "meter_id" in
  match find (fun r => String.eqb (t_tenant_id r) tenant_id) (tenant_info w) with
  | None =>
      run = (w, Ok (N8N.EventError ("No Odoo configured for tenant: " ++ tenant_id)))
  | Some tenant =>
      if truthy installation_id || truthy meter_id
      then
        let created :=
          OdooClient.create_record (t_database tenant)
            (if truthy installation_id then "energy.reading" else "energy.meter.reading")
            [ ("installation_id", installation_id);
              ("meter_id", meter_id);
              ("value", dict_get_default payload "value" (PInt 0));
              ("reading_date",
               dict_get_default payload "timestamp" (PStr (isoformat (clock w))));
              ("reading_type", dict_get_default payload "type" (PStr "production")) ]
            (odoo w) in
        run = (set_odoo (fst created) (fst (utcnow w)),
               Ok (N8N.EventSuccess
                     match snd created with
                     | Ok reading_id => [("reading_id", reading_id)]
                     | Raise _ => [ ("status", PStr "skipped");
                                    ("reason", PStr "Energy module not installed") ]
                     end))
      else run = (w, Ok (N8N.EventError "installation_id or meter_id required"))
  end.
Proof.
  intros run installation_id meter_id.
  assert (Hrun : run = try_except
                         (bind (N8N._handle_energy_log tenant_id payload)
                            (fun result => ret (N8N.EventSuccess result)))
                         (fun e => ret (N8N.EventError e)) w) by reflexivity.
  clearbody run.
  unfold N8N._handle_energy_log, N8N._get_odoo_database, get_tenant_odoo_info,
    try_except, bind, raise, ret, utcnow, on_odoo in Hrun.
  cbv beta in Hrun. fold installation_id meter_id in Hrun.
  destruct (find (fun r => String.eqb (t_tenant_id r) tenant_id) (tenant_info w))
    as [tenant|]; [|exact Hrun].
  cbv beta iota zeta in Hrun. cbv zeta.
  destruct (truthy installation_id); destruct (truthy meter_id);
    cbn [negb andb orb] in *; cbv iota in *; try exact Hrun;
    cbn [odoo clock] in Hrun;
    match type of Hrun with
    | context [OdooClient.create_record ?db ?m ?v ?e] =>
        destruct (OdooClient.create_record db m v e) as [e1 [reading_id|msg]]
    end; exact Hrun.
Qed.

(** A sync request, case by case. A truthy [full] wins over an entity id
    and runs [full_sync]: the reply is always a success, carrying the
    number of synced entities and the number of error messages. With an
    entity id the entity is fetched and synced: a missing or empty entity
    is answered as a success with nothing synced and nothing changed, and a
    failing fetch or sync as an error. With neither, nothing happens. *)
Theorem sync_request_reply (tenant_id : string) (payload : pydict) (w : world E) :
  let run := N8N.handle_event tenant_id "sync.request" payload w in
  if truthy (dict_get payload "full")
  then exists outcome,
         full_sync tenant_id w = (fst run, Ok outcome)
         /\ snd run
            = Ok (N8N.EventSuccess
                    [ ("synced", PInt (synced outcome));
                      ("errors", PInt (Z.of_nat (length (errors outcome)))) ])
  else if truthy (dict_get payload "entity_id")
  then match snd (fetch_entity tenant_id (dict_get payload "entity_id") w) with
       | Raise msg => run = (w, Ok (N8N.EventError msg))
       | Ok None | Ok (Some []) =>
           run = (w, Ok (N8N.EventSuccess
                           [("synced", PInt 0); ("error", PStr "Entity not found")]))
       | Ok (Some entity) =>
           fst run = fst (sync_entity_to_odoo tenant_id entity w)
           /\ snd run
              = match snd (sync_entity_to_odoo tenant_id entity w) with
                | Ok odoo_record =>
                    Ok (N8N.EventSuccess
                          [("synced", PInt 1); ("odoo_id", r_id odoo_record)])
                | Raise msg => Ok (N8N.EventError msg)
                end
       end
  else run = (w, Ok (N8N.EventSuccess [("status", PStr "no_action")])).
Proof.
  intros run.
  assert (Hrun : run = try_except
                         (bind (N8N._handle_sync_request tenant_id payload)
                            (fun result => ret (N8N.EventSuccess result)))
                         (fun e => ret (N8N.EventError e)) w) by reflexivity.
  clearbody run. unfold N8N._handle_sync_request in Hrun.
  destruct (truthy (dict_get payload "full")).
  - destruct (full_sync_always_returns tenant_id w) as (w1 & outcome & Hfull & _).
    unfold try_except, bind in Hrun. rewrite Hfull in Hrun. cbn [ret] in Hrun.
    subst run. exists outcome. split; [exact Hfull|reflexivity].
  - destruct (truthy (dict_get payload "entity_id")); [|exact Hrun].
    pose proof (fetch_entity_keeps_world tenant_id (dict_get payload "entity_id") w)
      as Hfetch.
    unfold try_except, bind in Hrun.
    destruct (fetch_entity tenant_id (dict_get payload "entity_id") w)
      as [w0 [[[|field fields]|]|msg]]; cbn [fst] in Hfetch; subst w0; cbn [snd];
      try exact Hrun.
    destruct (sync_entity_to_odoo tenant_id (field :: fields) w) as [w1 [r|msg]];
      subst run; split; reflexivity.
Qed.

End WorkflowEvents.

(** An energy reading for a meter of tenant [tenant-a]: the mapping table
    and what tenant [tenant-b] reads from it are as before. *)
Lemma workflow_event_confined_witness :
  let run := N8N.handle_event (str := Demo.render) (server := Demo.toy_odoo)
               (broker := Demo.broker) (clock_format := Cases.fixed_format)
               "tenant-a" "odoo.energy.log" Cases.meter_reading Demo.w_two_tenants in
  entity_mappings (fst run) = entity_mappings Demo.w_two_tenants
  /\ snd (get_entity_mappings "tenant-b" None (fst run))
     = snd (get_entity_mappings "tenant-b" None Demo.w_two_tenants).
Proof.
  intros run.
  destruct (workflow_event_confined (str := Demo.render) (server := Demo.toy_odoo)
              (broker := Demo.broker) (clock_format := Cases.fixed_format)
              "tenant-a" "odoo.energy.log" Cases.meter_reading Demo.w_two_tenants)
    as (_ & _ & _ & _ & Hothers & Hmappings & _).
  split.
  - apply Hmappings. discriminate.
  - assert (Hother : "tenant-b" <> "tenant-a") by discriminate.
    exact (proj1 (Hothers "tenant-b" Hother None "urn:x:1")).
Defined.

(** ** The workflow webhook and its signature *)

Section SignedWebhook.
Context {str : PyStr} {E : Type} {server : OdooServer E} {broker : ContextBroker}
        {clock_format : TimeFormat} {signing : WebhookSigning}.

(** [handle_n8n_webhook] runs the event exactly when no secret is
    configured or the signature header is the digest of the payload under
    the secret (a digest being a non-empty ASCII string). When it runs it
    always returns, with the event's name and the reply of [handle_event],
    whatever the event did. When it refuses, with a 401, or a 500 for a
    signature holding a non-ASCII character, nothing changed. *)
Theorem n8n_webhook_outcome (payload : N8NWebhookPayload) (signature : option string)
    (w : world E) :
  let digest := hmac_sha256_hex N8N_WEBHOOK_SECRET (model_dump_json payload) in
  let handled := N8N.handle_event (payload_tenant_id payload) (event payload)
                   (data payload) w in
  let outcome := WorkflowWebhook.handle_n8n_webhook payload signature w in
  digest <> "" ->
  WorkflowWebhook.all_ascii digest = true ->
  match snd outcome with
  | Returns reply =>
      (N8N_WEBHOOK_SECRET = "" \/ signature = Some digest)
      /\ WorkflowWebhook.reply_event reply = event payload
      /\ snd handled = Ok (WorkflowWebhook.reply_result reply)
      /\ fst outcome = fst (utcnow (fst handled))
  | HTTPException code _ =>
      fst outcome = w
      /\ N8N_WEBHOOK_SECRET <> ""
      /\ signature <> Some digest
      /\ (code = 401
          \/ code = 500
             /\ exists given, signature = Some given
                              /\ WorkflowWebhook.all_ascii given = false)
  end.
Proof.
  intros digest handled outcome Hnonempty Hascii.
  assert (Hrun : forall w0 : world E,
            WorkflowWebhook.run_n8n payload w
            = (fst (utcnow (fst handled)),
               Returns {| WorkflowWebhook.reply_event := event payload;
                          WorkflowWebhook.reply_result :=
                            match snd handled with
                            | Ok reply => reply
                            | Raise e => N8N.EventError e
                            end;
                          WorkflowWebhook.reply_timestamp := clock (fst handled) |})
            /\ exists reply, snd handled = Ok reply).
  { intros _.
    destruct (handle_event_replies (payload_tenant_id payload) (event payload)
                (data payload) w) as [reply Hreply].
    fold handled in Hreply. split; [|now exists reply].
    unfold WorkflowWebhook.run_n8n, WorkflowWebhook.n8n_steps, bind.
    fold handled. destruct handled as [w1 r]. cbn [snd] in Hreply. subst r.
    reflexivity. }
  destruct (Hrun w) as [Hreturned [reply Hreply]]. clear Hrun.
  unfold outcome, WorkflowWebhook.handle_n8n_webhook.
  destruct (String.eqb N8N_WEBHOOK_SECRET "") eqn:Hsecret.
  { rewrite Hreturned. cbn [fst snd WorkflowWebhook.reply_event
                            WorkflowWebhook.reply_result].
    apply String.eqb_eq in Hsecret. rewrite Hreply.
    split; [now left|]. repeat split; reflexivity. }
  apply String.eqb_neq in Hsecret.
  destruct signature as [given|].
  2: { cbn. split; [reflexivity|]. split; [exact Hsecret|].
       split; [discriminate|now left]. }
  destruct (String.eqb given "") eqn:Hgiven.
  { apply String.eqb_eq in Hgiven. subst given. cbn.
    split; [reflexivity|]. split; [exact Hsecret|].
    split; [|now left]. intros Heq. injection Heq as Heq. now apply Hnonempty. }
  unfold WorkflowWebhook._verify_n8n_signature. fold digest.
  destruct (WorkflowWebhook.all_ascii given) eqn:Hgiven_ascii.
  - destruct (String.eqb digest given) eqn:Hmatch.
    + apply String.eqb_eq in Hmatch. subst given.
      rewrite Hreturned. cbn [fst snd WorkflowWebhook.reply_event
                               WorkflowWebhook.reply_result].
      rewrite Hreply. split; [now right|]. repeat split; reflexivity.
    + apply String.eqb_neq in Hmatch. cbn.
      split; [reflexivity|]. split; [exact Hsecret|].
      split; [|now left]. intros Heq. injection Heq as Heq. now apply Hmatch.
  - cbn. split; [reflexivity|]. split; [exact Hsecret|]. split.
    + intros Heq. injection Heq as Heq. subst given. congruence.
    + right. split; [reflexivity|]. now exists given.
Qed.

End SignedWebhook.

(** A sync request signed with the configured secret is run, and none
    of the four entities of the sample broker is counted as synced; the
    same request with another signature is refused and changes nothing. *)
Lemma n8n_webhook_outcome_witness :
  let payload := {| workflow_id := "wf-1"; execution_id := "ex-1";
                    event := "sync.request"; data := [("full", PBool true)];
                    payload_tenant_id := "t1" |} in
  let handle := WorkflowWebhook.handle_n8n_webhook (str := Demo.render)
                  (server := Demo.toy_odoo) (broker := Demo.broker)
                  (clock_format := Cases.fixed_format) (signing := Cases.signing)
                  payload in
  (exists reply,
      snd (handle (Some "mac(s3cret,sync.request)") Demo.w0) = Returns reply
      /\ WorkflowWebhook.reply_result reply
         = N8N.EventSuccess [("synced", PInt 0); ("errors", PInt 4)])
  /\ fst (handle (Some "forged") Demo.w0) = Demo.w0.
Proof.
  intros payload handle. split.
  - pose proof (n8n_webhook_outcome (str := Demo.render) (server := Demo.toy_odoo)
                  (broker := Demo.broker) (clock_format := Cases.fixed_format)
                  (signing := Cases.signing) payload
                  (Some "mac(s3cret,sync.request)") Demo.w0) as Hcase.
    cbv zeta in Hcase. fold handle in Hcase.
    assert (Hreturned : exists reply,
              snd (handle (Some "mac(s3cret,sync.request)") Demo.w0) = Returns reply)
      by (eexists; vm_compute; reflexivity).
    destruct Hreturned as [reply Hreturned]. rewrite Hreturned in Hcase.
    destruct Hcase as (_ & _ & Hresult & _); [discriminate|reflexivity|].
    exists reply. split; [exact Hreturned|].
    vm_compute in Hresult. injection Hresult as Hresult. exact (eq_sym Hresult).
  - pose proof (n8n_webhook_outcome (str := Demo.render) (server := Demo.toy_odoo)
                  (broker := Demo.broker) (clock_format := Cases.fixed_format)
                  (signing := Cases.signing) payload (Some "forged") Demo.w0) as Hcase.
    cbv zeta in Hcase. fold handle in Hcase.
    assert (Hrefused : snd (handle (Some "forged") Demo.w0)
                       = HTTPException 401 "Invalid webhook signature")
      by (vm_compute; reflexivity).
    rewrite Hrefused in Hcase.
    destruct Hcase as (Hsame & _); [discriminate|reflexivity|exact Hsame].
Defined.

(** ** The connector's transform *)

Section DictFacts.
Context {A : Type}.

Lemma dict_lookup_set_same (d : list (string * A)) (k : string) (v : A) :
  dict_lookup (dict_set d k v) k = Some v.
Proof.
  induction d as [|[k' v'] d IH]; simpl.
  - now rewrite String.eqb_refl.
  - destruct (String.eqb k' k) eqn:Hk; simpl; rewrite Hk; [reflexivity|exact IH].
Qed.

Lemma dict_lookup_set_other (d : list (string * A)) (k k' : string) (v : A) :
  k <> k' -> dict_lookup (dict_set d k v) k' = dict_lookup d k'.
Proof.
  intros Hother. induction d as [|[k0 v0] d IH]; simpl.
  - apply String.eqb_neq in Hother. now rewrite Hother.
  - destruct (String.eqb k0 k) eqn:Hk; simpl.
    + apply String.eqb_eq in Hk. subst k0.
      apply String.eqb_neq in Hother. now rewrite Hother.
    + destruct (String.eqb k0 k'); [reflexivity|exact IH].
Qed.

End DictFacts.

Section ConnectorTransform.
Context {dumps : JsonDumps}.

Lemma copy_value_other (payload : pydict) (key field k : string) (values : pydict) :
  field <> k ->
  dict_lookup (Connector.copy_value payload key field values) k = dict_lookup values k.
Proof.
  intros Hother. unfold Connector.copy_value.
  destruct (dict_lookup payload key); [|reflexivity].
  now apply dict_lookup_set_other.
Qed.

Lemma copy_location_other (payload values : pydict) (k : string) :
  "x_location" <> k ->
  dict_lookup (Connector.copy_location payload values) k = dict_lookup values k.
Proof.
  intros Hother. unfold Connector.copy_location.
  destruct (dict_lookup payload "location"); [|reflexivity].
  now apply dict_lookup_set_other.
Qed.

Lemma device_type_of_selection (device_type : pyval) (t : string) :
  Connector.device_type_of device_type = Ok t ->
  In t ["sensor"; "actuator"; "gateway"; "weather_station"; "other"].
Proof.
  destruct device_type as [| | | |s| |]; try discriminate;
    try (intros Heq; injection Heq as <-; do 4 right; now left).
  unfold Connector.device_type_of, Connector.type_map. cbn [dict_lookup].
  intros Heq. apply Ok_inj in Heq. rewrite <- Heq. clear Heq.
  destruct (String.eqb "Sensor" s); [now left|].
  destruct (String.eqb "Actuator" s); [right; now left|].
  destruct (String.eqb "Gateway" s); [do 2 right; now left|].
  destruct (String.eqb "WeatherStation" s); [do 3 right; now left|].
  do 4 right; now left.
Qed.

(** For a device, whatever the payload holds, the transform hands Odoo
    only values its selection fields know: a device type is emitted
    exactly when the payload has a [deviceType], and it is one of the five
    selection values; a status is emitted only when the payload has a
    [status], and it is one of the four status values. *)
Theorem device_selections_valid (payload values : pydict) :
  Connector._transform_ngsi_to_odoo (PStr "Device") payload = Ok values ->
  dict_has values "x_device_type" = dict_has payload "deviceType"
  /\ (forall v,
         dict_lookup values "x_device_type" = Some v ->
         exists t, v = PStr t
                   /\ In t ["sensor"; "actuator"; "gateway"; "weather_station"; "other"])
  /\ (forall v,
         dict_lookup values "x_status" = Some v ->
         dict_has payload "status" = true
         /\ exists s, v = PStr s /\ In s Connector.status_values).
Proof.
  unfold Connector._transform_ngsi_to_odoo.
  change (is_type (PStr "Device") "AgriParcel") with false.
  change (is_type (PStr "Device") "Device") with true. cbv iota.
  set (named := Connector.copy_value payload "name" "name" []).
  assert (Hnamed : forall k, "name" <> k -> dict_lookup named k = None).
  { intros k Hk. unfold named. now rewrite copy_value_other. }
  unfold Connector.transform_device, dict_has.
  (* the device type *)
  assert (Htyped : forall typed,
            match dict_lookup payload "deviceType" with
            | Some prop =>
                match Connector.device_type_of (Connector._get_value prop) with
                | Ok t => Ok (dict_set named "x_device_type" (PStr t))
                | Raise msg => Raise msg
                end
            | None => Ok named
            end = Ok typed ->
            dict_lookup typed "x_status" = None
            /\ match dict_lookup payload "deviceType" with
               | Some _ =>
                   exists t, dict_lookup typed "x_device_type" = Some (PStr t)
                             /\ In t ["sensor"; "actuator"; "gateway";
                                      "weather_station"; "other"]
               | None => dict_lookup typed "x_device_type" = None
               end).
  { intros typed. destruct (dict_lookup payload "deviceType") as [prop|].
    - destruct (Connector.device_type_of (Connector._get_value prop)) as [t|] eqn:Ht;
        [|discriminate].
      intros Heq. injection Heq as <-. split.
      + rewrite dict_lookup_set_other by discriminate. apply Hnamed. discriminate.
      + exists t. split; [apply dict_lookup_set_same|].
        exact (device_type_of_selection _ _ Ht).
    - intros Heq. injection Heq as <-. split; apply Hnamed; discriminate. }
  match goal with
  | |- match ?step with Ok _ => _ | Raise _ => _ end = _ -> _ =>
      destruct step as [typed|] eqn:Htype_step; [|discriminate]
  end.
  destruct (Htyped typed eq_refl) as [Hno_status Htype]. clear Htyped Htype_step.
  (* the status *)
  assert (Hstatus : forall with_status,
            match dict_lookup payload "status" with
            | Some prop =>
                match Connector.status_of (Connector._get_value prop) with
                | Ok status =>
                    Ok (if existsb (String.eqb status) Connector.status_values
                        then dict_set typed "x_status" (PStr status)
                        else typed)
                | Raise msg => Raise msg
                end
            | None => Ok typed
            end = Ok with_status ->
            dict_lookup with_status "x_device_type" = dict_lookup typed "x_device_type"
            /\ forall v,
                 dict_lookup with_status "x_status" = Some v ->
                 (exists prop, dict_lookup payload "status" = Some prop)
                 /\ exists s, v = PStr s /\ In s Connector.status_values).
  { intros with_status. destruct (dict_lookup payload "status") as [prop|].
    - destruct (Connector.status_of (Connector._get_value prop)) as [status|];
        [|discriminate].
      destruct (existsb (String.eqb status) Connector.status_values) eqn:Hallowed;
        intros Heq; injection Heq as <-.
      + split; [apply dict_lookup_set_other; discriminate|].
        intros v Hv. rewrite dict_lookup_set_same in Hv. injection Hv as <-.
        split; [now exists prop|]. exists status. split; [reflexivity|].
        apply existsb_exists in Hallowed. destruct Hallowed as (s & Hin & Heq).
        apply String.eqb_eq in Heq. now subst s.
      + split; [reflexivity|]. intros v Hv. rewrite Hno_status in Hv. discriminate.
    - intros Heq. injection Heq as <-. split; [reflexivity|].
      intros v Hv. rewrite Hno_status in Hv. discriminate. }
  match goal with
  | |- match ?step with Ok _ => _ | Raise _ => _ end = _ -> _ =>
      destruct step as [with_status|] eqn:Hstatus_step; [|discriminate]
  end.
  destruct (Hstatus with_status eq_refl) as [Hkeeps_type Hstatus_value].
  clear Hstatus Hstatus_step.
  intros Heq. injection Heq as <-.
  rewrite !copy_location_other by discriminate.
  rewrite !copy_value_other by discriminate.
  rewrite Hkeeps_type.
  split; [|split].
  - destruct (dict_lookup payload "deviceType").
    + destruct Htype as (t & -> & _). reflexivity.
    + now rewrite Htype.
  - intros v Hv. destruct (dict_lookup payload "deviceType").
    + destruct Htype as (t & Ht & Hin). rewrite Ht in Hv. injection Hv as <-.
      now exists t.
    + rewrite Htype in Hv. discriminate.
  - intros v Hv. destruct (Hstatus_value v Hv) as [[prop Hprop] Hvalue].
    rewrite Hprop. split; [reflexivity|exact Hvalue].
Qed.

End ConnectorTransform.

(** On a property that is not an object, on a wrapper with a truthy
    [value], and on a wrapper with no [value] but an [@value], the
    connector's [_get_value] and the backend's [_get_property_value] read
    the same value. They part on a wrapper whose value is zero, false or
    empty: the backend keeps that value, the connector hands on nothing. *)
Theorem connector_reads_like_backend (entity : pydict) (property_name : string)
    (prop : pyval) :
  dict_lookup entity property_name = Some prop ->
  match prop with
  | PDict wrapper =>
      if dict_has wrapper "value" then truthy (dict_get wrapper "value")
      else dict_has wrapper "@value"
  | _ => true
  end = true ->
  Connector._get_value prop = _get_property_value entity property_name PNone
  /\ forall v,
       truthy v = false ->
       Connector._get_value (PDict [("value", v)]) = PNone
       /\ _get_property_value [(property_name, PDict [("value", v)])] property_name PNone
          = v.
Proof.
  intros Hprop Hshape. split.
  - unfold _get_property_value, dict_get, dict_get_default. rewrite Hprop.
    destruct prop as [| | | | | |wrapper]; try reflexivity.
    unfold Connector._get_value, py_or, dict_has, dict_get, dict_get_default in *.
    destruct (dict_lookup wrapper "value") as [v|].
    + now rewrite Hshape.
    + cbn [truthy]. destruct (dict_lookup wrapper "@value"); [reflexivity|discriminate].
  - intros v Hfalsy. split.
    + unfold Connector._get_value, py_or.
      change (dict_get [("value", v)] "value") with v. now rewrite Hfalsy.
    + unfold _get_property_value, dict_get, dict_get_default.
      cbn [dict_lookup]. rewrite String.eqb_refl.
      destruct v; try reflexivity.
Qed.

Lemma connector_reads_like_backend_witness :
  Connector._get_value (PDict [("value", PFloat "3.5")])
  = _get_property_value (Demo.parcel "urn:x:1") "area" PNone
  /\ Connector._get_value (PDict [("value", PInt 0)]) = PNone
  /\ _get_property_value [("area", PDict [("value", PInt 0)])] "area" PNone = PInt 0.
Proof.
  destruct (connector_reads_like_backend (Demo.parcel "urn:x:1") "area"
              (PDict [("value", PFloat "3.5")]) eq_refl eq_refl) as [Hsame Hpart].
  split; [exact Hsame|]. exact (Hpart (PInt 0) eq_refl).
Defined.

(** A device whose type is unknown and whose status is spelled in
    capitals. *)
Lemma device_selections_valid_witness :
  let values := [ ("x_device_type", PStr "other"); ("x_status", PStr "online") ] in
  dict_has values "x_device_type" = true
  /\ exists s, PStr "online" = PStr s /\ In s Connector.status_values.
Proof.
  intros values.
  destruct (device_selections_valid (dumps := fun _ => "null")
              [ ("deviceType", PStr "Drone"); ("status", PDict [("value", PStr "ONLINE")]) ]
              values eq_refl) as (Htype & _ & Hstatus).
  split; [exact Htype|].
  exact (proj2 (Hstatus (PStr "online") eq_refl)).
Defined.

(** ** The authentication gate *)

Lemma string_app_empty (s : string) : s ++ "" = s.
Proof. induction s as [|c s IH]; [reflexivity|]. simpl. now rewrite IH. Qed.

(** Reading on through a run without whitespace. *)
Lemma py_words_from_run (run : string) :
  forall current rest,
    Auth.no_space run = true ->
    Auth.py_words_from current (run ++ rest) = Auth.py_words_from (current ++ run) rest.
Proof.
  induction run as [|c run IH]; intros current rest Hrun.
  - now rewrite string_app_empty.
  - simpl in Hrun. apply andb_prop in Hrun. destruct Hrun as [Hc Hrun].
    apply negb_true_iff in Hc.
    change (String c run ++ rest) with (String c (run ++ rest)).
    cbn [Auth.py_words_from]. rewrite Hc. rewrite (IH _ _ Hrun).
    now rewrite string_app_assoc.
Qed.

(** Two words with one blank between them. *)
Lemma py_words_pair (first second : string) :
  Auth.no_space first = true -> first <> "" ->
  Auth.no_space second = true -> second <> "" ->
  Auth.py_words (first ++ " " ++ second) = [first; second].
Proof.
  intros Hfirst Hfirst_nonempty Hsecond Hsecond_nonempty.
  unfold Auth.py_words. rewrite (py_words_from_run first "" _ Hfirst).
  change ("" ++ first) with first.
  change (" " ++ second) with (String " " second).
  cbn [Auth.py_words_from]. change (Auth.is_space " ") with true. cbv iota.
  destruct first as [|c first]; [now contradiction Hfirst_nonempty|].
  f_equal.
  rewrite <- (string_app_empty second) at 1.
  rewrite (py_words_from_run second "" "" Hsecond).
  change ("" ++ second) with second. cbn [Auth.py_words_from].
  destruct second; [now contradiction Hsecond_nonempty|reflexivity].
Qed.

Lemma lower_keeps_blanks (c : ascii) :
  Auth.is_space (lower_ascii c) = false -> Auth.is_space c = false.
Proof.
  destruct c as [[] [] [] [] [] [] [] []]; vm_compute; intros H;
    first [reflexivity | exact H].
Qed.

Lemma lower_no_space (s : string) :
  Auth.no_space (lower s) = true -> Auth.no_space s = true.
Proof.
  induction s as [|c s IH]; [reflexivity|]. simpl. intros Hs.
  apply andb_prop in Hs. destruct Hs as [Hc Hs]. apply negb_true_iff in Hc.
  rewrite (lower_keeps_blanks c Hc). now rewrite (IH Hs).
Qed.

Section AuthGate.
Context {validator : TokenValidator}.

(** Nothing passes the gate unauthenticated except what the code lets
    through by name: a request is handed on only if its path is one of the
    exempt paths, or its method is OPTIONS, or its [Authorization] header
    is two words, a scheme that reads bearer in any letter case and a token
    the validator accepted; and then the state holds the claims of that
    token. A handler that asks for the tenant of a request that was let
    through without a token gets a 400. *)
Theorem auth_gate_sound (r : request) (state : option (pydict * pyval)) :
  Auth.dispatch r = Auth.Forward state ->
  (state = None
   /\ (In (path r) Auth.EXEMPT_PATHS \/ method r = "OPTIONS")
   /\ Auth.get_current_tenant state = HTTPException 400 "Tenant ID not found")
  \/ exists auth_header scheme token claims tenant_id,
       authorization r = Some auth_header
       /\ Auth.py_words auth_header = [scheme; token]
       /\ lower scheme = "bearer"
       /\ validate_token token = TokenValid claims
       /\ Auth.extract_tenant_id r claims = Ok tenant_id
       /\ state = Some (claims, tenant_id).
Proof.
  unfold Auth.dispatch.
  destruct (existsb (String.eqb (path r)) Auth.EXEMPT_PATHS) eqn:Hexempt.
  { intros Heq. injection Heq as <-. left. split; [reflexivity|]. split; [|reflexivity].
    left. apply existsb_exists in Hexempt. destruct Hexempt as (p & Hin & Hp).
    apply String.eqb_eq in Hp. now rewrite Hp. }
  destruct (String.eqb (method r) "OPTIONS") eqn:Hmethod.
  { intros Heq. injection Heq as <-. left. split; [reflexivity|]. split; [|reflexivity].
    right. now apply String.eqb_eq. }
  destruct (authorization r) as [auth_header|]; [|discriminate].
  destruct (String.eqb auth_header ""); [discriminate|].
  destruct (Auth.py_words auth_header) as [|scheme [|token [|extra rest]]] eqn:Hwords;
    try discriminate.
  destruct (String.eqb (lower scheme) "bearer") eqn:Hscheme; [|discriminate].
  destruct (validate_token token) as [claims| | |msg] eqn:Hvalid; try discriminate.
  destruct (Auth.extract_tenant_id r claims) as [tenant_id|] eqn:Htenant; [|discriminate].
  intros Heq. injection Heq as <-. right.
  exists auth_header, scheme, token, claims, tenant_id.
  apply String.eqb_eq in Hscheme. repeat split; assumption || reflexivity.
Qed.

(** The tenant a protected handler works for is the one named in the
    [X-Tenant-ID] header, when there is one: for every accepted token,
    whatever its claims say about tenants and even when they are malformed,
    the request is handed on with the header's tenant. *)
Theorem tenant_header_overrides_claims (r : request) (scheme token tenant_id : string)
    (claims : pydict) :
  existsb (String.eqb (path r)) Auth.EXEMPT_PATHS = false ->
  method r <> "OPTIONS" ->
  authorization r = Some (scheme ++ " " ++ token) ->
  lower scheme = "bearer" ->
  Auth.no_space token = true ->
  token <> "" ->
  validate_token token = TokenValid claims ->
  x_tenant_id r = Some tenant_id ->
  tenant_id <> "" ->
  Auth.dispatch r = Auth.Forward (Some (claims, PStr tenant_id))
  /\ Auth.get_current_tenant (Some (claims, PStr tenant_id)) = Returns (PStr tenant_id).
Proof.
  intros Hpath Hmethod Hheader Hscheme Htoken Htoken_nonempty Hvalid Htenant Hnonempty.
  assert (Hscheme_run : Auth.no_space scheme = true)
    by (apply lower_no_space; now rewrite Hscheme).
  assert (Hscheme_nonempty : scheme <> "")
    by (intros ->; discriminate).
  split.
  - unfold Auth.dispatch. rewrite Hpath.
    apply String.eqb_neq in Hmethod. rewrite Hmethod, Hheader.
    destruct (String.eqb (scheme ++ " " ++ token) "") eqn:Hempty.
    { apply String.eqb_eq in Hempty. destruct scheme; [|discriminate].
      now contradiction Hscheme_nonempty. }
    rewrite (py_words_pair scheme token Hscheme_run Hscheme_nonempty Htoken
               Htoken_nonempty).
    rewrite Hscheme, String.eqb_refl, Hvalid.
    unfold Auth.extract_tenant_id. rewrite Htenant.
    apply String.eqb_neq in Hnonempty. now rewrite Hnonempty.
  - unfold Auth.get_current_tenant. cbn [truthy].
    apply String.eqb_neq in Hnonempty. now rewrite Hnonempty.
Qed.

End AuthGate.

(** A reader's token for tenant [t1], sent with the header of tenant
    [t9], reaches the mappings handler as tenant [t9]. *)
Lemma tenant_header_overrides_claims_witness :
  let r := {| path := "/api/odoo/sync/mappings"; method := "GET";
              authorization := Some "Bearer good-token";
              x_tenant_id := Some "t9" |} in
  Auth.dispatch (validator := Cases.validator) r
  = Auth.Forward (Some ([ ("preferred_username", PStr "ana"); ("tenant_id", PStr "t1") ],
                        PStr "t9"))
  /\ Auth.get_current_tenant
       (Some ([ ("preferred_username", PStr "ana"); ("tenant_id", PStr "t1") ], PStr "t9"))
     = Returns (PStr "t9").
Proof.
  intros r.
  apply (tenant_header_overrides_claims (validator := Cases.validator) r
           "Bearer" "good-token" "t9").
  - reflexivity.
  - discriminate.
  - reflexivity.
  - reflexivity.
  - reflexivity.
  - discriminate.
  - reflexivity.
  - reflexivity.
  - discriminate.
Defined.

(** The Odoo webhook path is not among the exempt ones: without a token
    it is answered with a 401, so what passes the gate there carries
    claims. *)
Lemma auth_gate_sound_witness :
  let r := {| path := "/api/odoo/webhook/n8n"; method := "POST";
              authorization := None; x_tenant_id := None |} in
  Auth.dispatch (validator := Cases.validator) r = Auth.Forward None
  /\ Auth.get_current_tenant None = HTTPException 400 "Tenant ID not found".
Proof.
  intros r.
  destruct (auth_gate_sound (validator := Cases.validator) r None eq_refl)
    as [(_ & _ & Hasked)|(h & s & t & c & i & _ & _ & _ & _ & _ & Habs)].
  - split; [reflexivity|exact Hasked].
  - discriminate.
Defined.
